(** * reMarkable HWMON keyboard driver ([rm_hwmon_keyboard.c])

    A shallow embedding of the keyboard accessory driver: the attribute
    readers and their registry table, the key matrix, the single-slot
    attribute writer, the firmware update sequence and the connect
    sequence, followed by the properties established about them.

    The driver talks to the rest of the kernel (the HSP transport, the
    firmware-update helper, the input core, the allocator).  Every such call
    is recorded, with its result, in a trace kept in the state; the results
    themselves are supplied by an environment [Env] whose answers may depend
    on the whole history so far. *)

From stdpp Require Import base option list functions gmap strings pretty.
From Stdlib Require Import ZArith Lia.

#[local] Open Scope Z_scope.

(** ** Constants *)

Definition FWU_MAX_PACKET_SIZE : Z := 256.
Definition MAX_BL_BRIGHTNESS : Z := 255.
Definition ATTRIBUTES_NR_OF_BKLS : Z := 6.

(** [enum condor_language] *)
Definition LANGUAGE_MIN : Z := 0.
Definition DE : Z := 1.
Definition ES : Z := 2.
Definition FR : Z := 3.
Definition IT : Z := 4.
Definition NO : Z := 5.
Definition PT : Z := 6.
Definition UK : Z := 7.
Definition US : Z := 8.
Definition LANGUAGE_MAX : Z := 9.

(** [enum condor_attribute_ids] *)
Definition KB_ATTR_ID_PROTOCOL_VERSION : Z := 0x01.
Definition KB_ATTR_ID_FW_VERSION : Z := 0x02.
Definition KB_ATTR_ID_HW_VERSION : Z := 0x03.
Definition KB_ATTR_ID_DEVICE_CLASS : Z := 0x04.
Definition KB_ATTR_ID_DEVICE_ID : Z := 0x05.
Definition KB_ATTR_ID_IMAGE_START_ADDRESS : Z := 0x06.
Definition KB_ATTR_ID_DEVICE_NAME : Z := 0x07.
Definition KB_ATTR_ID_GIT_INFO : Z := 0x08.
Definition KB_ATTR_ID_VALID_IMAGE : Z := 0x09.
Definition KB_ATTR_ID_KEY_LAYOUT : Z := 0x10.
Definition KB_ATTR_ID_LANGUAGE : Z := 0x11.
Definition KB_ATTR_ID_RM_SERIAL_NUMBER : Z := 0x12.
Definition KB_ATTR_ID_CN_SERIAL_NUMBER : Z := 0x13.
Definition KB_ATTR_ID_MFG_PROD_RECORDS : Z := 0x20.
Definition KB_ATTR_ID_ALIVE_MESSAGE_TIMEOUT_MS : Z := 0x30.
Definition KB_ATTR_ID_MATRIX_SCAN_DELAY_US : Z := 0x31.
Definition KB_ATTR_ID_KEY_DEBOUNCE_TIME_MS : Z := 0x40.
Definition KB_ATTR_ID_DEBOUNCE_TIME_PRECISION_MS : Z := 0x41.
Definition KB_ATTR_ID_BACKLIGHT_RANGE : Z := 0x50.
Definition KB_ATTR_ID_BKL_COEFF : Z := 0x51.
Definition KB_ATTR_ID_BKL_BRIGHTNESS : Z := 0x52.
Definition KB_ATTR_ID_KEY_LIGHT_CAPS : Z := 0x53.
Definition KB_ATTR_ID_KEY_LIGHT_RM : Z := 0x54.

(** Linux error numbers and input-layer constants used by the driver
    ([errno-base.h], [input-event-codes.h], [input.h]). *)
Definition ENXIO : Z := 6.
Definition ENOEXEC : Z := 8.
Definition ENOMEM : Z := 12.
Definition EACCES : Z := 13.
Definition EBUSY : Z := 16.
Definition ENODEV : Z := 19.
Definition EINVAL : Z := 22.

Definition EV_KEY : Z := 0x01.
Definition EV_LED : Z := 0x11.
Definition EV_REP : Z := 0x14.
Definition LED_CAPSL : Z := 0x01.
Definition LED_MISC : Z := 0x08.
Definition BUS_HOST : Z := 0x19.

(** Fixed-width C integers over [Z], with the wrap-around written out. *)
Definition u8 (v : Z) : Z := v mod 2 ^ 8.
Definition u16 (v : Z) : Z := v mod 2 ^ 16.
Definition u32 (v : Z) : Z := v mod 2 ^ 32.
Definition int32 (v : Z) : Z := (v + 2 ^ 31) mod 2 ^ 32 - 2 ^ 31.

(** ** Data model *)

(** A [char *]: [None] is [NULL], [Some a] the address of a block of the
    device-managed heap. *)
Definition ptr : Type := option N.

(** The attribute storage types of [rm_hwmon_api.h].  The tag also travels on
    the wire as the element subtype of an array, where any other byte may
    arrive. *)
Inductive storage_type : Type :=
  | ATTRIBUTE_STORAGE_DATA_UNSIGNED_8_BIT
  | ATTRIBUTE_STORAGE_DATA_UNSIGNED_16_BIT
  | ATTRIBUTE_STORAGE_DATA_UNSIGNED_32_BIT
  | ATTRIBUTE_STORAGE_DATA_32_BIT
  | ATTRIBUTE_STORAGE_DATA_BOOLEAN
  | ATTRIBUTE_STORAGE_DATA_ENUM_8_BIT
  | ATTRIBUTE_STORAGE_DATA_ARRAY
  | ATTRIBUTE_STORAGE_DATA_CHARACTER_STRING
  | ATTRIBUTE_STORAGE_DATA_OTHER (tag : Z).

#[global] Instance storage_type_eq_dec : EqDecision storage_type.
Proof. solve_decision. Defined.

(** [data.array]: element subtype, element count as announced by the sender,
    and the elements as the bytes that follow in the receive buffer (indexed
    like the flexible C array, whatever the announced count). *)
Record attribute_array : Type := {
  subtype : storage_type;
  n_len : Z;
  array_data : nat → Z
}.

(** [data.octets]: the string bytes; [str_len] is their number. *)
Record attribute_octets : Type := { str : list Z }.

Definition str_len (o : attribute_octets) : Z := Z.of_nat (length (str o)).

(** [struct attribute_rx]: the attribute id and the members of the [data]
    union the driver reads.  Each reader looks at one member only, so the
    members are kept side by side and nothing is assumed on how the union
    overlays them. *)
Record attribute_rx : Type := {
  rx_id : Z;
  u8_data : Z;
  u16_data : Z;
  u32_data : Z;
  bool_data : bool;
  array : attribute_array;
  octets : attribute_octets
}.

(** [struct attribute_tx]: the write buffer, with the two members of its
    [data] union the driver fills in. *)
Record attribute_tx : Type := {
  tx_u8_data : Z;
  tx_subtype : storage_type;
  tx_n_len : Z;
  tx_array_data : nat → Z
}.

(** [struct fw_version] and the part of [struct firmware_update] the driver
    touches; [fwu_private] stands for the fields only [rm_hwmon_fwu] uses. *)
Record fw_version : Type := { major : Z; minor : Z }.

Record fwu_header : Type := { fw_version_of : fw_version }.

Record firmware_update : Type := {
  max_packet_size : Z;
  endpoint : Z;
  header : fwu_header;
  current_fw_version : fw_version;
  current_image_start_address : Z;
  fwu_private : Z
}.

(** [struct work_struct]: only the pending bit of the work queue matters. *)
Record work_struct : Type := { pending : bool }.

(** [struct mutex] *)
Record mutex : Type := { locked : bool }.

(** [struct kb_attr_write] *)
Record kb_attr_write : Type := {
  worker : work_struct;
  request : option attribute_tx;
  attribute : Z;
  data_length : Z
}.

(** [struct input_dev], the fields the driver and [matrix_keypad_build_keymap]
    set.  The bit arrays are bit masks; [event_cb] tells that the [event]
    callback is [rm_hwmon_kb_event]. *)
Record input_dev : Type := {
  name : string;
  phys : string;
  uniq : ptr;
  id_bustype : Z;
  id_vendor : Z;
  id_product : Z;
  id_version : Z;
  event_cb : bool;
  keycode : list Z;
  keycodemax : Z;
  evbit : Z;
  keybit : Z;
  ledbit : Z
}.

(** [struct kb_data].  The two [struct device] handles are left out: the
    driver only passes them on. *)
Record kb_data : Type := {
  kb_dev : option input_dev;
  kb_connect_work : work_struct;
  kb_connect_lock : mutex;
  attr_writer : kb_attr_write;
  kb_row_shift : Z;
  key_layout : Z;
  language : Z;
  rm_serial_number : ptr;
  cn_serial_number : ptr;
  mfg_prod_records : Z;
  device_name : ptr;
  git_info : Z;
  bl_brightness : Z;
  bl_brightness_array : list Z;
  is_image_valid : bool;
  rm_key_light : bool;
  caps_key_light : bool;
  rm_key_on_after_resume : bool;
  fwu : firmware_update
}.

(** [struct rm_hwmon_kb_keymap_data] *)
Record rm_hwmon_kb_keymap_data : Type := {
  keymap : list Z;
  row : Z;
  col : Z
}.

(** [struct rm_hwmon_kb_key_event] *)
Record rm_hwmon_kb_key_event : Type := {
  pressed : Z;
  ev_row : Z;
  column : Z;
  seq_num : Z
}.

(** The commands of [struct hsp_packet] the endpoint callback tells apart. *)
Inductive hsp_cmd : Type :=
  | HSP_CMD_ACCS_CONNECT
  | HSP_CMD_ACCS_DISCONNECT
  | HSP_CMD_KEY_EVENT
  | HSP_CMD_ACCS_AUTHORIZE_REQUEST
  | HSP_CMD_OTHER (code : Z).

Record hsp_packet : Type := {
  command : hsp_cmd;
  pkt_length : Z;
  data : list Z
}.

Inductive work : Type := KbConnectWork | AttrWriterWork.

(** ** Calls into the rest of the kernel

    One constructor per call the driver makes, carrying the arguments that
    matter and the result that came back. *)
Inductive io_event : Type :=
  | EvReadAttributes (ids : list Z) (ret : Z)
  | EvKrealloc (old : ptr) (size : Z) (res : ptr)
  | EvWriteCmd (cmd : hsp_cmd) (ret : Z)
  | EvAllocWriteBuffer (len : Z) (ok : bool)
  | EvWriteAttribute (id : Z) (req : attribute_tx) (len : Z) (ret : Z)
  | EvFwuLoadAndCheck (avail : bool)
  | EvFwuInit (ret : Z)
  | EvFwuTransferBinary (ret : Z)
  | EvFwuValidateImage (ret : Z)
  | EvFwuSetImageActive (ret : Z)
  | EvFwuReleaseFirmware
  | EvInputAllocateDevice (ok : bool)
  | EvBuildKeymap (ret : Z)
  | EvInputRegisterDevice (dev : input_dev) (ret : Z)
  | EvInputUnregisterDevice (dev : input_dev)
  | EvScheduleWork (w : work) (queued : bool)
  | EvInputReportKey (code : option Z) (value : Z)
  | EvInputSync
  | EvReqComplete (ret : Z).

(** The state the driver runs in: its own [kb_data], the device-managed heap
    holding the strings, the parent's [next_suspend_is_slumber] flag, and the
    trace of the calls made so far (oldest first). *)
Record state : Type := {
  pd : kb_data;
  heap : gmap N (list Z);
  next_suspend_is_slumber : bool;
  trace : list io_event
}.

(** The environment: what each call answers, given the history. *)
Record Env : Type := {
  read_attributes_reply : list io_event → list Z → list attribute_rx * Z;
  krealloc_result : list io_event → ptr → Z → ptr;
  write_cmd_ret : list io_event → hsp_cmd → Z;
  alloc_write_buffer_result : list io_event → Z → option attribute_tx;
  write_attribute_ret : list io_event → Z → attribute_tx → Z → Z;
  fwu_load_and_check_result :
    list io_event → firmware_update → option (list Z) → bool * firmware_update;
  fwu_init_result : list io_event → firmware_update → Z * firmware_update;
  fwu_transfer_binary_result : list io_event → firmware_update → Z * firmware_update;
  fwu_validate_image_result : list io_event → firmware_update → Z * firmware_update;
  fwu_set_image_active_result : list io_event → firmware_update → Z * firmware_update;
  fwu_release_firmware_result : list io_event → firmware_update → firmware_update;
  input_allocate_device_ok : list io_event → bool;
  keymap_alloc_ok : list io_event → bool;
  input_register_device_ret : list io_event → input_dev → Z
}.

(** ** Field updates *)

Definition set_worker (v : work_struct) (p : kb_attr_write) : kb_attr_write :=
  {| worker := v; request := request p; attribute := attribute p;
     data_length := data_length p |}.

Definition set_request (v : option attribute_tx) (p : kb_attr_write) : kb_attr_write :=
  {| worker := worker p; request := v; attribute := attribute p;
     data_length := data_length p |}.

Definition set_attribute (v : Z) (p : kb_attr_write) : kb_attr_write :=
  {| worker := worker p; request := request p; attribute := v;
     data_length := data_length p |}.

Definition set_data_length (v : Z) (p : kb_attr_write) : kb_attr_write :=
  {| worker := worker p; request := request p; attribute := attribute p;
     data_length := v |}.

Definition set_max_packet_size (v : Z) (p : firmware_update) : firmware_update :=
  {| max_packet_size := v; endpoint := endpoint p; header := header p;
     current_fw_version := current_fw_version p;
     current_image_start_address := current_image_start_address p;
     fwu_private := fwu_private p |}.

Definition set_endpoint (v : Z) (p : firmware_update) : firmware_update :=
  {| max_packet_size := max_packet_size p; endpoint := v; header := header p;
     current_fw_version := current_fw_version p;
     current_image_start_address := current_image_start_address p;
     fwu_private := fwu_private p |}.

Definition set_header (v : fwu_header) (p : firmware_update) : firmware_update :=
  {| max_packet_size := max_packet_size p; endpoint := endpoint p; header := v;
     current_fw_version := current_fw_version p;
     current_image_start_address := current_image_start_address p;
     fwu_private := fwu_private p |}.

Definition set_current_fw_version (v : fw_version) (p : firmware_update) : firmware_update :=
  {| max_packet_size := max_packet_size p; endpoint := endpoint p; header := header p;
     current_fw_version := v;
     current_image_start_address := current_image_start_address p;
     fwu_private := fwu_private p |}.

Definition set_current_image_start_address (v : Z) (p : firmware_update) : firmware_update :=
  {| max_packet_size := max_packet_size p; endpoint := endpoint p; header := header p;
     current_fw_version := current_fw_version p; current_image_start_address := v;
     fwu_private := fwu_private p |}.

Definition set_fwu_private (v : Z) (p : firmware_update) : firmware_update :=
  {| max_packet_size := max_packet_size p; endpoint := endpoint p; header := header p;
     current_fw_version := current_fw_version p;
     current_image_start_address := current_image_start_address p; fwu_private := v |}.

Definition set_name (v : string) (p : input_dev) : input_dev :=
  {| name := v; phys := phys p; uniq := uniq p; id_bustype := id_bustype p;
     id_vendor := id_vendor p; id_product := id_product p; id_version := id_version p;
     event_cb := event_cb p; keycode := keycode p; keycodemax := keycodemax p;
     evbit := evbit p; keybit := keybit p; ledbit := ledbit p |}.

Definition set_phys (v : string) (p : input_dev) : input_dev :=
  {| name := name p; phys := v; uniq := uniq p; id_bustype := id_bustype p;
     id_vendor := id_vendor p; id_product := id_product p; id_version := id_version p;
     event_cb := event_cb p; keycode := keycode p; keycodemax := keycodemax p;
     evbit := evbit p; keybit := keybit p; ledbit := ledbit p |}.

Definition set_uniq (v : ptr) (p : input_dev) : input_dev :=
  {| name := name p; phys := phys p; uniq := v; id_bustype := id_bustype p;
     id_vendor := id_vendor p; id_product := id_product p; id_version := id_version p;
     event_cb := event_cb p; keycode := keycode p; keycodemax := keycodemax p;
     evbit := evbit p; keybit := keybit p; ledbit := ledbit p |}.

Definition set_id_bustype (v : Z) (p : input_dev) : input_dev :=
  {| name := name p; phys := phys p; uniq := uniq p; id_bustype := v;
     id_vendor := id_vendor p; id_product := id_product p; id_version := id_version p;
     event_cb := event_cb p; keycode := keycode p; keycodemax := keycodemax p;
     evbit := evbit p; keybit := keybit p; ledbit := ledbit p |}.

Definition set_id_vendor (v : Z) (p : input_dev) : input_dev :=
  {| name := name p; phys := phys p; uniq := uniq p; id_bustype := id_bustype p;
     id_vendor := v; id_product := id_product p; id_version := id_version p;
     event_cb := event_cb p; keycode := keycode p; keycodemax := keycodemax p;
     evbit := evbit p; keybit := keybit p; ledbit := ledbit p |}.

Definition set_id_product (v : Z) (p : input_dev) : input_dev :=
  {| name := name p; phys := phys p; uniq := uniq p; id_bustype := id_bustype p;
     id_vendor := id_vendor p; id_product := v; id_version := id_version p;
     event_cb := event_cb p; keycode := keycode p; keycodemax := keycodemax p;
     evbit := evbit p; keybit := keybit p; ledbit := ledbit p |}.

Definition set_id_version (v : Z) (p : input_dev) : input_dev :=
  {| name := name p; phys := phys p; uniq := uniq p; id_bustype := id_bustype p;
     id_vendor := id_vendor p; id_product := id_product p; id_version := v;
     event_cb := event_cb p; keycode := keycode p; keycodemax := keycodemax p;
     evbit := evbit p; keybit := keybit p; ledbit := ledbit p |}.

Definition set_event_cb (v : bool) (p : input_dev) : input_dev :=
  {| name := name p; phys := phys p; uniq := uniq p; id_bustype := id_bustype p;
     id_vendor := id_vendor p; id_product := id_product p; id_version := id_version p;
     event_cb := v; keycode := keycode p; keycodemax := keycodemax p; evbit := evbit p;
     keybit := keybit p; ledbit := ledbit p |}.

Definition set_keycode (v : list Z) (p : input_dev) : input_dev :=
  {| name := name p; phys := phys p; uniq := uniq p; id_bustype := id_bustype p;
     id_vendor := id_vendor p; id_product := id_product p; id_version := id_version p;
     event_cb := event_cb p; keycode := v; keycodemax := keycodemax p; evbit := evbit p;
     keybit := keybit p; ledbit := ledbit p |}.

Definition set_keycodemax (v : Z) (p : input_dev) : input_dev :=
  {| name := name p; phys := phys p; uniq := uniq p; id_bustype := id_bustype p;
     id_vendor := id_vendor p; id_product := id_product p; id_version := id_version p;
     event_cb := event_cb p; keycode := keycode p; keycodemax := v; evbit := evbit p;
     keybit := keybit p; ledbit := ledbit p |}.

Definition set_evbit (v : Z) (p : input_dev) : input_dev :=
  {| name := name p; phys := phys p; uniq := uniq p; id_bustype := id_bustype p;
     id_vendor := id_vendor p; id_product := id_product p; id_version := id_version p;
     event_cb := event_cb p; keycode := keycode p; keycodemax := keycodemax p;
     evbit := v; keybit := keybit p; ledbit := ledbit p |}.

Definition set_keybit (v : Z) (p : input_dev) : input_dev :=
  {| name := name p; phys := phys p; uniq := uniq p; id_bustype := id_bustype p;
     id_vendor := id_vendor p; id_product := id_product p; id_version := id_version p;
     event_cb := event_cb p; keycode := keycode p; keycodemax := keycodemax p;
     evbit := evbit p; keybit := v; ledbit := ledbit p |}.

Definition set_ledbit (v : Z) (p : input_dev) : input_dev :=
  {| name := name p; phys := phys p; uniq := uniq p; id_bustype := id_bustype p;
     id_vendor := id_vendor p; id_product := id_product p; id_version := id_version p;
     event_cb := event_cb p; keycode := keycode p; keycodemax := keycodemax p;
     evbit := evbit p; keybit := keybit p; ledbit := v |}.

Definition set_kb_dev (v : option input_dev) (p : kb_data) : kb_data :=
  {| kb_dev := v; kb_connect_work := kb_connect_work p;
     kb_connect_lock := kb_connect_lock p; attr_writer := attr_writer p;
     kb_row_shift := kb_row_shift p; key_layout := key_layout p; language := language p;
     rm_serial_number := rm_serial_number p; cn_serial_number := cn_serial_number p;
     mfg_prod_records := mfg_prod_records p; device_name := device_name p;
     git_info := git_info p; bl_brightness := bl_brightness p;
     bl_brightness_array := bl_brightness_array p; is_image_valid := is_image_valid p;
     rm_key_light := rm_key_light p; caps_key_light := caps_key_light p;
     rm_key_on_after_resume := rm_key_on_after_resume p; fwu := fwu p |}.

Definition set_kb_connect_work (v : work_struct) (p : kb_data) : kb_data :=
  {| kb_dev := kb_dev p; kb_connect_work := v; kb_connect_lock := kb_connect_lock p;
     attr_writer := attr_writer p; kb_row_shift := kb_row_shift p;
     key_layout := key_layout p; language := language p;
     rm_serial_number := rm_serial_number p; cn_serial_number := cn_serial_number p;
     mfg_prod_records := mfg_prod_records p; device_name := device_name p;
     git_info := git_info p; bl_brightness := bl_brightness p;
     bl_brightness_array := bl_brightness_array p; is_image_valid := is_image_valid p;
     rm_key_light := rm_key_light p; caps_key_light := caps_key_light p;
     rm_key_on_after_resume := rm_key_on_after_resume p; fwu := fwu p |}.

Definition set_kb_connect_lock (v : mutex) (p : kb_data) : kb_data :=
  {| kb_dev := kb_dev p; kb_connect_work := kb_connect_work p; kb_connect_lock := v;
     attr_writer := attr_writer p; kb_row_shift := kb_row_shift p;
     key_layout := key_layout p; language := language p;
     rm_serial_number := rm_serial_number p; cn_serial_number := cn_serial_number p;
     mfg_prod_records := mfg_prod_records p; device_name := device_name p;
     git_info := git_info p; bl_brightness := bl_brightness p;
     bl_brightness_array := bl_brightness_array p; is_image_valid := is_image_valid p;
     rm_key_light := rm_key_light p; caps_key_light := caps_key_light p;
     rm_key_on_after_resume := rm_key_on_after_resume p; fwu := fwu p |}.

Definition set_attr_writer (v : kb_attr_write) (p : kb_data) : kb_data :=
  {| kb_dev := kb_dev p; kb_connect_work := kb_connect_work p;
     kb_connect_lock := kb_connect_lock p; attr_writer := v;
     kb_row_shift := kb_row_shift p; key_layout := key_layout p; language := language p;
     rm_serial_number := rm_serial_number p; cn_serial_number := cn_serial_number p;
     mfg_prod_records := mfg_prod_records p; device_name := device_name p;
     git_info := git_info p; bl_brightness := bl_brightness p;
     bl_brightness_array := bl_brightness_array p; is_image_valid := is_image_valid p;
     rm_key_light := rm_key_light p; caps_key_light := caps_key_light p;
     rm_key_on_after_resume := rm_key_on_after_resume p; fwu := fwu p |}.

Definition set_kb_row_shift (v : Z) (p : kb_data) : kb_data :=
  {| kb_dev := kb_dev p; kb_connect_work := kb_connect_work p;
     kb_connect_lock := kb_connect_lock p; attr_writer := attr_writer p;
     kb_row_shift := v; key_layout := key_layout p; language := language p;
     rm_serial_number := rm_serial_number p; cn_serial_number := cn_serial_number p;
     mfg_prod_records := mfg_prod_records p; device_name := device_name p;
     git_info := git_info p; bl_brightness := bl_brightness p;
     bl_brightness_array := bl_brightness_array p; is_image_valid := is_image_valid p;
     rm_key_light := rm_key_light p; caps_key_light := caps_key_light p;
     rm_key_on_after_resume := rm_key_on_after_resume p; fwu := fwu p |}.

Definition set_key_layout (v : Z) (p : kb_data) : kb_data :=
  {| kb_dev := kb_dev p; kb_connect_work := kb_connect_work p;
     kb_connect_lock := kb_connect_lock p; attr_writer := attr_writer p;
     kb_row_shift := kb_row_shift p; key_layout := v; language := language p;
     rm_serial_number := rm_serial_number p; cn_serial_number := cn_serial_number p;
     mfg_prod_records := mfg_prod_records p; device_name := device_name p;
     git_info := git_info p; bl_brightness := bl_brightness p;
     bl_brightness_array := bl_brightness_array p; is_image_valid := is_image_valid p;
     rm_key_light := rm_key_light p; caps_key_light := caps_key_light p;
     rm_key_on_after_resume := rm_key_on_after_resume p; fwu := fwu p |}.

Definition set_language (v : Z) (p : kb_data) : kb_data :=
  {| kb_dev := kb_dev p; kb_connect_work := kb_connect_work p;
     kb_connect_lock := kb_connect_lock p; attr_writer := attr_writer p;
     kb_row_shift := kb_row_shift p; key_layout := key_layout p; language := v;
     rm_serial_number := rm_serial_number p; cn_serial_number := cn_serial_number p;
     mfg_prod_records := mfg_prod_records p; device_name := device_name p;
     git_info := git_info p; bl_brightness := bl_brightness p;
     bl_brightness_array := bl_brightness_array p; is_image_valid := is_image_valid p;
     rm_key_light := rm_key_light p; caps_key_light := caps_key_light p;
     rm_key_on_after_resume := rm_key_on_after_resume p; fwu := fwu p |}.

Definition set_rm_serial_number (v : ptr) (p : kb_data) : kb_data :=
  {| kb_dev := kb_dev p; kb_connect_work := kb_connect_work p;
     kb_connect_lock := kb_connect_lock p; attr_writer := attr_writer p;
     kb_row_shift := kb_row_shift p; key_layout := key_layout p; language := language p;
     rm_serial_number := v; cn_serial_number := cn_serial_number p;
     mfg_prod_records := mfg_prod_records p; device_name := device_name p;
     git_info := git_info p; bl_brightness := bl_brightness p;
     bl_brightness_array := bl_brightness_array p; is_image_valid := is_image_valid p;
     rm_key_light := rm_key_light p; caps_key_light := caps_key_light p;
     rm_key_on_after_resume := rm_key_on_after_resume p; fwu := fwu p |}.

Definition set_cn_serial_number (v : ptr) (p : kb_data) : kb_data :=
  {| kb_dev := kb_dev p; kb_connect_work := kb_connect_work p;
     kb_connect_lock := kb_connect_lock p; attr_writer := attr_writer p;
     kb_row_shift := kb_row_shift p; key_layout := key_layout p; language := language p;
     rm_serial_number := rm_serial_number p; cn_serial_number := v;
     mfg_prod_records := mfg_prod_records p; device_name := device_name p;
     git_info := git_info p; bl_brightness := bl_brightness p;
     bl_brightness_array := bl_brightness_array p; is_image_valid := is_image_valid p;
     rm_key_light := rm_key_light p; caps_key_light := caps_key_light p;
     rm_key_on_after_resume := rm_key_on_after_resume p; fwu := fwu p |}.

Definition set_mfg_prod_records (v : Z) (p : kb_data) : kb_data :=
  {| kb_dev := kb_dev p; kb_connect_work := kb_connect_work p;
     kb_connect_lock := kb_connect_lock p; attr_writer := attr_writer p;
     kb_row_shift := kb_row_shift p; key_layout := key_layout p; language := language p;
     rm_serial_number := rm_serial_number p; cn_serial_number := cn_serial_number p;
     mfg_prod_records := v; device_name := device_name p; git_info := git_info p;
     bl_brightness := bl_brightness p; bl_brightness_array := bl_brightness_array p;
     is_image_valid := is_image_valid p; rm_key_light := rm_key_light p;
     caps_key_light := caps_key_light p;
     rm_key_on_after_resume := rm_key_on_after_resume p; fwu := fwu p |}.

Definition set_device_name (v : ptr) (p : kb_data) : kb_data :=
  {| kb_dev := kb_dev p; kb_connect_work := kb_connect_work p;
     kb_connect_lock := kb_connect_lock p; attr_writer := attr_writer p;
     kb_row_shift := kb_row_shift p; key_layout := key_layout p; language := language p;
     rm_serial_number := rm_serial_number p; cn_serial_number := cn_serial_number p;
     mfg_prod_records := mfg_prod_records p; device_name := v; git_info := git_info p;
     bl_brightness := bl_brightness p; bl_brightness_array := bl_brightness_array p;
     is_image_valid := is_image_valid p; rm_key_light := rm_key_light p;
     caps_key_light := caps_key_light p;
     rm_key_on_after_resume := rm_key_on_after_resume p; fwu := fwu p |}.

Definition set_git_info (v : Z) (p : kb_data) : kb_data :=
  {| kb_dev := kb_dev p; kb_connect_work := kb_connect_work p;
     kb_connect_lock := kb_connect_lock p; attr_writer := attr_writer p;
     kb_row_shift := kb_row_shift p; key_layout := key_layout p; language := language p;
     rm_serial_number := rm_serial_number p; cn_serial_number := cn_serial_number p;
     mfg_prod_records := mfg_prod_records p; device_name := device_name p; git_info := v;
     bl_brightness := bl_brightness p; bl_brightness_array := bl_brightness_array p;
     is_image_valid := is_image_valid p; rm_key_light := rm_key_light p;
     caps_key_light := caps_key_light p;
     rm_key_on_after_resume := rm_key_on_after_resume p; fwu := fwu p |}.

Definition set_bl_brightness (v : Z) (p : kb_data) : kb_data :=
  {| kb_dev := kb_dev p; kb_connect_work := kb_connect_work p;
     kb_connect_lock := kb_connect_lock p; attr_writer := attr_writer p;
     kb_row_shift := kb_row_shift p; key_layout := key_layout p; language := language p;
     rm_serial_number := rm_serial_number p; cn_serial_number := cn_serial_number p;
     mfg_prod_records := mfg_prod_records p; device_name := device_name p;
     git_info := git_info p; bl_brightness := v;
     bl_brightness_array := bl_brightness_array p; is_image_valid := is_image_valid p;
     rm_key_light := rm_key_light p; caps_key_light := caps_key_light p;
     rm_key_on_after_resume := rm_key_on_after_resume p; fwu := fwu p |}.

Definition set_bl_brightness_array (v : list Z) (p : kb_data) : kb_data :=
  {| kb_dev := kb_dev p; kb_connect_work := kb_connect_work p;
     kb_connect_lock := kb_connect_lock p; attr_writer := attr_writer p;
     kb_row_shift := kb_row_shift p; key_layout := key_layout p; language := language p;
     rm_serial_number := rm_serial_number p; cn_serial_number := cn_serial_number p;
     mfg_prod_records := mfg_prod_records p; device_name := device_name p;
     git_info := git_info p; bl_brightness := bl_brightness p; bl_brightness_array := v;
     is_image_valid := is_image_valid p; rm_key_light := rm_key_light p;
     caps_key_light := caps_key_light p;
     rm_key_on_after_resume := rm_key_on_after_resume p; fwu := fwu p |}.

Definition set_is_image_valid (v : bool) (p : kb_data) : kb_data :=
  {| kb_dev := kb_dev p; kb_connect_work := kb_connect_work p;
     kb_connect_lock := kb_connect_lock p; attr_writer := attr_writer p;
     kb_row_shift := kb_row_shift p; key_layout := key_layout p; language := language p;
     rm_serial_number := rm_serial_number p; cn_serial_number := cn_serial_number p;
     mfg_prod_records := mfg_prod_records p; device_name := device_name p;
     git_info := git_info p; bl_brightness := bl_brightness p;
     bl_brightness_array := bl_brightness_array p; is_image_valid := v;
     rm_key_light := rm_key_light p; caps_key_light := caps_key_light p;
     rm_key_on_after_resume := rm_key_on_after_resume p; fwu := fwu p |}.

Definition set_rm_key_light (v : bool) (p : kb_data) : kb_data :=
  {| kb_dev := kb_dev p; kb_connect_work := kb_connect_work p;
     kb_connect_lock := kb_connect_lock p; attr_writer := attr_writer p;
     kb_row_shift := kb_row_shift p; key_layout := key_layout p; language := language p;
     rm_serial_number := rm_serial_number p; cn_serial_number := cn_serial_number p;
     mfg_prod_records := mfg_prod_records p; device_name := device_name p;
     git_info := git_info p; bl_brightness := bl_brightness p;
     bl_brightness_array := bl_brightness_array p; is_image_valid := is_image_valid p;
     rm_key_light := v; caps_key_light := caps_key_light p;
     rm_key_on_after_resume := rm_key_on_after_resume p; fwu := fwu p |}.

Definition set_caps_key_light (v : bool) (p : kb_data) : kb_data :=
  {| kb_dev := kb_dev p; kb_connect_work := kb_connect_work p;
     kb_connect_lock := kb_connect_lock p; attr_writer := attr_writer p;
     kb_row_shift := kb_row_shift p; key_layout := key_layout p; language := language p;
     rm_serial_number := rm_serial_number p; cn_serial_number := cn_serial_number p;
     mfg_prod_records := mfg_prod_records p; device_name := device_name p;
     git_info := git_info p; bl_brightness := bl_brightness p;
     bl_brightness_array := bl_brightness_array p; is_image_valid := is_image_valid p;
     rm_key_light := rm_key_light p; caps_key_light := v;
     rm_key_on_after_resume := rm_key_on_after_resume p; fwu := fwu p |}.

Definition set_rm_key_on_after_resume (v : bool) (p : kb_data) : kb_data :=
  {| kb_dev := kb_dev p; kb_connect_work := kb_connect_work p;
     kb_connect_lock := kb_connect_lock p; attr_writer := attr_writer p;
     kb_row_shift := kb_row_shift p; key_layout := key_layout p; language := language p;
     rm_serial_number := rm_serial_number p; cn_serial_number := cn_serial_number p;
     mfg_prod_records := mfg_prod_records p; device_name := device_name p;
     git_info := git_info p; bl_brightness := bl_brightness p;
     bl_brightness_array := bl_brightness_array p; is_image_valid := is_image_valid p;
     rm_key_light := rm_key_light p; caps_key_light := caps_key_light p;
     rm_key_on_after_resume := v; fwu := fwu p |}.

Definition set_fwu (v : firmware_update) (p : kb_data) : kb_data :=
  {| kb_dev := kb_dev p; kb_connect_work := kb_connect_work p;
     kb_connect_lock := kb_connect_lock p; attr_writer := attr_writer p;
     kb_row_shift := kb_row_shift p; key_layout := key_layout p; language := language p;
     rm_serial_number := rm_serial_number p; cn_serial_number := cn_serial_number p;
     mfg_prod_records := mfg_prod_records p; device_name := device_name p;
     git_info := git_info p; bl_brightness := bl_brightness p;
     bl_brightness_array := bl_brightness_array p; is_image_valid := is_image_valid p;
     rm_key_light := rm_key_light p; caps_key_light := caps_key_light p;
     rm_key_on_after_resume := rm_key_on_after_resume p; fwu := v |}.

Definition set_pd (v : kb_data) (p : state) : state :=
  {| pd := v; heap := heap p; next_suspend_is_slumber := next_suspend_is_slumber p;
     trace := trace p |}.

Definition set_heap (v : gmap N (list Z)) (p : state) : state :=
  {| pd := pd p; heap := v; next_suspend_is_slumber := next_suspend_is_slumber p;
     trace := trace p |}.

Definition set_next_suspend_is_slumber (v : bool) (p : state) : state :=
  {| pd := pd p; heap := heap p; next_suspend_is_slumber := v; trace := trace p |}.

Definition set_trace (v : list io_event) (p : state) : state :=
  {| pd := pd p; heap := heap p; next_suspend_is_slumber := next_suspend_is_slumber p;
     trace := v |}.

(** ** The state monad of the driver *)

Definition M (A : Type) : Type := state → A * state.

#[global] Instance M_ret : MRet M := λ A a st, (a, st).
#[global] Instance M_bind : MBind M :=
  λ A B f m st, let '(a, st') := m st in f a st'.

Definition get_pd : M kb_data := λ st, (pd st, st).

Definition modify_pd (f : kb_data → kb_data) : M unit :=
  λ st, (tt, set_pd (f (pd st)) st).

Definition history : M (list io_event) := λ st, (trace st, st).

Definition log (e : io_event) : M unit :=
  λ st, (tt, set_trace (trace st ++ [e]) st).

(** The events a run added to the trace. *)
Definition events_since (st st' : state) : list io_event :=
  drop (length (trace st)) (trace st').

(** [struct attribute_config] *)
Record attribute_config : Type := {
  cfg_id : Z;
  cfg_type : storage_type;
  cfg_reader : attribute_rx → M bool;
  cfg_name : string
}.

(** The destination a [char **octet_attribute] can point at. *)
Inductive octet_slot : Type := SlotDeviceName | SlotRmSerialNumber | SlotCnSerialNumber.

Definition slot_get (s : octet_slot) (p : kb_data) : ptr :=
  match s with
  | SlotDeviceName => device_name p
  | SlotRmSerialNumber => rm_serial_number p
  | SlotCnSerialNumber => cn_serial_number p
  end.

Definition slot_set (s : octet_slot) (v : ptr) (p : kb_data) : kb_data :=
  match s with
  | SlotDeviceName => set_device_name v p
  | SlotRmSerialNumber => set_rm_serial_number v p
  | SlotCnSerialNumber => set_cn_serial_number v p
  end.

(** [memcpy (dst, src, n)] on the bytes of a block. *)
Definition memcpy (dst src : list Z) (n : nat) : list Z :=
  take n src ++ drop n dst.

(** [memcmp] of two [struct fw_version] (two bytes, [lib/string.c]): the
    difference of the first pair of bytes that differ. *)
Definition memcmp_fw_version (a b : fw_version) : Z :=
  if decide (u8 (major a) ≠ u8 (major b)) then u8 (major a) - u8 (major b)
  else u8 (minor a) - u8 (minor b).

(** Key codes of [input-event-codes.h] that the key map uses. *)
Definition KEY_RESERVED : Z := 0.
Definition KEY_ESC : Z := 1.
Definition KEY_1 : Z := 2.
Definition KEY_2 : Z := 3.
Definition KEY_3 : Z := 4.
Definition KEY_4 : Z := 5.
Definition KEY_5 : Z := 6.
Definition KEY_6 : Z := 7.
Definition KEY_7 : Z := 8.
Definition KEY_8 : Z := 9.
Definition KEY_9 : Z := 10.
Definition KEY_0 : Z := 11.
Definition KEY_MINUS : Z := 12.
Definition KEY_EQUAL : Z := 13.
Definition KEY_BACKSPACE : Z := 14.
Definition KEY_TAB : Z := 15.
Definition KEY_Q : Z := 16.
Definition KEY_W : Z := 17.
Definition KEY_E : Z := 18.
Definition KEY_R : Z := 19.
Definition KEY_T : Z := 20.
Definition KEY_Y : Z := 21.
Definition KEY_U : Z := 22.
Definition KEY_I : Z := 23.
Definition KEY_O : Z := 24.
Definition KEY_P : Z := 25.
Definition KEY_ENTER : Z := 28.
Definition KEY_LEFTCTRL : Z := 29.
Definition KEY_A : Z := 30.
Definition KEY_S : Z := 31.
Definition KEY_D : Z := 32.
Definition KEY_F : Z := 33.
Definition KEY_G : Z := 34.
Definition KEY_H : Z := 35.
Definition KEY_J : Z := 36.
Definition KEY_K : Z := 37.
Definition KEY_L : Z := 38.
Definition KEY_SEMICOLON : Z := 39.
Definition KEY_APOSTROPHE : Z := 40.
Definition KEY_GRAVE : Z := 41.
Definition KEY_LEFTSHIFT : Z := 42.
Definition KEY_BACKSLASH : Z := 43.
Definition KEY_Z : Z := 44.
Definition KEY_X : Z := 45.
Definition KEY_C : Z := 46.
Definition KEY_V : Z := 47.
Definition KEY_B : Z := 48.
Definition KEY_N : Z := 49.
Definition KEY_M : Z := 50.
Definition KEY_COMMA : Z := 51.
Definition KEY_DOT : Z := 52.
Definition KEY_SLASH : Z := 53.
Definition KEY_RIGHTSHIFT : Z := 54.
Definition KEY_LEFTALT : Z := 56.
Definition KEY_SPACE : Z := 57.
Definition KEY_CAPSLOCK : Z := 58.
Definition KEY_RIGHTALT : Z := 100.
Definition KEY_UP : Z := 103.
Definition KEY_LEFT : Z := 105.
Definition KEY_RIGHT : Z := 106.
Definition KEY_END : Z := 107.
Definition KEY_DOWN : Z := 108.
Definition KEY_RIGHTMETA : Z := 126.

(** [KEY (row, col, val)] and its projections ([matrix_keypad.h]). *)
Definition KEY (row col val : Z) : Z :=
  Z.lor (Z.lor (Z.shiftl (Z.land row 0xff) 24) (Z.shiftl (Z.land col 0xff) 16))
        (Z.land val 0xffff).
Definition KEY_ROW (k : Z) : Z := Z.land (Z.shiftr k 24) 0xff.
Definition KEY_COL (k : Z) : Z := Z.land (Z.shiftr k 16) 0xff.
Definition KEY_VAL (k : Z) : Z := Z.land k 0xffff.

(** [MATRIX_SCAN_CODE (row, col, row_shift)] ([matrix_keypad.h]) *)
Definition MATRIX_SCAN_CODE (row col row_shift : Z) : Z :=
  Z.shiftl row row_shift + col.

(** [fls] and [get_count_order] ([bitops.h]), on an [unsigned int]. *)
Definition fls (x : Z) : Z := if decide (x = 0) then 0 else Z.log2 x + 1.

Definition get_count_order (count : Z) : Z :=
  if decide (count = 0) then -1 else fls (u32 (count - 1)).

(** Keymap table for Condor v1 *)
Definition rm_hwmon_keymap_v1 : list Z := [
  KEY 0 0 KEY_M;
  KEY 0 1 KEY_N;
  KEY 0 2 KEY_EQUAL;
  KEY 0 3 KEY_RESERVED;
  KEY 0 4 KEY_GRAVE;
  KEY 0 5 KEY_EQUAL;
  KEY 0 6 KEY_RESERVED;
  KEY 0 7 KEY_A;
  KEY 0 8 KEY_RESERVED;
  KEY 0 9 KEY_RESERVED;
  KEY 0 10 KEY_3;
  KEY 0 11 KEY_Y;
  KEY 0 12 KEY_O;
  KEY 0 13 KEY_RESERVED;
  KEY 0 14 KEY_R;
  KEY 0 15 KEY_RESERVED;
  KEY 1 0 KEY_9;
  KEY 1 1 KEY_RESERVED;
  KEY 1 2 KEY_L;
  KEY 1 3 KEY_RESERVED;
  KEY 1 4 KEY_MINUS;
  KEY 1 5 KEY_RESERVED;
  KEY 1 6 KEY_DOT;
  KEY 1 7 KEY_SLASH;
  KEY 1 8 KEY_RESERVED;
  KEY 1 9 KEY_RESERVED;
  KEY 1 10 KEY_RESERVED;
  KEY 1 11 KEY_END;
  KEY 1 12 KEY_RESERVED;
  KEY 1 13 KEY_SEMICOLON;
  KEY 1 14 KEY_RESERVED;
  KEY 1 15 KEY_RESERVED;
  KEY 2 0 KEY_RESERVED;
  KEY 2 1 KEY_RESERVED;
  KEY 2 2 KEY_RESERVED;
  KEY 2 3 KEY_RESERVED;
  KEY 2 4 KEY_RIGHTMETA;
  KEY 2 5 KEY_2;
  KEY 2 6 KEY_RESERVED;
  KEY 2 7 KEY_UP;
  KEY 2 8 KEY_LEFTALT;
  KEY 2 9 KEY_LEFT;
  KEY 2 10 KEY_APOSTROPHE;
  KEY 2 11 KEY_RESERVED;
  KEY 2 12 KEY_RESERVED;
  KEY 2 13 KEY_F;
  KEY 2 14 KEY_ENTER;
  KEY 2 15 KEY_RESERVED;
  KEY 3 0 KEY_RESERVED;
  KEY 3 1 KEY_B;
  KEY 3 2 KEY_RESERVED;
  KEY 3 3 KEY_LEFTSHIFT;
  KEY 3 4 KEY_RESERVED;
  KEY 3 5 KEY_6;
  KEY 3 6 KEY_C;
  KEY 3 7 KEY_RESERVED;
  KEY 3 8 KEY_SPACE;
  KEY 3 9 KEY_RESERVED;
  KEY 3 10 KEY_X;
  KEY 3 11 KEY_4;
  KEY 3 12 KEY_U;
  KEY 3 13 KEY_D;
  KEY 3 14 KEY_RESERVED;
  KEY 3 15 KEY_RESERVED;
  KEY 4 0 KEY_W;
  KEY 4 1 KEY_CAPSLOCK;
  KEY 4 2 KEY_Z;
  KEY 4 3 KEY_RIGHTSHIFT;
  KEY 4 4 KEY_5;
  KEY 4 5 KEY_RESERVED;
  KEY 4 6 KEY_T;
  KEY 4 7 KEY_RIGHT;
  KEY 4 8 KEY_RESERVED;
  KEY 4 9 KEY_DOWN;
  KEY 4 10 KEY_RESERVED;
  KEY 4 11 KEY_RESERVED;
  KEY 4 12 KEY_K;
  KEY 4 13 KEY_RESERVED;
  KEY 4 14 KEY_RIGHTALT;
  KEY 4 15 KEY_J;
  KEY 5 0 KEY_G;
  KEY 5 1 KEY_RESERVED;
  KEY 5 2 KEY_8;
  KEY 5 3 KEY_RESERVED;
  KEY 5 4 KEY_ESC;
  KEY 5 5 KEY_0;
  KEY 5 6 KEY_S;
  KEY 5 7 KEY_RESERVED;
  KEY 5 8 KEY_RESERVED;
  KEY 5 9 KEY_RESERVED;
  KEY 5 10 KEY_E;
  KEY 5 11 KEY_RESERVED;
  KEY 5 12 KEY_V;
  KEY 5 13 KEY_I;
  KEY 5 14 KEY_COMMA;
  KEY 5 15 KEY_LEFTCTRL;
  KEY 6 0 KEY_H;
  KEY 6 1 KEY_Q;
  KEY 6 2 KEY_RESERVED;
  KEY 6 3 KEY_RESERVED;
  KEY 6 4 KEY_7;
  KEY 6 5 KEY_MINUS;
  KEY 6 6 KEY_BACKSLASH;
  KEY 6 7 KEY_RESERVED;
  KEY 6 8 KEY_BACKSPACE;
  KEY 6 9 KEY_RESERVED;
  KEY 6 10 KEY_P;
  KEY 6 11 KEY_1;
  KEY 6 12 KEY_RESERVED;
  KEY 6 13 KEY_TAB;
  KEY 6 14 KEY_RESERVED;
  KEY 6 15 KEY_RESERVED
].

(** [keymap_layouts] *)
Definition keymap_layouts : list rm_hwmon_kb_keymap_data := [
  {| keymap := rm_hwmon_keymap_v1; row := 7; col := 16 |}
].

#[global] Instance rm_hwmon_kb_keymap_data_inhabited : Inhabited rm_hwmon_kb_keymap_data :=
  populate {| keymap := []; row := 0; col := 0 |}.

(** [sysfs_language]: must be aligned with [condor_language]. *)
Definition sysfs_language : list string :=
  ["ILLEGAL"; "DE"; "ES"; "FR"; "IT"; "NO"; "PT"; "UK"; "US"]%string.

Section Driver.

Variable E : Env.

(** *** Attribute readers *)

(** [devm_krealloc]: on failure [NULL] comes back and the old block stays as
    it is; on success the block lives at the returned address with its old
    contents cut or padded to the new size (the padding bytes are
    unspecified in C; the readers overwrite them). *)
Definition devm_krealloc (p : ptr) (new_size : Z) : M ptr := λ st,
  let res := krealloc_result E (trace st) p new_size in
  let old := from_option (λ o, default [] (heap st !! o)) [] p in
  let h := match res with
           | None => heap st
           | Some a => <[a := resize (Z.to_nat new_size) 0 old]>
                         (from_option (λ o, delete o (heap st)) (heap st) p)
           end in
  (res, set_trace (trace st ++ [EvKrealloc p new_size res]) (set_heap h st)).

Definition store_block (a : N) (f : list Z → list Z) : M unit := λ st,
  (tt, set_heap (alter f a (heap st)) st).

(** Modelled from the spec: the macro [MAKE_READER (name, member, struct,
    field)] of [rm_hwmon_api.h] is not part of the sources.  It declares
    [reader_name], the decode callback of a fixed-width attribute: the
    payload member is stored, bit-exact, in the named field, and the decode
    succeeds. *)
Definition MAKE_READER {A : Type} (member : attribute_rx → A)
    (field_set : A → kb_data → kb_data) : attribute_rx → M bool :=
  λ attr_res, modify_pd (field_set (member attr_res));; mret true.

Definition reader_key_layout := MAKE_READER (λ r, u8 (u8_data r)) set_key_layout.
Definition reader_language := MAKE_READER (λ r, u8 (u8_data r)) set_language.
Definition reader_image_start_address :=
  MAKE_READER (λ r, u32 (u32_data r))
    (λ v p, set_fwu (set_current_image_start_address v (fwu p)) p).
Definition reader_git_info := MAKE_READER (λ r, u32 (u32_data r)) set_git_info.
Definition reader_valid_image := MAKE_READER bool_data set_is_image_valid.
Definition reader_prod_records := MAKE_READER (λ r, u8 (u8_data r)) set_mfg_prod_records.
Definition reader_rm_key_light := MAKE_READER bool_data set_rm_key_light.
Definition reader_caps_key_light := MAKE_READER bool_data set_caps_key_light.

(** The 16-bit payload is reinterpreted as a [struct fw_version], taken as
    [{major, minor}] of one byte each in little-endian memory order. *)
Definition reader_fw_version (attr_res : attribute_rx) : M bool :=
  modify_pd (λ p,
    set_fwu (set_current_fw_version
               {| major := u16 (u16_data attr_res) mod 2 ^ 8;
                  minor := u16 (u16_data attr_res) / 2 ^ 8 |} (fwu p)) p);;
  mret true.

Definition reader_bl_brightness_array (attr_res : attribute_rx) : M bool :=
  if decide (subtype (array attr_res) ≠ ATTRIBUTE_STORAGE_DATA_UNSIGNED_8_BIT)
  then mret false
  else if decide (n_len (array attr_res) ≠ ATTRIBUTES_NR_OF_BKLS)
  then mret false
  else
    modify_pd (λ p,
      set_bl_brightness_array
        (foldl (λ a i, <[i := u8 (array_data (array attr_res) i)]> a)
               (bl_brightness_array p) (seq 0 (Z.to_nat ATTRIBUTES_NR_OF_BKLS))) p);;
    mret true.

(** The [switch] on the attribute id. *)
Definition octet_attribute_of (id : Z) : option octet_slot :=
  if decide (id = KB_ATTR_ID_DEVICE_NAME) then Some SlotDeviceName
  else if decide (id = KB_ATTR_ID_RM_SERIAL_NUMBER) then Some SlotRmSerialNumber
  else if decide (id = KB_ATTR_ID_CN_SERIAL_NUMBER) then Some SlotCnSerialNumber
  else None.

Definition reader_octet_attribute (attr_res : attribute_rx) : M bool :=
  match octet_attribute_of (rx_id attr_res) with
  | None => mret false
  | Some octet_attribute =>
    p ← get_pd;
    new ← devm_krealloc (slot_get octet_attribute p) (str_len (octets attr_res) + 1);
    modify_pd (slot_set octet_attribute new);;
    match new with
    | Some a =>
      store_block a (λ blk,
        <[length (str (octets attr_res)) := 0]>
          (memcpy blk (str (octets attr_res)) (length (str (octets attr_res)))));;
      mret true
    | None => mret false
    end
  end.

(** *** The attribute table *)

Definition attribute_configs : list attribute_config := [
  {| cfg_id := KB_ATTR_ID_KEY_LAYOUT;
     cfg_type := ATTRIBUTE_STORAGE_DATA_UNSIGNED_8_BIT;
     cfg_reader := reader_key_layout;
     cfg_name := "KB_ATTR_ID_KEY_LAYOUT" |};
  {| cfg_id := KB_ATTR_ID_LANGUAGE;
     cfg_type := ATTRIBUTE_STORAGE_DATA_ENUM_8_BIT;
     cfg_reader := reader_language;
     cfg_name := "KB_ATTR_ID_LANGUAGE" |};
  {| cfg_id := KB_ATTR_ID_RM_SERIAL_NUMBER;
     cfg_type := ATTRIBUTE_STORAGE_DATA_CHARACTER_STRING;
     cfg_reader := reader_octet_attribute;
     cfg_name := "KB_ATTR_ID_RM_SERIAL_NUMBER" |};
  {| cfg_id := KB_ATTR_ID_CN_SERIAL_NUMBER;
     cfg_type := ATTRIBUTE_STORAGE_DATA_CHARACTER_STRING;
     cfg_reader := reader_octet_attribute;
     cfg_name := "KB_ATTR_ID_CN_SERIAL_NUMBER" |};
  {| cfg_id := KB_ATTR_ID_MFG_PROD_RECORDS;
     cfg_type := ATTRIBUTE_STORAGE_DATA_UNSIGNED_8_BIT;
     cfg_reader := reader_prod_records;
     cfg_name := "KB_ATTR_ID_MFG_PROD_RECORDS" |};
  {| cfg_id := KB_ATTR_ID_FW_VERSION;
     cfg_type := ATTRIBUTE_STORAGE_DATA_UNSIGNED_16_BIT;
     cfg_reader := reader_fw_version;
     cfg_name := "KB_ATTR_ID_FW_VERSION" |};
  {| cfg_id := KB_ATTR_ID_IMAGE_START_ADDRESS;
     cfg_type := ATTRIBUTE_STORAGE_DATA_UNSIGNED_32_BIT;
     cfg_reader := reader_image_start_address;
     cfg_name := "KB_ATTR_ID_IMAGE_START_ADDRESS" |};
  {| cfg_id := KB_ATTR_ID_DEVICE_NAME;
     cfg_type := ATTRIBUTE_STORAGE_DATA_CHARACTER_STRING;
     cfg_reader := reader_octet_attribute;
     cfg_name := "KB_ATTR_ID_DEVICE_NAME" |};
  {| cfg_id := KB_ATTR_ID_GIT_INFO;
     cfg_type := ATTRIBUTE_STORAGE_DATA_32_BIT;
     cfg_reader := reader_git_info;
     cfg_name := "KB_ATTR_ID_GIT_INFO" |};
  {| cfg_id := KB_ATTR_ID_BKL_BRIGHTNESS;
     cfg_type := ATTRIBUTE_STORAGE_DATA_ARRAY;
     cfg_reader := reader_bl_brightness_array;
     cfg_name := "KB_ATTR_ID_BKL_BRIGHTNESS" |};
  {| cfg_id := KB_ATTR_ID_VALID_IMAGE;
     cfg_type := ATTRIBUTE_STORAGE_DATA_BOOLEAN;
     cfg_reader := reader_valid_image;
     cfg_name := "KB_ATTR_ID_VALID_IMAGE" |};
  {| cfg_id := KB_ATTR_ID_KEY_LIGHT_CAPS;
     cfg_type := ATTRIBUTE_STORAGE_DATA_BOOLEAN;
     cfg_reader := reader_rm_key_light;
     cfg_name := "KB_ATTR_ID_KEY_LIGHT_CAPS" |};
  {| cfg_id := KB_ATTR_ID_KEY_LIGHT_RM;
     cfg_type := ATTRIBUTE_STORAGE_DATA_BOOLEAN;
     cfg_reader := reader_caps_key_light;
     cfg_name := "KB_ATTR_ID_KEY_LIGHT_RM" |}
].

(** Modelled from the spec: the dispatcher of [rm_hwmon_api] is not part of
    the sources.  It looks the id of an inbound response up in the
    registered table; an unknown id is reported as unsupported and the
    payload dropped ([None]); for a known id the configured decode is
    invoked and its verdict returned. *)
Definition dispatch (configs : list attribute_config) (attr_res : attribute_rx)
    : M (option bool) :=
  match list_find (λ c, cfg_id c = rx_id attr_res) configs with
  | None => mret None
  | Some (_, c) => ok ← cfg_reader c attr_res; mret (Some ok)
  end.

Fixpoint dispatch_all (configs : list attribute_config) (rs : list attribute_rx)
    : M unit :=
  match rs with
  | [] => mret tt
  | r :: rs' => dispatch configs r;; dispatch_all configs rs'
  end.

(** [rm_hwmon_api_read_attributes]: the transport asks for the ids, the
    responses that arrive are dispatched through the registered table, and
    the status comes back. *)
Definition rm_hwmon_api_read_attributes (ids : list Z) : M Z :=
  h ← history;
  let '(responses, ret) := read_attributes_reply E h ids in
  dispatch_all attribute_configs responses;;
  log (EvReadAttributes ids ret);;
  mret ret.


(** *** Calls into the transport, the firmware helper and the input core *)

(** Constants of [rm_hwmon_api.h] that are not part of the sources. *)
Variable HEADER_SIZE_ARRAY : Z.
Variable HSP_CMD_SUCCESS : Z.

Definition rm_hwmon_api_write_cmd (cmd : hsp_cmd) : M Z :=
  h ← history;
  let ret := write_cmd_ret E h cmd in
  log (EvWriteCmd cmd ret);;
  mret ret.

Definition rm_hwmon_api_alloc_write_buffer (len : Z) : M (option attribute_tx) :=
  h ← history;
  let res := alloc_write_buffer_result E h len in
  log (EvAllocWriteBuffer len (bool_decide (is_Some res)));;
  mret res.

Definition rm_hwmon_api_write_attribute (id : Z) (req : attribute_tx) (len : Z) : M Z :=
  h ← history;
  let ret := write_attribute_ret E h id req len in
  log (EvWriteAttribute id req len ret);;
  mret ret.

Definition rm_hwmon_api_req_complete (ret : Z) : M unit := log (EvReqComplete ret).

(** The firmware helper works on [pdata->fwu] only. *)
Definition fwu_step (answer : list io_event → firmware_update → Z * firmware_update)
    (ev : Z → io_event) : M Z :=
  h ← history;
  p ← get_pd;
  let '(ret, f) := answer h (fwu p) in
  modify_pd (set_fwu f);;
  log (ev ret);;
  mret ret.

Definition rm_hwmon_fwu_init : M Z := fwu_step (fwu_init_result E) EvFwuInit.
Definition rm_hwmon_fwu_transfer_binary : M Z :=
  fwu_step (fwu_transfer_binary_result E) EvFwuTransferBinary.
Definition rm_hwmon_fwu_validate_image : M Z :=
  fwu_step (fwu_validate_image_result E) EvFwuValidateImage.
Definition rm_hwmon_fwu_set_image_active : M Z :=
  fwu_step (fwu_set_image_active_result E) EvFwuSetImageActive.

Definition rm_hwmon_fwu_load_and_check_for_upgrade (device_name : ptr) : M bool :=
  λ st,
    let '(avail, f) :=
      fwu_load_and_check_result E (trace st) (fwu (pd st))
        (a ← device_name; heap st !! a) in
    (avail, set_trace (trace st ++ [EvFwuLoadAndCheck avail])
              (set_pd (set_fwu f (pd st)) st)).

Definition rm_hwmon_fwu_release_firmware : M unit :=
  h ← history;
  p ← get_pd;
  modify_pd (set_fwu (fwu_release_firmware_result E h (fwu p)));;
  log EvFwuReleaseFirmware.

(** The work queue: a work that is already pending is not queued again. *)
Definition work_of (w : work) (p : kb_data) : work_struct :=
  match w with
  | KbConnectWork => kb_connect_work p
  | AttrWriterWork => worker (attr_writer p)
  end.

Definition set_work_of (w : work) (v : work_struct) (p : kb_data) : kb_data :=
  match w with
  | KbConnectWork => set_kb_connect_work v p
  | AttrWriterWork => set_attr_writer (set_worker v (attr_writer p)) p
  end.

Definition schedule_work (w : work) : M bool :=
  p ← get_pd;
  if pending (work_of w p) then log (EvScheduleWork w false);; mret false
  else
    modify_pd (set_work_of w {| pending := true |});;
    log (EvScheduleWork w true);;
    mret true.

Definition mutex_lock : M unit := modify_pd (set_kb_connect_lock {| locked := true |}).
Definition mutex_unlock : M unit := modify_pd (set_kb_connect_lock {| locked := false |}).

(** The device [pdata->kb_dev] points at is updated in place. *)
Definition modify_dev (f : input_dev → input_dev) : M unit :=
  modify_pd (λ p, set_kb_dev (f <$> kb_dev p) p).

Definition input_dev_zero : input_dev :=
  {| name := ""; phys := ""; uniq := None; id_bustype := 0; id_vendor := 0;
     id_product := 0; id_version := 0; event_cb := false; keycode := [];
     keycodemax := 0; evbit := 0; keybit := 0; ledbit := 0 |}.

Definition input_allocate_device : M (option input_dev) :=
  h ← history;
  let ok := input_allocate_device_ok E h in
  log (EvInputAllocateDevice ok);;
  mret (if ok then Some input_dev_zero else None).

Definition input_set_capability (type code : Z) : M unit :=
  modify_dev (λ d, set_evbit (Z.setbit (evbit d) type)
                     (if decide (type = EV_LED)
                      then set_ledbit (Z.setbit (ledbit d) code) d else d)).

Definition input_register_device (dev : input_dev) : M Z :=
  h ← history;
  let ret := input_register_device_ret E h dev in
  log (EvInputRegisterDevice dev ret);;
  mret ret.

Definition input_unregister_device (dev : input_dev) : M unit :=
  log (EvInputUnregisterDevice dev).

(** [matrix_keypad_map_key] and [matrix_keypad_build_keymap] of the kernel
    ([drivers/input/matrix-keymap.c]), called with no device-tree name and
    no caller-supplied table: a zeroed table of [rows << row_shift] codes is
    allocated and every entry of the key map is stored at its scan code; an
    entry outside the matrix is refused. *)
Definition matrix_keypad_map_key (rows cols row_shift key : Z) (d : input_dev)
    : bool * input_dev :=
  let row := KEY_ROW key in
  let col := KEY_COL key in
  let code := KEY_VAL key in
  if decide (row >= rows ∨ col >= cols) then (false, d)
  else
    (true,
     set_keybit (Z.setbit (keybit d) code)
       (set_keycode
          (<[Z.to_nat (MATRIX_SCAN_CODE row col row_shift) := code]> (keycode d)) d)).

Fixpoint matrix_keypad_map_keys (rows cols row_shift : Z) (keys : list Z)
    (d : input_dev) : bool * input_dev :=
  match keys with
  | [] => (true, d)
  | key :: keys' =>
    let '(ok, d') := matrix_keypad_map_key rows cols row_shift key d in
    if ok then matrix_keypad_map_keys rows cols row_shift keys' d' else (false, d')
  end.

Definition matrix_keypad_build_keymap (keymap_data : list Z) (rows cols : Z) : M Z :=
  let row_shift := get_count_order cols in
  let max_keys := Z.shiftl rows row_shift in
  h ← history;
  if negb (keymap_alloc_ok E h) then log (EvBuildKeymap (- ENOMEM));; mret (- ENOMEM)
  else
    modify_dev (λ d,
      set_evbit (Z.setbit (evbit d) EV_KEY)
        (set_keycodemax max_keys
           (set_keycode (replicate (Z.to_nat max_keys) 0) d)));;
    p ← get_pd;
    let '(ok, d') :=
      matrix_keypad_map_keys rows cols row_shift keymap_data
        (default input_dev_zero (kb_dev p)) in
    modify_dev (λ _, d');;
    if ok then
      modify_dev (λ d, set_keybit (Z.clearbit (keybit d) KEY_RESERVED) d);;
      log (EvBuildKeymap 0);;
      mret 0
    else log (EvBuildKeymap (- EINVAL));; mret (- EINVAL).

(** *** The driver *)

Definition init_attr : list Z :=
  [KB_ATTR_ID_KEY_LAYOUT; KB_ATTR_ID_LANGUAGE; KB_ATTR_ID_FW_VERSION;
   KB_ATTR_ID_GIT_INFO; KB_ATTR_ID_IMAGE_START_ADDRESS; KB_ATTR_ID_DEVICE_NAME;
   KB_ATTR_ID_VALID_IMAGE; KB_ATTR_ID_RM_SERIAL_NUMBER].

Definition rm_hwmon_keyboard_read_init_attributes : M Z :=
  rm_hwmon_api_read_attributes init_attr.

Definition rm_hwmon_keyboard_update_fwu : M Z :=
  ret ← rm_hwmon_fwu_init;
  if decide (ret ≠ 0) then mret ret else
  ret ← rm_hwmon_fwu_transfer_binary;
  if decide (ret ≠ 0) then mret ret else
  ret ← rm_hwmon_fwu_validate_image;
  if decide (ret ≠ 0) then mret ret else
  ret ← rm_hwmon_keyboard_read_init_attributes;
  if decide (ret ≠ 0) then mret ret else
  p ← get_pd;
  let ret := memcmp_fw_version (fw_version_of (header (fwu p)))
                               (current_fw_version (fwu p)) in
  if decide (ret ≠ 0) then mret ret else
  ret ← rm_hwmon_fwu_set_image_active;
  mret ret.

Definition rm_hwmon_keyboard_set_brightness : M Z :=
  let data_length := u32 (HEADER_SIZE_ARRAY + 1 * ATTRIBUTES_NR_OF_BKLS) in
  write_req ← rm_hwmon_api_alloc_write_buffer data_length;
  match write_req with
  | None => mret (- ENOMEM)
  | Some write_req =>
    p ← get_pd;
    let write_req :=
      {| tx_u8_data := tx_u8_data write_req;
         tx_subtype := ATTRIBUTE_STORAGE_DATA_UNSIGNED_8_BIT;
         tx_n_len := ATTRIBUTES_NR_OF_BKLS;
         tx_array_data :=
           foldl (λ a i, <[i := u8 (bl_brightness p)]> a) (tx_array_data write_req)
                 (seq 0 (Z.to_nat ATTRIBUTES_NR_OF_BKLS)) |} in
    ret ← rm_hwmon_api_write_attribute KB_ATTR_ID_BKL_BRIGHTNESS write_req data_length;
    mret ret
  end.

(** The first [switch] of [rm_hwmon_kb_event]: the attribute an LED code
    stands for. *)
Definition led_attribute (code : Z) : option Z :=
  if decide (code = LED_CAPSL) then Some KB_ATTR_ID_KEY_LIGHT_CAPS
  else if decide (code = LED_MISC) then Some KB_ATTR_ID_KEY_LIGHT_RM
  else None.

Definition rm_hwmon_kb_event (type code value : Z) : M Z :=
  if decide (type ≠ EV_LED) then mret (-1) else
  match led_attribute code with
  | None => mret (-1)
  | Some attr =>
    modify_pd (λ p, set_attr_writer (set_attribute attr (attr_writer p)) p);;
    p ← get_pd;
    if decide (is_Some (request (attr_writer p))) then mret (- EBUSY) else
    (* We don't want the condor LEDs to go off when we are in slumber *)
    slumber ← (λ st, (next_suspend_is_slumber st, st));
    if bool_decide (value = 0) && slumber then mret 0 else
    modify_pd (λ p, set_attr_writer (set_data_length 1 (attr_writer p)) p);;
    req ← rm_hwmon_api_alloc_write_buffer 1;
    modify_pd (λ p, set_attr_writer (set_request req (attr_writer p)) p);;
    match req with
    | None => mret (- ENOMEM)
    | Some req =>
      modify_pd (λ p,
        set_attr_writer
          (set_request
             (Some {| tx_u8_data := u8 value; tx_subtype := tx_subtype req;
                      tx_n_len := tx_n_len req; tx_array_data := tx_array_data req |})
             (attr_writer p)) p);;
      queued ← schedule_work AttrWriterWork;
      if negb queued then
        modify_pd (λ p, set_attr_writer (set_request None (attr_writer p)) p);;
        mret (-1)
      else
        (* Attributes are never read out, set state manually *)
        if decide (code = LED_CAPSL) then
          modify_pd (set_caps_key_light (bool_decide (value ≠ 0)));; mret 0
        else if decide (code = LED_MISC) then
          modify_pd (set_rm_key_light (bool_decide (value ≠ 0)));; mret 0
        else mret (-1)
    end
  end.

Definition clear_led_bits (d : input_dev) : input_dev :=
  set_ledbit (Z.clearbit (Z.clearbit (ledbit d) LED_CAPSL) LED_MISC) d.

Definition rm_hwmon_keyboard_unregister : M bool :=
  p ← get_pd;
  match kb_dev p with
  | Some _ =>
    modify_dev clear_led_bits;;
    p ← get_pd;
    from_option input_unregister_device (mret tt) (kb_dev p);;
    modify_pd (set_kb_dev None);;
    mret true
  | None => mret false
  end.

Definition rm_hwmon_keyboard_make_input_dev : M Z :=
  modify_pd (set_kb_dev None);;
  p ← get_pd;
  (if decide (key_layout p >= Z.of_nat (length keymap_layouts))
   then modify_pd (set_key_layout 0) else mret tt);;
  dev ← input_allocate_device;
  match dev with
  | None => mret (- EINVAL)
  | Some dev =>
    p ← get_pd;
    let keymap_layout := keymap_layouts !!! Z.to_nat (key_layout p) in
    modify_pd (set_kb_dev (Some dev));;
    modify_pd (set_kb_row_shift (get_count_order (col keymap_layout)));;
    modify_dev (λ d,
      set_event_cb true
        (set_uniq (rm_serial_number p)
           (set_id_version 0x0100
              (set_id_product 0x0001
                 (set_id_vendor 0x2edd
                    (set_id_bustype BUS_HOST
                       (set_phys "pogo/input0" (set_name "rM_Keyboard" d))))))));;
    ret ← matrix_keypad_build_keymap (keymap keymap_layout) (row keymap_layout)
            (col keymap_layout);
    if decide (ret ≠ 0) then mret ret else
    modify_dev (λ d, set_evbit (Z.setbit (Z.setbit (evbit d) EV_KEY) EV_REP) d);;
    input_set_capability EV_LED LED_CAPSL;;
    input_set_capability EV_LED LED_MISC;;
    p ← get_pd;
    ret ← input_register_device (default input_dev_zero (kb_dev p));
    if decide (ret ≠ 0) then mret ret else
    mret 0
  end.

(** The two exit labels of [rm_hwmon_keyboard_register]. *)
Definition unlock_mutex (ret : Z) : M Z :=
  mutex_unlock;;
  mret ret.

Definition kb_fail_register (ret : Z) : M Z :=
  p ← get_pd;
  (match kb_dev p with
   | Some _ =>
     modify_dev clear_led_bits;;
     p ← get_pd;
     from_option input_unregister_device (mret tt) (kb_dev p)
   | None => mret tt
   end);;
  modify_pd (set_kb_dev None);;
  unlock_mutex ret.

(** The tail of [rm_hwmon_keyboard_register]: the input device is made if
    the first half has not made it, and the function leaves. *)
Definition register_finish (ret : Z) (input_dev_ok : bool) : M Z :=
  if negb input_dev_ok then
    ret ← rm_hwmon_keyboard_make_input_dev;
    if decide (ret ≠ 0) then kb_fail_register ret else unlock_mutex ret
  else unlock_mutex ret.

(** [rm_hwmon_keyboard_register] from [if (fw_upgraded)] on. *)
Definition register_after_fwu (ret : Z) (fw_upgraded auth_successful input_dev_ok : bool)
    : M Z :=
  if fw_upgraded then
    ret ← rm_hwmon_api_write_cmd HSP_CMD_ACCS_AUTHORIZE_REQUEST;
    if decide (ret ≠ 0) then kb_fail_register ret else
    ret ← rm_hwmon_keyboard_set_brightness;
    register_finish ret input_dev_ok
  else if negb auth_successful then kb_fail_register ret
  else register_finish ret input_dev_ok.

(** [rm_hwmon_keyboard_register] from the firmware check on; [ret],
    [auth_successful] and [input_dev_ok] are the locals as the first half
    left them. *)
Definition register_check_fwu (ret : Z) (auth_successful input_dev_ok : bool) : M Z :=
  p ← get_pd;
  avail ← rm_hwmon_fwu_load_and_check_for_upgrade (device_name p);
  if (avail : bool) then
    ret ← rm_hwmon_keyboard_update_fwu;
    rm_hwmon_fwu_release_firmware;;
    register_after_fwu ret (bool_decide (ret = 0)) auth_successful input_dev_ok
  else register_after_fwu ret false auth_successful input_dev_ok.

Definition rm_hwmon_keyboard_register : M Z :=
  mutex_lock;;
  rm_hwmon_keyboard_unregister;;
  modify_pd (set_rm_key_light false);;
  modify_pd (set_caps_key_light false);;
  modify_pd (set_rm_key_on_after_resume false);;
  ret ← rm_hwmon_keyboard_read_init_attributes;
  if decide (ret ≠ 0) then unlock_mutex ret else
  ret ← rm_hwmon_api_write_cmd HSP_CMD_ACCS_AUTHORIZE_REQUEST;
  if decide (ret ≠ 0) then register_check_fwu ret false false
  else
    ret ← rm_hwmon_keyboard_make_input_dev;
    if decide (ret ≠ 0) then kb_fail_register ret else
    ret ← rm_hwmon_keyboard_set_brightness;
    register_check_fwu ret true true.

(** [keymap[key]]: a read past the table is undefined in C, [None] here. *)
Definition keymap_at (d : input_dev) (key : Z) : option Z :=
  if decide (0 ≤ key) then keycode d !! Z.to_nat key else None.

Definition rm_hwmon_keyboard_report (event : rm_hwmon_kb_key_event) : M Z :=
  p ← get_pd;
  match kb_dev p with
  | None =>
    schedule_work KbConnectWork;;
    mret (- ENXIO)
  | Some d =>
    let key := int32 (MATRIX_SCAN_CODE (ev_row event) (column event) (kb_row_shift p)) in
    log (EvInputReportKey (keymap_at d key) (pressed event));;
    log EvInputSync;;
    mret 0
  end.

(** The packet bytes seen through [struct rm_hwmon_kb_key_event] (bit-fields
    allocated from the least significant bit, as gcc does on the target). *)
Definition key_event_of_data (data : list Z) : rm_hwmon_kb_key_event :=
  let b0 := default 0 (data !! 0%nat) in
  {| pressed := Z.land b0 1;
     ev_row := Z.land (Z.shiftr b0 1) 7;
     column := Z.land (Z.shiftr b0 4) 15;
     seq_num := default 0 (data !! 1%nat) |}.

Definition rm_hwmon_keyboard_hsp_event (packet : hsp_packet) : M Z :=
  match command packet with
  | HSP_CMD_ACCS_CONNECT =>
    schedule_work KbConnectWork;;
    mret 0
  | HSP_CMD_ACCS_DISCONNECT =>
    mutex_lock;;
    rm_hwmon_keyboard_unregister;;
    mutex_unlock;;
    mret 0
  | HSP_CMD_KEY_EVENT =>
    rm_hwmon_keyboard_report (key_event_of_data (data packet))
  | HSP_CMD_ACCS_AUTHORIZE_REQUEST =>
    let ret :=
      if bool_decide (pkt_length packet = 1)
         && bool_decide (data packet !! 0%nat = Some HSP_CMD_SUCCESS)
      then 0 else - EACCES in
    rm_hwmon_api_req_complete ret;;
    mret ret
  | HSP_CMD_OTHER _ => mret (- ENODEV)
  end.

Definition rm_hwmon_keyboard_connect_event : M unit :=
  rm_hwmon_keyboard_register;;
  mret tt.

Definition rm_hwmon_keyboard_attribute_writer : M unit :=
  p ← get_pd;
  match request (attr_writer p) with
  | Some req =>
    rm_hwmon_api_write_attribute (attribute (attr_writer p)) req
      (data_length (attr_writer p));;
    modify_pd (λ p, set_attr_writer (set_request None (attr_writer p)) p)
  | None => mret tt
  end.

(** The work queue running a pending work: the pending bit is cleared, then
    the work function runs. *)
Definition run_work (w : work) : M unit :=
  modify_pd (set_work_of w {| pending := false |});;
  match w with
  | KbConnectWork => rm_hwmon_keyboard_connect_event
  | AttrWriterWork => rm_hwmon_keyboard_attribute_writer
  end.

End Driver.

Definition newline : string := String (Ascii.ascii_of_nat 10) "".

(** [language_show]: the status and the text written to [buf]. *)
Definition language_show (p : kb_data) (buf : string) : Z * string :=
  if decide (kb_dev p = None) then (- ENODEV, buf)
  else if decide (language p <= LANGUAGE_MIN ∨ LANGUAGE_MAX <= language p)
  then (- ENOEXEC, buf)
  else
    let out := default "" (sysfs_language !! Z.to_nat (language p)) +:+ newline in
    (Z.of_nat (String.length out), out).

(** ** Concrete environments and states *)

Definition tx_zero : attribute_tx :=
  {| tx_u8_data := 0; tx_subtype := ATTRIBUTE_STORAGE_DATA_OTHER 0; tx_n_len := 0;
     tx_array_data := λ _, 0 |}.

Definition fwu_zero : firmware_update :=
  {| max_packet_size := FWU_MAX_PACKET_SIZE; endpoint := 0;
     header := {| fw_version_of := {| major := 0; minor := 0 |} |};
     current_fw_version := {| major := 0; minor := 0 |};
     current_image_start_address := 0; fwu_private := 0 |}.

(** [kb_data] as [rm_hwmon_keyboard_probe] leaves it. *)
Definition kb_data_probe : kb_data :=
  {| kb_dev := None; kb_connect_work := {| pending := false |};
     kb_connect_lock := {| locked := false |};
     attr_writer := {| worker := {| pending := false |}; request := None;
                       attribute := 0; data_length := 0 |};
     kb_row_shift := 0; key_layout := 0; language := 0; rm_serial_number := None;
     cn_serial_number := None; mfg_prod_records := 0; device_name := None;
     git_info := 0; bl_brightness := 0; bl_brightness_array := replicate 6 0;
     is_image_valid := false; rm_key_light := false; caps_key_light := false;
     rm_key_on_after_resume := false; fwu := fwu_zero |}.

Definition state_probe : state :=
  {| pd := kb_data_probe; heap := ∅; next_suspend_is_slumber := false; trace := [] |}.

(** An accessory and a kernel that never fail and offer no firmware image. *)
Definition env_ok : Env :=
  {| read_attributes_reply := λ _ _, ([], 0);
     krealloc_result := λ _ _ _, Some 1%N;
     write_cmd_ret := λ _ _, 0;
     alloc_write_buffer_result := λ _ _, Some tx_zero;
     write_attribute_ret := λ _ _ _ _, 0;
     fwu_load_and_check_result := λ _ f _, (false, f);
     fwu_init_result := λ _ f, (0, f);
     fwu_transfer_binary_result := λ _ f, (0, f);
     fwu_validate_image_result := λ _ f, (0, f);
     fwu_set_image_active_result := λ _ f, (0, f);
     fwu_release_firmware_result := λ _ f, f;
     input_allocate_device_ok := λ _, true;
     keymap_alloc_ok := λ _, true;
     input_register_device_ret := λ _ _, 0 |}.

Definition env_krealloc_fails : Env :=
  {| read_attributes_reply := λ _ _, ([], 0);
     krealloc_result := λ _ _ _, None;
     write_cmd_ret := λ _ _, 0;
     alloc_write_buffer_result := λ _ _, Some tx_zero;
     write_attribute_ret := λ _ _ _ _, 0;
     fwu_load_and_check_result := λ _ f _, (false, f);
     fwu_init_result := λ _ f, (0, f);
     fwu_transfer_binary_result := λ _ f, (0, f);
     fwu_validate_image_result := λ _ f, (0, f);
     fwu_set_image_active_result := λ _ f, (0, f);
     fwu_release_firmware_result := λ _ f, f;
     input_allocate_device_ok := λ _, true;
     keymap_alloc_ok := λ _, true;
     input_register_device_ret := λ _ _, 0 |}.

Definition rx_zero : attribute_rx :=
  {| rx_id := 0; u8_data := 0; u16_data := 0; u32_data := 0; bool_data := false;
     array := {| subtype := ATTRIBUTE_STORAGE_DATA_UNSIGNED_8_BIT; n_len := 0;
                 array_data := λ _, 0 |};
     octets := {| str := [] |} |}.

Definition set_rx_id (v : Z) (r : attribute_rx) : attribute_rx :=
  {| rx_id := v; u8_data := u8_data r; u16_data := u16_data r; u32_data := u32_data r;
     bool_data := bool_data r; array := array r; octets := octets r |}.

(** A device-name response carrying the bytes of "rM2". *)
Definition rx_device_name : attribute_rx :=
  {| rx_id := KB_ATTR_ID_DEVICE_NAME; u8_data := 0; u16_data := 0; u32_data := 0;
     bool_data := false; array := array rx_zero;
     octets := {| str := [114; 77; 50] |} |}.

(** A brightness response announcing 16-bit elements. *)
Definition rx_brightness_u16 : attribute_rx :=
  {| rx_id := KB_ATTR_ID_BKL_BRIGHTNESS; u8_data := 0; u16_data := 0; u32_data := 0;
     bool_data := false;
     array := {| subtype := ATTRIBUTE_STORAGE_DATA_UNSIGNED_16_BIT; n_len := 6;
                 array_data := λ _, 200 |};
     octets := {| str := [] |} |}.

(** A session whose device name "rM" lives in the block at address 16. *)
Definition state_named : state :=
  {| pd := set_device_name (Some 16%N) kb_data_probe;
     heap := {[ 16%N := [114; 77; 0] ]};
     next_suspend_is_slumber := false; trace := [] |}.

(** *** States and predicates used in the statements *)

(** [attr_writer.attribute] set, everything else as it was. *)
Definition with_attribute (attr : Z) (st : state) : state :=
  set_pd (set_attr_writer (set_attribute attr (attr_writer (pd st))) (pd st)) st.

(** The state after the write buffer could not be allocated. *)
Definition alloc_failed (attr : Z) (st : state) : state :=
  set_trace (trace st ++ [EvAllocWriteBuffer 1 false])
    (set_pd (set_attr_writer
               (set_request None
                  (set_data_length 1 (set_attribute attr (attr_writer (pd st)))))
               (pd st)) st).

(** The state after [schedule_work] refused the writer work. *)
Definition schedule_failed (attr : Z) (st : state) : state :=
  set_trace (trace st ++ [EvAllocWriteBuffer 1 true; EvScheduleWork AttrWriterWork false])
    (set_pd (set_attr_writer
               (set_request None
                  (set_data_length 1 (set_attribute attr (attr_writer (pd st)))))
               (pd st)) st).

(** The state a submitted indicator write leaves: the request sits in the
    slot, the writer work is pending and the cached indicator state is set. *)
Definition submitted (code value : Z) (req : attribute_tx) (attr : Z) (st : state)
    : state :=
  let w := {| worker := {| pending := true |};
              request := Some {| tx_u8_data := u8 value; tx_subtype := tx_subtype req;
                                 tx_n_len := tx_n_len req;
                                 tx_array_data := tx_array_data req |};
              attribute := attr; data_length := 1 |} in
  let p := set_attr_writer w (pd st) in
  let p := if decide (code = LED_CAPSL)
           then set_caps_key_light (bool_decide (value ≠ 0)) p
           else set_rm_key_light (bool_decide (value ≠ 0)) p in
  set_trace (trace st ++ [EvAllocWriteBuffer 1 true; EvScheduleWork AttrWriterWork true])
    (set_pd p st).

(** The off transition of the LED [code] is suppressed at [st]: the handler
    returns success, makes no call at all, and both cached indicator states
    are as before. *)
Definition off_suppressed (E : Env) (code : Z) (st : state) : Prop :=
  let r := rm_hwmon_kb_event E EV_LED code 0 st in
  r.1 = 0 ∧ events_since st r.2 = []
  ∧ caps_key_light (pd r.2) = caps_key_light (pd st)
  ∧ rm_key_light (pd r.2) = rm_key_light (pd st).

(** C4 as the specification words it: with a slumber ahead, the off
    transition is suppressed for the rM indicator and not for the caps
    indicator. *)
Definition off_suppressed_for_rm_only (E : Env) (st : state) : Prop :=
  next_suspend_is_slumber st = true →
  off_suppressed E LED_MISC st ∧ ¬ off_suppressed E LED_CAPSL st.

(** C5 as the specification words it, for three indicator events in a row
    with the writer work run between the second and the third: when the
    first is accepted and its write is outstanding, the second is refused as
    busy, the writer frees the slot, and the third succeeds. *)
Definition writer_slot_busy_then_free (E : Env) (hdr : Z)
    (code1 value1 code2 value2 code3 value3 : Z) (st : state) : Prop :=
  let r1 := rm_hwmon_kb_event E EV_LED code1 value1 st in
  let r2 := rm_hwmon_kb_event E EV_LED code2 value2 r1.2 in
  let s3 := (run_work E hdr AttrWriterWork r2.2).2 in
  let r4 := rm_hwmon_kb_event E EV_LED code3 value3 s3 in
  is_Some (led_attribute code2) → is_Some (led_attribute code3) →
  r1.1 = 0 → is_Some (request (attr_writer (pd r1.2))) →
  r2.1 = - EBUSY ∧ request (attr_writer (pd s3)) = None ∧ r4.1 = 0.

(** The eight language names, the table without its "ILLEGAL" entry. *)
Definition language_names : list string := drop 1 sysfs_language.

(** [language_show] wrote one of the language names, and returned its
    length. *)
Definition shows_language_name (r : Z * string) : Prop :=
  ∃ nm, nm ∈ language_names
        ∧ r = (Z.of_nat (String.length (nm +:+ newline)), nm +:+ newline).

(** C9 as the specification words it. *)
Definition language_name_iff_code_in_range (p : kb_data) (buf : string) : Prop :=
  (shows_language_name (language_show p buf) ↔ 1 ≤ language p ≤ 8)
  ∧ (¬ 1 ≤ language p ≤ 8 → (language_show p buf).1 < 0).

Definition state_slumber : state := set_next_suspend_is_slumber true state_probe.

(** A kernel in which only the first allocation of a write buffer
    succeeds. *)
Definition env_alloc_once : Env :=
  {| read_attributes_reply := λ _ _, ([], 0);
     krealloc_result := λ _ _ _, Some 1%N;
     write_cmd_ret := λ _ _, 0;
     alloc_write_buffer_result := λ h _, match h with [] => Some tx_zero | _ => None end;
     write_attribute_ret := λ _ _ _ _, 0;
     fwu_load_and_check_result := λ _ f _, (false, f);
     fwu_init_result := λ _ f, (0, f);
     fwu_transfer_binary_result := λ _ f, (0, f);
     fwu_validate_image_result := λ _ f, (0, f);
     fwu_set_image_active_result := λ _ f, (0, f);
     fwu_release_firmware_result := λ _ f, f;
     input_allocate_device_ok := λ _, true;
     keymap_alloc_ok := λ _, true;
     input_register_device_ret := λ _ _, 0 |}.

(** The bytes [memcmp] compares in a [struct fw_version]. *)
Definition fw_version_bytes (v : fw_version) : list Z := [u8 (major v); u8 (minor v)].

(** The steps of the firmware update sequence that are calls, and the steps
    a run went through, with their status, as its events tell. *)
Inductive fwu_step_id : Type :=
  | StepInit | StepTransfer | StepValidate | StepReadAttributes | StepSetActive.

Definition step_of_event (e : io_event) : option (fwu_step_id * Z) :=
  match e with
  | EvFwuInit ret => Some (StepInit, ret)
  | EvFwuTransferBinary ret => Some (StepTransfer, ret)
  | EvFwuValidateImage ret => Some (StepValidate, ret)
  | EvReadAttributes _ ret => Some (StepReadAttributes, ret)
  | EvFwuSetImageActive ret => Some (StepSetActive, ret)
  | _ => None
  end.

Definition steps_run (evs : list io_event) : list (fwu_step_id * Z) :=
  omap step_of_event evs.

(** What the events of a connect sequence tell. *)
Definition read_result (e : io_event) : option Z :=
  match e with EvReadAttributes _ ret => Some ret | _ => None end.

Definition authorize_result (e : io_event) : option Z :=
  match e with
  | EvWriteCmd HSP_CMD_ACCS_AUTHORIZE_REQUEST ret => Some ret
  | _ => None
  end.

Definition register_result (e : io_event) : option Z :=
  match e with EvInputRegisterDevice _ ret => Some ret | _ => None end.

Definition upgrade_check (e : io_event) : option bool :=
  match e with EvFwuLoadAndCheck avail => Some avail | _ => None end.

Definition write_buffer_alloc (e : io_event) : option bool :=
  match e with EvAllocWriteBuffer _ ok => Some ok | _ => None end.

Definition brightness_write (e : io_event) : option Z :=
  match e with
  | EvWriteAttribute id _ _ ret =>
    if decide (id = KB_ATTR_ID_BKL_BRIGHTNESS) then Some ret else None
  | _ => None
  end.

(** A step of the firmware update orchestrator proper. *)
Definition fwu_call (e : io_event) : option Z :=
  match e with
  | EvFwuInit ret | EvFwuTransferBinary ret | EvFwuValidateImage ret
  | EvFwuSetImageActive ret => Some ret
  | _ => None
  end.

(** C1 as the specification words it: in a connect sequence whose initial
    attribute read and whose authorize request succeed, the input device is
    registered, no step of the firmware update runs and the brightness is
    written exactly once. *)
Definition connect_without_firmware_update (E : Env) (hdr : Z) (st : state) : Prop :=
  let r := rm_hwmon_keyboard_register E hdr st in
  let evs := events_since st r.2 in
  head (omap read_result evs) = Some 0 →
  head (omap authorize_result evs) = Some 0 →
  is_Some (kb_dev (pd r.2))
  ∧ omap register_result evs = [0]
  ∧ omap fwu_call evs = []
  ∧ length (omap brightness_write evs) = 1%nat.

(** Only reallocations. *)
Definition krealloc_only (evs : list io_event) : Prop :=
  Forall (λ e, ∃ old size res, e = EvKrealloc old size res) evs.

(** The trace only grows. *)
Definition trace_grows (st st' : state) : Prop :=
  ∃ evs, trace st' = trace st ++ evs.

(** What decoding attribute responses may do: it leaves alone the fields of
    [kb_data] that no reader writes and the slumber flag, and makes no call
    but reallocations. *)
Record decode_frame (st st' : state) : Prop := {
  frame_kb_dev : kb_dev (pd st') = kb_dev (pd st);
  frame_kb_connect_work : kb_connect_work (pd st') = kb_connect_work (pd st);
  frame_kb_connect_lock : kb_connect_lock (pd st') = kb_connect_lock (pd st);
  frame_attr_writer : attr_writer (pd st') = attr_writer (pd st);
  frame_kb_row_shift : kb_row_shift (pd st') = kb_row_shift (pd st);
  frame_bl_brightness : bl_brightness (pd st') = bl_brightness (pd st);
  frame_rm_key_on_after_resume :
    rm_key_on_after_resume (pd st') = rm_key_on_after_resume (pd st);
  frame_slumber : next_suspend_is_slumber st' = next_suspend_is_slumber st;
  frame_trace : ∃ ks, trace st' = trace st ++ ks ∧ krealloc_only ks
}.

(** A computation all of whose runs are related by [R]. *)
Definition preserves (R : state → state → Prop) {A : Type} (c : M A) : Prop :=
  ∀ st, R st (c st).2.

(** An accessory that reports firmware 1.0 on every read. *)
Definition rx_fw_version_1_0 : attribute_rx :=
  {| rx_id := KB_ATTR_ID_FW_VERSION; u8_data := 0; u16_data := 0x0001; u32_data := 0;
     bool_data := false; array := array rx_zero; octets := {| str := [] |} |}.

Definition env_reports_1_0 : Env :=
  {| read_attributes_reply := λ _ _, ([rx_fw_version_1_0], 0);
     krealloc_result := λ _ _ _, Some 1%N;
     write_cmd_ret := λ _ _, 0;
     alloc_write_buffer_result := λ _ _, Some tx_zero;
     write_attribute_ret := λ _ _ _ _, 0;
     fwu_load_and_check_result := λ _ f _, (true, f);
     fwu_init_result := λ _ f, (0, f);
     fwu_transfer_binary_result := λ _ f, (0, f);
     fwu_validate_image_result := λ _ f, (0, f);
     fwu_set_image_active_result := λ _ f, (0, f);
     fwu_release_firmware_result := λ _ f, f;
     input_allocate_device_ok := λ _, true;
     keymap_alloc_ok := λ _, true;
     input_register_device_ret := λ _ _, 0 |}.

(** A pending image whose header declares firmware [major.minor]. *)
Definition with_image (major minor : Z) (st : state) : state :=
  set_pd (set_fwu (set_header {| fw_version_of := {| major := major; minor := minor |} |}
                     (fwu (pd st))) (pd st)) st.

(** An accessory running firmware 0.9 with an image 1.0 waiting: it reports
    0.9 until an image was validated and 1.0 from then on; the firmware
    provider offers the image at every check. *)
Definition rx_fw_version_0_9 : attribute_rx :=
  {| rx_id := KB_ATTR_ID_FW_VERSION; u8_data := 0; u16_data := 0x0900; u32_data := 0;
     bool_data := false; array := array rx_zero; octets := {| str := [] |} |}.

Definition validated (h : list io_event) : bool :=
  existsb (λ e, match e with EvFwuValidateImage _ => true | _ => false end) h.

Definition env_upgrade : Env :=
  {| read_attributes_reply :=
       λ h _, ([if validated h then rx_fw_version_1_0 else rx_fw_version_0_9], 0);
     krealloc_result := λ _ _ _, Some 1%N;
     write_cmd_ret := λ _ _, 0;
     alloc_write_buffer_result := λ _ _, Some tx_zero;
     write_attribute_ret := λ _ _ _ _, 0;
     fwu_load_and_check_result :=
       λ _ f _, (true, set_header {| fw_version_of := {| major := 1; minor := 0 |} |} f);
     fwu_init_result := λ _ f, (0, f);
     fwu_transfer_binary_result := λ _ f, (0, f);
     fwu_validate_image_result := λ _ f, (0, f);
     fwu_set_image_active_result := λ _ f, (0, f);
     fwu_release_firmware_result := λ _ f, f;
     input_allocate_device_ok := λ _, true;
     keymap_alloc_ok := λ _, true;
     input_register_device_ret := λ _ _, 0 |}.

(** The session [rm_hwmon_keyboard_register] leaves after a connect that
    went well. *)
Definition state_active : state := (rm_hwmon_keyboard_register env_ok 2 state_probe).2.

(** A kernel that cannot allocate an input device, and one that cannot
    allocate a write buffer. *)
Definition env_no_input_dev : Env :=
  {| read_attributes_reply := λ _ _, ([], 0);
     krealloc_result := λ _ _ _, Some 1%N;
     write_cmd_ret := λ _ _, 0;
     alloc_write_buffer_result := λ _ _, Some tx_zero;
     write_attribute_ret := λ _ _ _ _, 0;
     fwu_load_and_check_result := λ _ f _, (false, f);
     fwu_init_result := λ _ f, (0, f);
     fwu_transfer_binary_result := λ _ f, (0, f);
     fwu_validate_image_result := λ _ f, (0, f);
     fwu_set_image_active_result := λ _ f, (0, f);
     fwu_release_firmware_result := λ _ f, f;
     input_allocate_device_ok := λ _, false;
     keymap_alloc_ok := λ _, true;
     input_register_device_ret := λ _ _, 0 |}.

Definition env_no_write_buffer : Env :=
  {| read_attributes_reply := λ _ _, ([], 0);
     krealloc_result := λ _ _ _, Some 1%N;
     write_cmd_ret := λ _ _, 0;
     alloc_write_buffer_result := λ _ _, None;
     write_attribute_ret := λ _ _ _ _, 0;
     fwu_load_and_check_result := λ _ f _, (false, f);
     fwu_init_result := λ _ f, (0, f);
     fwu_transfer_binary_result := λ _ f, (0, f);
     fwu_validate_image_result := λ _ f, (0, f);
     fwu_set_image_active_result := λ _ f, (0, f);
     fwu_release_firmware_result := λ _ f, f;
     input_allocate_device_ok := λ _, true;
     keymap_alloc_ok := λ _, true;
     input_register_device_ret := λ _ _, 0 |}.

(** ** The backlight, the status reads and the power management hooks *)

(** What [sprintf] writes for [%s], [%d] and [%x].  [%s] prints the bytes up
    to the first zero, and "(null)" for a [NULL] pointer; [%x] is given for
    the [uint8_t] the driver prints with it. *)
Definition char_of_byte (b : Z) : Ascii.ascii := Ascii.ascii_of_N (Z.to_N (u8 b)).

Fixpoint c_string (bytes : list Z) : string :=
  match bytes with
  | [] => ""
  | b :: bytes' =>
    if decide (u8 b = 0) then "" else String (char_of_byte b) (c_string bytes')
  end.

Definition print_s (h : gmap N (list Z)) (p : ptr) : string :=
  match p with
  | None => "(null)"
  | Some a => c_string (default [] (h !! a))
  end.

Definition print_d (v : Z) : string := pretty v.

Definition hex_digit (d : Z) : string := String.substring (Z.to_nat d) 1 "0123456789abcdef".

Definition print_x (v : Z) : string :=
  if decide (v < 16) then hex_digit v else hex_digit (v / 16) +:+ hex_digit (v mod 16).

Definition sprintf_result (out : string) : Z * string := (Z.of_nat (String.length out), out).

Definition firmware_show (p : kb_data) (buf : string) : Z * string :=
  if decide (kb_dev p = None) then (- ENODEV, buf)
  else
    sprintf_result
      (print_d (u8 (major (current_fw_version (fwu p)))) +:+ "."
       +:+ print_d (u8 (minor (current_fw_version (fwu p)))) +:+ newline).

Definition rm_serial_show (st : state) (buf : string) : Z * string :=
  if decide (kb_dev (pd st) = None ∨ rm_serial_number (pd st) = None) then (- ENODEV, buf)
  else sprintf_result (print_s (heap st) (rm_serial_number (pd st)) +:+ newline).

Section Status.

Variable E : Env.
Variable HEADER_SIZE_ARRAY : Z.

(** [rm_hwmon_kb_bl_update_status]; [brightness] is what
    [backlight_get_brightness] returns for the backlight device. *)
Definition rm_hwmon_kb_bl_update_status (brightness : Z) : M Z :=
  p ← get_pd;
  if decide (brightness ≠ bl_brightness p) then
    modify_pd (set_bl_brightness brightness);;
    p ← get_pd;
    if decide (is_Some (kb_dev p)) then rm_hwmon_keyboard_set_brightness E HEADER_SIZE_ARRAY
    else mret 0
  else mret 0.

(** Modelled from the spec: [rm_hwmon_api_read_attribute] of the transport is
    not part of the sources.  It is the read of one attribute: the request
    goes out, the response is decoded through the registered table, and the
    status comes back, as for [rm_hwmon_api_read_attributes] with the one
    id. *)
Definition rm_hwmon_api_read_attribute (id : Z) : M Z :=
  rm_hwmon_api_read_attributes E [id].

Definition get_heap : M (gmap N (list Z)) := λ st, (heap st, st).

Definition cn_serial_show (buf : string) : M (Z * string) :=
  p ← get_pd;
  if decide (kb_dev p = None) then mret (- ENODEV, buf) else
  ret ← rm_hwmon_api_read_attribute KB_ATTR_ID_CN_SERIAL_NUMBER;
  if decide (ret ≠ 0) then mret (ret, buf) else
  p ← get_pd;
  h ← get_heap;
  mret (sprintf_result (print_s h (cn_serial_number p) +:+ newline)).

Definition prod_records_show (buf : string) : M (Z * string) :=
  p ← get_pd;
  if decide (kb_dev p = None) then mret (- ENODEV, buf) else
  ret ← rm_hwmon_api_read_attribute KB_ATTR_ID_MFG_PROD_RECORDS;
  if decide (ret ≠ 0) then mret (ret, buf) else
  p ← get_pd;
  mret (sprintf_result (print_x (u8 (mfg_prod_records p)) +:+ newline)).

(** [input_event] of the input core for an LED event, the one kind the
    driver injects: the core hands the event to the [event] callback of the
    device when the device has the LED and the state of the LED, which the
    core keeps, changes; [changes] tells the latter.  The status of the
    callback is dropped. *)
Definition input_event (changes : bool) (type code value : Z) : M unit :=
  p ← get_pd;
  match kb_dev p with
  | Some d =>
    if Z.testbit (evbit d) type && Z.testbit (ledbit d) code && changes && event_cb d
    then rm_hwmon_kb_event E type code value;; mret tt
    else mret tt
  | None => mret tt
  end.

Definition rm_hwmon_kb_led_save (changes : bool) : M Z :=
  p ← get_pd;
  (if bool_decide (is_Some (kb_dev p)) && rm_key_light p then
     modify_pd (set_rm_key_on_after_resume true);;
     input_event changes EV_LED LED_MISC 0
   else mret tt);;
  mret 0.

Definition rm_hwmon_kb_led_load (changes : bool) : M Z :=
  p ← get_pd;
  (if bool_decide (is_Some (kb_dev p)) && rm_key_on_after_resume p then
     input_event changes EV_LED LED_MISC 1
   else mret tt);;
  modify_pd (set_rm_key_on_after_resume false);;
  mret 0.

End Status.

(** *** The surface of a session *)

(** The table [matrix_keypad_build_keymap] builds from the key map of layout
    version 1: seven rows of sixteen codes. *)
Definition keycode_v1 : list Z :=
  keycode (matrix_keypad_map_keys 7 16 4 rm_hwmon_keymap_v1
             (set_keycode (replicate 112 0) input_dev_zero)).2.

(** The input device as [rm_hwmon_keyboard_make_input_dev] registers it. *)
Record registered_surface (p : kb_data) (d : input_dev) : Prop := {
  surface_row_shift : kb_row_shift p = 4;
  surface_keycode : keycode d = keycode_v1;
  surface_keycodemax : keycodemax d = 112;
  surface_led_capsl : Z.testbit (ledbit d) LED_CAPSL = true;
  surface_led_misc : Z.testbit (ledbit d) LED_MISC = true;
  surface_ev_led : Z.testbit (evbit d) EV_LED = true;
  surface_ev_key : Z.testbit (evbit d) EV_KEY = true;
  surface_ev_rep : Z.testbit (evbit d) EV_REP = true;
  surface_event_cb : event_cb d = true;
  surface_name : name d = "rM_Keyboard"
}.

(** *** What a run keeps and which calls it makes *)

(** A run that leaves [proj] of the driver data and the slumber flag as they
    were, and makes calls of the kind [P] only. *)
Definition run_keeps {X : Type} (proj : kb_data → X) (P : io_event → bool)
    (st st' : state) : Prop :=
  proj (pd st') = proj (pd st)
  ∧ next_suspend_is_slumber st' = next_suspend_is_slumber st
  ∧ ∃ evs, trace st' = trace st ++ evs ∧ Forall (λ e, P e = true) evs.

(** The fields no attribute reader and no firmware step writes. *)
Definition session_fields (p : kb_data) :=
  (kb_dev p, kb_row_shift p, kb_connect_lock p, kb_connect_work p, attr_writer p,
   bl_brightness p, rm_key_on_after_resume p).

(** The fields the connect sequence leaves alone as well. *)
Definition user_fields (p : kb_data) :=
  (kb_connect_work p, attr_writer p, bl_brightness p).

Definition any_call (e : io_event) : bool := true.

Definition is_krealloc (e : io_event) : bool :=
  match e with EvKrealloc _ _ _ => true | _ => false end.

(** The calls of the firmware update sequence. *)
Definition update_call (e : io_event) : bool :=
  match e with
  | EvKrealloc _ _ _ | EvReadAttributes _ _ | EvFwuInit _ | EvFwuTransferBinary _
  | EvFwuValidateImage _ | EvFwuSetImageActive _ => true
  | _ => false
  end.

(** The calls of the connect sequence: no work is scheduled, no key is
    reported, no request is completed, the one command is the authorize
    request and the one attribute written is the brightness. *)
Definition connect_call (e : io_event) : bool :=
  match e with
  | EvScheduleWork _ _ | EvInputReportKey _ _ | EvInputSync | EvReqComplete _ => false
  | EvWriteCmd HSP_CMD_ACCS_AUTHORIZE_REQUEST _ => true
  | EvWriteCmd _ _ => false
  | EvWriteAttribute id _ _ _ => bool_decide (id = KB_ATTR_ID_BKL_BRIGHTNESS)
  | _ => true
  end.

(** The calls of the LED handler: the allocation of the one-byte buffer and
    the request to schedule the writer. *)
Definition led_call (e : io_event) : bool :=
  match e with
  | EvAllocWriteBuffer len _ => bool_decide (len = 1)
  | EvScheduleWork AttrWriterWork _ => true
  | _ => false
  end.

(** *** The states the driver keeps to *)

Definition surface_inv (st : state) : Prop :=
  ∀ d, kb_dev (pd st) = Some d → registered_surface (pd st) d.

(** How a connect sequence leaves: the lock is free, a status of zero means
    the input device is registered, and a registered device is the one
    [rm_hwmon_keyboard_make_input_dev] makes. *)
Definition connect_post (r : Z * state) : Prop :=
  locked (kb_connect_lock (pd r.2)) = false
  ∧ (r.1 = 0 → is_Some (kb_dev (pd r.2)))
  ∧ surface_inv r.2.

Record driver_inv (st : state) : Prop := {
  inv_lock : locked (kb_connect_lock (pd st)) = false;
  inv_surface : surface_inv st;
  inv_writer :
    pending (worker (attr_writer (pd st))) = true →
    is_Some (request (attr_writer (pd st)))
}.

(** What the accessory, the work queue, the input core, the backlight core,
    a reader of the status files, the power management and the parent
    driver can ask of the driver between probe and remove. *)
Inductive driver_call : Type :=
  | CallHspEvent (packet : hsp_packet)
  | CallRunWork (w : work)
  | CallLedEvent (changes : bool) (code value : Z)
  | CallBacklight (brightness : Z)
  | CallCnSerialShow
  | CallProdRecordsShow
  | CallLedSave (changes : bool)
  | CallLedLoad (changes : bool)
  | CallSetSlumber (slumber : bool).

Definition driver_step (E : Env) (hdr hsp_success : Z) (c : driver_call) : M unit :=
  match c with
  | CallHspEvent packet => rm_hwmon_keyboard_hsp_event hsp_success packet;; mret tt
  | CallRunWork w => run_work E hdr w
  | CallLedEvent changes code value => input_event E changes EV_LED code value
  | CallBacklight brightness => rm_hwmon_kb_bl_update_status E hdr brightness;; mret tt
  | CallCnSerialShow => cn_serial_show E "";; mret tt
  | CallProdRecordsShow => prod_records_show E "";; mret tt
  | CallLedSave changes => rm_hwmon_kb_led_save E changes;; mret tt
  | CallLedLoad changes => rm_hwmon_kb_led_load E changes;; mret tt
  | CallSetSlumber slumber => λ st, (tt, set_next_suspend_is_slumber slumber st)
  end.

Fixpoint driver_run (E : Env) (hdr hsp_success : Z) (cs : list driver_call) : M unit :=
  match cs with
  | [] => mret tt
  | c :: cs' => driver_step E hdr hsp_success c;; driver_run E hdr hsp_success cs'
  end.

(** The fields [driver_inv] speaks of. *)
Definition inv_fields (p : kb_data) :=
  (kb_dev p, kb_row_shift p, kb_connect_lock p, attr_writer p).

(** *** The brightness on the wire *)

(** The payload of a brightness write for the brightness [b]: six elements of
    eight bits, each [b] cut to a byte. *)
Definition brightness_payload (b : Z) (req : attribute_tx) : Prop :=
  tx_subtype req = ATTRIBUTE_STORAGE_DATA_UNSIGNED_8_BIT
  ∧ tx_n_len req = ATTRIBUTES_NR_OF_BKLS
  ∧ ∀ i, (i < 6)%nat → tx_array_data req i = u8 b.

(** A run that keeps the stored brightness [b] and writes no attribute but
    with the payload for [b]. *)
Definition payload_frame (b : Z) (st st' : state) : Prop :=
  bl_brightness (pd st) = b →
  bl_brightness (pd st') = b
  ∧ ∃ evs, trace st' = trace st ++ evs
           ∧ Forall (λ e, ∀ id req len ret,
                       e = EvWriteAttribute id req len ret → brightness_payload b req) evs.

(** The response that carries back what an array request carried. *)
Definition rx_of_tx (id : Z) (req : attribute_tx) : attribute_rx :=
  {| rx_id := id; u8_data := tx_u8_data req; u16_data := 0; u32_data := 0;
     bool_data := false;
     array := {| subtype := tx_subtype req; n_len := tx_n_len req;
                 array_data := tx_array_data req |};
     octets := {| str := [] |} |}.

Definition device_alloc (e : io_event) : option bool :=
  match e with EvInputAllocateDevice ok => Some ok | _ => None end.

(** [rm_hwmon_keyboard_register] from the authorize request on. *)
Definition register_authorize (E : Env) (hdr : Z) : M Z :=
  ret ← rm_hwmon_api_write_cmd E HSP_CMD_ACCS_AUTHORIZE_REQUEST;
  if decide (ret ≠ 0) then register_check_fwu E hdr ret false false
  else
    ret ← rm_hwmon_keyboard_make_input_dev E;
    if decide (ret ≠ 0) then kb_fail_register ret else
    ret ← rm_hwmon_keyboard_set_brightness E hdr;
    register_check_fwu E hdr ret true true.

(** An accessory whose attributes cannot be read. *)
Definition env_read_fails : Env :=
  {| read_attributes_reply := λ _ _, ([], - EINVAL);
     krealloc_result := λ _ _ _, Some 1%N;
     write_cmd_ret := λ _ _, 0;
     alloc_write_buffer_result := λ _ _, Some tx_zero;
     write_attribute_ret := λ _ _ _ _, 0;
     fwu_load_and_check_result := λ _ f _, (false, f);
     fwu_init_result := λ _ f, (0, f);
     fwu_transfer_binary_result := λ _ f, (0, f);
     fwu_validate_image_result := λ _ f, (0, f);
     fwu_set_image_active_result := λ _ f, (0, f);
     fwu_release_firmware_result := λ _ f, f;
     input_allocate_device_ok := λ _, true;
     keymap_alloc_ok := λ _, true;
     input_register_device_ret := λ _ _, 0 |}.

(** An accessory that refuses to authorize, and no firmware image for it. *)
Definition env_unauthorized : Env :=
  {| read_attributes_reply := λ _ _, ([], 0);
     krealloc_result := λ _ _ _, Some 1%N;
     write_cmd_ret := λ _ _, - EACCES;
     alloc_write_buffer_result := λ _ _, Some tx_zero;
     write_attribute_ret := λ _ _ _ _, 0;
     fwu_load_and_check_result := λ _ f _, (false, f);
     fwu_init_result := λ _ f, (0, f);
     fwu_transfer_binary_result := λ _ f, (0, f);
     fwu_validate_image_result := λ _ f, (0, f);
     fwu_set_image_active_result := λ _ f, (0, f);
     fwu_release_firmware_result := λ _ f, f;
     input_allocate_device_ok := λ _, true;
     keymap_alloc_ok := λ _, true;
     input_register_device_ret := λ _ _, 0 |}.

(** An accessory that authorizes only once an image was validated, running
    firmware 0.9 with an image 1.0 waiting. *)
Definition env_upgrade_first : Env :=
  {| read_attributes_reply :=
       λ h _, ([if validated h then rx_fw_version_1_0 else rx_fw_version_0_9], 0);
     krealloc_result := λ _ _ _, Some 1%N;
     write_cmd_ret := λ h _, if validated h then 0 else - EACCES;
     alloc_write_buffer_result := λ _ _, Some tx_zero;
     write_attribute_ret := λ _ _ _ _, 0;
     fwu_load_and_check_result :=
       λ _ f _, (true, set_header {| fw_version_of := {| major := 1; minor := 0 |} |} f);
     fwu_init_result := λ _ f, (0, f);
     fwu_transfer_binary_result := λ _ f, (0, f);
     fwu_validate_image_result := λ _ f, (0, f);
     fwu_set_image_active_result := λ _ f, (0, f);
     fwu_release_firmware_result := λ _ f, f;
     input_allocate_device_ok := λ _, true;
     keymap_alloc_ok := λ _, true;
     input_register_device_ret := λ _ _, 0 |}.

(** A session with a registered input device whose [uniq] is the serial
    number "S1" in the block at address 16. *)
Definition state_serial : state :=
  {| pd := set_kb_dev (Some (set_uniq (Some 16%N) input_dev_zero))
             (set_rm_serial_number (Some 16%N) kb_data_probe);
     heap := {[ 16%N := [83; 49; 0] ]};
     next_suspend_is_slumber := false; trace := [] |}.

(** A serial-number response carrying the bytes of "S12345". *)
Definition rx_rm_serial : attribute_rx :=
  {| rx_id := KB_ATTR_ID_RM_SERIAL_NUMBER; u8_data := 0; u16_data := 0; u32_data := 0;
     bool_data := false; array := array rx_zero;
     octets := {| str := [83; 49; 50; 51; 52; 53] |} |}.

Definition no_attribute_write (e : io_event) : bool :=
  match e with EvWriteAttribute _ _ _ _ => false | _ => true end.

(** The text a run of bytes stands for. *)
Fixpoint string_of_bytes (bytes : list Z) : string :=
  match bytes with
  | [] => ""
  | b :: bytes' => String (char_of_byte b) (string_of_bytes bytes')
  end.

(** The attribute and the byte of a write to the accessory. *)
Definition attribute_write (e : io_event) : option (Z * Z) :=
  match e with
  | EvWriteAttribute id req _ _ => Some (id, tx_u8_data req)
  | _ => None
  end.

(** ** Properties *)

Ltac run :=
  unfold mbind, M_bind, mret, M_ret, get_pd, modify_pd, history, log in *; cbn in *.

(** *** The model at work *)

Example get_count_order_values :
  (get_count_order 0, get_count_order 1, get_count_order 3, get_count_order 16,
   get_count_order 17, get_count_order 255) = (-1, 0, 2, 4, 5, 8).
Proof. reflexivity. Qed.

(** The key at row 0, column 0 is reported as [KEY_M], the one at row 6,
    column 13 as [KEY_TAB]; row 7 lies behind the 7 rows of the table. *)
Example report_row_0_column_0 :
  events_since state_active
    (rm_hwmon_keyboard_report (key_event_of_data [0x01; 0]) state_active).2
  = [EvInputReportKey (Some KEY_M) 1; EvInputSync].
Proof. vm_compute. reflexivity. Qed.

Example report_row_6_column_13 :
  events_since state_active
    (rm_hwmon_keyboard_report (key_event_of_data [0xDD; 1]) state_active).2
  = [EvInputReportKey (Some KEY_TAB) 1; EvInputSync].
Proof. vm_compute. reflexivity. Qed.

Example report_row_7 :
  events_since state_active
    (rm_hwmon_keyboard_report (key_event_of_data [0x0E; 2]) state_active).2
  = [EvInputReportKey None 0; EvInputSync].
Proof. vm_compute. reflexivity. Qed.

(** An authorize reply is a success only as the single byte
    [HSP_CMD_SUCCESS]. *)
Example authorize_reply (hsp_success : Z) :
  (rm_hwmon_keyboard_hsp_event hsp_success
     {| command := HSP_CMD_ACCS_AUTHORIZE_REQUEST; pkt_length := 1;
        data := [hsp_success] |} state_probe).1 = 0
  ∧ (rm_hwmon_keyboard_hsp_event hsp_success
       {| command := HSP_CMD_ACCS_AUTHORIZE_REQUEST; pkt_length := 2;
          data := [hsp_success; 0] |} state_probe).1 = - EACCES.
Proof.
  unfold rm_hwmon_keyboard_hsp_event, rm_hwmon_api_req_complete. cbn.
  split; [|done]. by rewrite (bool_decide_eq_true_2 (Some hsp_success = Some hsp_success)).
Qed.

(** *** Attribute readers *)

(** The decodes made by [MAKE_READER] and [reader_fw_version] cannot fail. *)
Lemma MAKE_READER_true {A} (member : attribute_rx → A) field_set attr_res st :
  (MAKE_READER member field_set attr_res st).1 = true.
Proof. reflexivity. Qed.

Lemma reader_fw_version_true attr_res st : (reader_fw_version attr_res st).1 = true.
Proof. reflexivity. Qed.

(** What [dispatch] does once the table entry is known. *)
Lemma dispatch_known configs attr_res st i c :
  list_find (λ c, cfg_id c = rx_id attr_res) configs = Some (i, c) →
  dispatch configs attr_res st
  = (Some (cfg_reader c attr_res st).1, (cfg_reader c attr_res st).2).
Proof.
  intros H. unfold dispatch. rewrite H. run. by destruct (cfg_reader c attr_res st).
Qed.

Lemma dispatch_unknown configs attr_res st :
  list_find (λ c, cfg_id c = rx_id attr_res) configs = None →
  dispatch configs attr_res st = (None, st).
Proof. intros H. unfold dispatch. by rewrite H. Qed.

(** The table entries of the brightness array and of the two indicators. *)
Lemma attribute_configs_BKL_BRIGHTNESS (E : Env) :
  ∃ i c, list_find (λ c, cfg_id c = KB_ATTR_ID_BKL_BRIGHTNESS) (attribute_configs E)
         = Some (i, c)
         ∧ cfg_reader c = reader_bl_brightness_array.
Proof. eexists _, _. split; reflexivity. Qed.

Lemma attribute_configs_KEY_LIGHT_CAPS (E : Env) :
  ∃ i c, list_find (λ c, cfg_id c = KB_ATTR_ID_KEY_LIGHT_CAPS) (attribute_configs E)
         = Some (i, c)
         ∧ cfg_reader c = reader_rm_key_light.
Proof. eexists _, _. split; reflexivity. Qed.

Lemma attribute_configs_KEY_LIGHT_RM (E : Env) :
  ∃ i c, list_find (λ c, cfg_id c = KB_ATTR_ID_KEY_LIGHT_RM) (attribute_configs E)
         = Some (i, c)
         ∧ cfg_reader c = reader_caps_key_light.
Proof. eexists _, _. split; reflexivity. Qed.

(** C8: a brightness-array decode whose payload announces an element subtype
    other than unsigned 8 bit, or an element count other than the 6 slots,
    returns failure and leaves the whole driver state, and so every element
    of [bl_brightness_array], as it was; the same holds when the decode is
    reached through the registered table. *)
Theorem reader_bl_brightness_array_mismatch (E : Env) (attr_res : attribute_rx)
    (st : state) :
  subtype (array attr_res) ≠ ATTRIBUTE_STORAGE_DATA_UNSIGNED_8_BIT
  ∨ n_len (array attr_res) ≠ ATTRIBUTES_NR_OF_BKLS →
  reader_bl_brightness_array attr_res st = (false, st)
  ∧ (∀ i, bl_brightness_array (pd (reader_bl_brightness_array attr_res st).2) !! i
          = bl_brightness_array (pd st) !! i)
  ∧ (rx_id attr_res = KB_ATTR_ID_BKL_BRIGHTNESS →
     dispatch (attribute_configs E) attr_res st = (Some false, st)).
Proof.
  intros Hbad.
  assert (Hr : reader_bl_brightness_array attr_res st = (false, st)).
  { unfold reader_bl_brightness_array.
    destruct (decide (subtype (array attr_res) ≠ _)) as [|Hs]; [done|].
    destruct (decide (n_len (array attr_res) ≠ _)) as [|Hn]; [done|].
    destruct Hbad as [Hbad|Hbad]; [by destruct Hs | by destruct Hn]. }
  split; [exact Hr|]. split; [by rewrite Hr|].
  intros Hid. destruct (attribute_configs_BKL_BRIGHTNESS E) as (i & c & Hc & Hrd).
  rewrite <- Hid in Hc. rewrite (dispatch_known _ _ _ _ _ Hc), Hrd, Hr. done.
Qed.

Lemma reader_bl_brightness_array_mismatch_witness :
  reader_bl_brightness_array rx_brightness_u16 state_probe = (false, state_probe)
  ∧ (∀ i, bl_brightness_array
            (pd (reader_bl_brightness_array rx_brightness_u16 state_probe).2) !! i
          = bl_brightness_array (pd state_probe) !! i)
  ∧ (rx_id rx_brightness_u16 = KB_ATTR_ID_BKL_BRIGHTNESS →
     dispatch (attribute_configs env_ok) rx_brightness_u16 state_probe
     = (Some false, state_probe)).
Proof.
  apply (reader_bl_brightness_array_mismatch env_ok rx_brightness_u16 state_probe).
  left. discriminate.
Defined.

(** An octet-string decode for an id outside the three string attributes
    fails and leaves the state as it was. *)
Lemma reader_octet_attribute_unknown_id (E : Env) attr_res st :
  octet_attribute_of (rx_id attr_res) = None →
  reader_octet_attribute E attr_res st = (false, st).
Proof. intros H. unfold reader_octet_attribute. by rewrite H. Qed.

(** When the reallocation fails, the octet-string decode fails and the
    destination holds [NULL]; the old block stays in the heap. *)
Lemma reader_octet_attribute_alloc_failure (E : Env) attr_res slot st :
  octet_attribute_of (rx_id attr_res) = Some slot →
  krealloc_result E (trace st) (slot_get slot (pd st)) (str_len (octets attr_res) + 1)
    = None →
  let r := reader_octet_attribute E attr_res st in
  r.1 = false ∧ slot_get slot (pd r.2) = None ∧ heap r.2 = heap st.
Proof.
  intros Hs Hk. unfold reader_octet_attribute. rewrite Hs. run.
  unfold devm_krealloc. rewrite Hk. cbn. by destruct slot.
Qed.

(** When the reallocation succeeds, the destination points at a block of
    [str_len + 1] bytes: the string followed by a terminating zero. *)
Lemma reader_octet_attribute_success (E : Env) attr_res slot st a :
  octet_attribute_of (rx_id attr_res) = Some slot →
  krealloc_result E (trace st) (slot_get slot (pd st)) (str_len (octets attr_res) + 1)
    = Some a →
  let r := reader_octet_attribute E attr_res st in
  r.1 = true ∧ slot_get slot (pd r.2) = Some a
  ∧ heap r.2 !! a = Some (str (octets attr_res) ++ [0]).
Proof.
  intros Hs Hk. unfold reader_octet_attribute. rewrite Hs. run.
  unfold devm_krealloc, store_block. rewrite Hk. cbn.
  split; [done|]. split; [by destruct slot|].
  rewrite lookup_alter_eq, lookup_insert_eq. cbn. f_equal.
  set (n := length (str (octets attr_res))).
  set (blk := resize _ 0 _).
  assert (Hlen : length blk = S n).
  { unfold blk. rewrite length_resize. unfold str_len. fold n. lia. }
  unfold memcpy. rewrite take_ge by (unfold n; lia).
  rewrite insert_app_r_alt by (unfold n; lia).
  f_equal. replace (n - length (str (octets attr_res)))%nat with 0%nat by (unfold n; lia).
  destruct (drop n blk) as [|x [|y l]] eqn:Hd; apply (f_equal length) in Hd;
    rewrite length_drop, Hlen in Hd; cbn in Hd; try lia. done.
Qed.

(** C2: at a device-name response for which [devm_krealloc] fails, the decode
    returns false and [device_name], which pointed at the block holding
    "rM", is [NULL] afterwards; the block is still in the heap, with nothing
    pointing at it. *)
Theorem reader_octet_attribute_failure_clears_pointer :
  let r := reader_octet_attribute env_krealloc_fails rx_device_name state_named in
  r.1 = false
  ∧ device_name (pd state_named) = Some 16%N
  ∧ device_name (pd r.2) = None
  ∧ heap r.2 !! 16%N = Some [114; 77; 0].
Proof. vm_compute. done. Qed.

(** *** The indicator handler and the single-slot writer *)

Lemma led_attribute_cases code attr :
  led_attribute code = Some attr →
  (code = LED_CAPSL ∧ attr = KB_ATTR_ID_KEY_LIGHT_CAPS)
  ∨ (code = LED_MISC ∧ attr = KB_ATTR_ID_KEY_LIGHT_RM).
Proof. unfold led_attribute. repeat case_decide; naive_solver. Qed.

Lemma events_since_refl st : events_since st st = [].
Proof. unfold events_since. by rewrite drop_all. Qed.

Lemma events_since_same_trace st st' :
  trace st' = trace st → events_since st st' = [].
Proof. intros H. unfold events_since. by rewrite H, drop_all. Qed.

Lemma events_since_app st st' evs :
  trace st' = trace st ++ evs → events_since st st' = evs.
Proof. intros H. unfold events_since. by rewrite H, drop_app_length. Qed.

(** [rm_hwmon_kb_event] on an LED event, path by path. *)
Lemma rm_hwmon_kb_event_led (E : Env) code value st :
  rm_hwmon_kb_event E EV_LED code value st =
    match led_attribute code with
    | None => (-1, st)
    | Some attr =>
      if decide (is_Some (request (attr_writer (pd st))))
      then (- EBUSY, with_attribute attr st)
      else if bool_decide (value = 0) && next_suspend_is_slumber st
      then (0, with_attribute attr st)
      else match alloc_write_buffer_result E (trace st) 1 with
           | None => (- ENOMEM, alloc_failed attr st)
           | Some req =>
             if pending (worker (attr_writer (pd st)))
             then (-1, schedule_failed attr st)
             else (0, submitted code value req attr st)
           end
    end.
Proof.
  unfold rm_hwmon_kb_event.
  rewrite decide_False by (intros H; by apply H).
  destruct (led_attribute code) as [attr|] eqn:Ha; [|done].
  run. destruct (decide (is_Some (request (attr_writer (pd st))))) as [|Hr]; [done|].
  cbn. destruct (bool_decide (value = 0) && next_suspend_is_slumber st); [done|].
  unfold rm_hwmon_api_alloc_write_buffer. run.
  destruct (alloc_write_buffer_result E (trace st) 1) as [req|]; cbn; [|done].
  unfold schedule_work. run.
  destruct (pending (worker (attr_writer (pd st)))); cbn.
  - by rewrite <- app_assoc.
  - destruct (led_attribute_cases _ _ Ha) as [[-> ->]|[-> ->]];
      by rewrite <- app_assoc.
Qed.

(** The background writer: one transport write, whatever it returns, and the
    slot is free. *)
Lemma run_attribute_writer (E : Env) (hdr : Z) st req :
  request (attr_writer (pd st)) = Some req →
  let s := (run_work E hdr AttrWriterWork st).2 in
  request (attr_writer (pd s)) = None
  ∧ pending (worker (attr_writer (pd s))) = false
  ∧ next_suspend_is_slumber s = next_suspend_is_slumber st
  ∧ events_since st s
    = [EvWriteAttribute (attribute (attr_writer (pd st))) req
         (data_length (attr_writer (pd st)))
         (write_attribute_ret E (trace st) (attribute (attr_writer (pd st))) req
            (data_length (attr_writer (pd st))))].
Proof.
  intros Hr. unfold run_work, rm_hwmon_keyboard_attribute_writer. run.
  rewrite Hr. unfold rm_hwmon_api_write_attribute. run.
  repeat split. by apply events_since_app.
Qed.

(** C4, amended: with a slumber ahead, an off transition of either indicator
    (caps or rM) is answered without any call being made and without a
    change to the cached indicator states; only [attr_writer.attribute] is
    set.  The status is success when the slot is free and busy when a write
    is outstanding. *)
Theorem rm_hwmon_kb_event_off_in_slumber (E : Env) (code attr : Z) (st : state) :
  led_attribute code = Some attr →
  next_suspend_is_slumber st = true →
  rm_hwmon_kb_event E EV_LED code 0 st
  = (if decide (is_Some (request (attr_writer (pd st)))) then - EBUSY else 0,
     with_attribute attr st)
  ∧ events_since st (rm_hwmon_kb_event E EV_LED code 0 st).2 = []
  ∧ (request (attr_writer (pd st)) = None → off_suppressed E code st).
Proof.
  intros Ha Hs.
  assert (Heq : rm_hwmon_kb_event E EV_LED code 0 st
                = (if decide (is_Some (request (attr_writer (pd st))))
                   then - EBUSY else 0, with_attribute attr st)).
  { rewrite rm_hwmon_kb_event_led, Ha, Hs. by case_decide. }
  split; [exact Heq|]. split.
  - rewrite Heq. by apply events_since_same_trace.
  - intros Hr. unfold off_suppressed. rewrite Heq. cbn.
    rewrite decide_False by (rewrite Hr; by intros [? ?]).
    repeat split. by apply events_since_same_trace.
Qed.

Lemma rm_hwmon_kb_event_off_in_slumber_witness :
  rm_hwmon_kb_event env_ok EV_LED LED_CAPSL 0 state_slumber
  = (if decide (is_Some (request (attr_writer (pd state_slumber)))) then - EBUSY else 0,
     with_attribute KB_ATTR_ID_KEY_LIGHT_CAPS state_slumber)
  ∧ events_since state_slumber
      (rm_hwmon_kb_event env_ok EV_LED LED_CAPSL 0 state_slumber).2 = []
  ∧ (request (attr_writer (pd state_slumber)) = None →
     off_suppressed env_ok LED_CAPSL state_slumber).
Proof.
  apply (rm_hwmon_kb_event_off_in_slumber env_ok LED_CAPSL KB_ATTR_ID_KEY_LIGHT_CAPS
           state_slumber); reflexivity.
Defined.

(** C4 as worded fails: with a slumber ahead and a free slot, the off
    transition of the caps indicator is suppressed as well. *)
Lemma off_suppressed_for_rm_only_fails :
  ¬ off_suppressed_for_rm_only env_ok state_slumber.
Proof.
  intros H. destruct (H eq_refl) as [_ Hcaps]. apply Hcaps.
  unfold off_suppressed. vm_compute. done.
Qed.

(** C5, amended: when an indicator event was accepted and its write is
    outstanding, a second indicator event is refused as busy; the writer
    work then makes exactly one transport write and frees the slot whatever
    the write returned; a third indicator event is then never refused as
    busy, and it succeeds whenever its write buffer can be allocated (it
    returns [-ENOMEM] otherwise). *)
Theorem writer_slot_busy_until_written (E : Env) (hdr : Z)
    (code1 value1 code2 value2 code3 value3 : Z) (st : state) :
  let r1 := rm_hwmon_kb_event E EV_LED code1 value1 st in
  let r2 := rm_hwmon_kb_event E EV_LED code2 value2 r1.2 in
  let s3 := (run_work E hdr AttrWriterWork r2.2).2 in
  let r4 := rm_hwmon_kb_event E EV_LED code3 value3 s3 in
  is_Some (led_attribute code2) → is_Some (led_attribute code3) →
  r1.1 = 0 → is_Some (request (attr_writer (pd r1.2))) →
  r2.1 = - EBUSY
  ∧ (∃ id req len ret, events_since r2.2 s3 = [EvWriteAttribute id req len ret])
  ∧ request (attr_writer (pd s3)) = None
  ∧ r4.1 ≠ - EBUSY
  ∧ (is_Some (alloc_write_buffer_result E (trace s3) 1) → r4.1 = 0)
  ∧ (r4.1 = 0 ∨ (alloc_write_buffer_result E (trace s3) 1 = None ∧ r4.1 = - ENOMEM)).
Proof.
  intros r1 r2 s3 r4 [a2 Ha2] [a3 Ha3] _ [req Hreq].
  assert (Hr2 : r2 = (- EBUSY, with_attribute a2 r1.2)).
  { unfold r2. rewrite rm_hwmon_kb_event_led, Ha2.
    by rewrite decide_True by (by rewrite Hreq). }
  assert (Hreq2 : request (attr_writer (pd r2.2)) = Some req) by (by rewrite Hr2).
  destruct (run_attribute_writer E hdr r2.2 req Hreq2) as (Hfree & Hpend & _ & Hevs).
  fold s3 in Hfree, Hpend, Hevs.
  assert (Hr4 : r4.1 = 0 ∨ (alloc_write_buffer_result E (trace s3) 1 = None
                            ∧ r4.1 = - ENOMEM)).
  { unfold r4. rewrite rm_hwmon_kb_event_led, Ha3, Hfree, Hpend.
    rewrite decide_False by (by intros [? ?]).
    destruct (bool_decide (value3 = 0) && next_suspend_is_slumber s3); [by left|].
    destruct (alloc_write_buffer_result E (trace s3) 1); [by left|by right]. }
  split; [by rewrite Hr2|]. split; [eauto|]. split; [done|].
  split; [|split; [|done]].
  - destruct Hr4 as [->|[_ ->]]; done.
  - intros [? Hsome]. destruct Hr4 as [?|[Hnone _]]; [done|congruence].
Qed.

Lemma writer_slot_busy_until_written_witness :
  let r1 := rm_hwmon_kb_event env_ok EV_LED LED_CAPSL 1 state_probe in
  let r2 := rm_hwmon_kb_event env_ok EV_LED LED_MISC 1 r1.2 in
  let s3 := (run_work env_ok 2 AttrWriterWork r2.2).2 in
  let r4 := rm_hwmon_kb_event env_ok EV_LED LED_CAPSL 0 s3 in
  r2.1 = - EBUSY
  ∧ (∃ id req len ret, events_since r2.2 s3 = [EvWriteAttribute id req len ret])
  ∧ request (attr_writer (pd s3)) = None
  ∧ r4.1 ≠ - EBUSY
  ∧ (is_Some (alloc_write_buffer_result env_ok (trace s3) 1) → r4.1 = 0)
  ∧ (r4.1 = 0
     ∨ (alloc_write_buffer_result env_ok (trace s3) 1 = None ∧ r4.1 = - ENOMEM)).
Proof.
  apply (writer_slot_busy_until_written env_ok 2 LED_CAPSL 1 LED_MISC 1 LED_CAPSL 0
           state_probe).
  - by eexists.
  - by eexists.
  - reflexivity.
  - by eexists.
Defined.

(** C5 as worded fails: after the slot was freed, a third indicator event
    whose write buffer cannot be allocated returns [-ENOMEM]. *)
Lemma writer_slot_busy_then_free_fails :
  ¬ writer_slot_busy_then_free env_alloc_once 2 LED_CAPSL 1 LED_MISC 1 LED_CAPSL 1
      state_probe.
Proof.
  intros H.
  destruct H as (_ & _ & H4); [by eexists|by eexists|reflexivity|by eexists|].
  vm_compute in H4. discriminate.
Qed.
Lemma get_count_order_16 : get_count_order 16 = 4.
Proof. reflexivity. Qed.

(** [matrix_keypad_build_keymap] touches the input device only, and records
    its status. *)
Lemma matrix_keypad_build_keymap_cases (E : Env) keymap_data rows cols st d0 :
  kb_dev (pd st) = Some d0 →
  ∃ ret d,
    matrix_keypad_build_keymap E keymap_data rows cols st
    = (ret, set_trace (trace st ++ [EvBuildKeymap ret])
              (set_pd (set_kb_dev (Some d) (pd st)) st)).
Proof.
  intros Hd. unfold matrix_keypad_build_keymap, modify_dev. run.
  destruct (keymap_alloc_ok E (trace st)); cbn.
  - rewrite Hd. cbn.
    destruct (matrix_keypad_map_keys _ _ _ _ _) as [[] d']; cbn; by eexists _, _.
  - exists (- ENOMEM), d0. destruct st as [[] ? ? ?]. cbn in *. by subst.
Qed.

Lemma keymap_layouts_index (k : Z) :
  ¬ k >= Z.of_nat (length keymap_layouts) →
  keymap_layouts !!! Z.to_nat k = keymap_layouts !!! 0%nat.
Proof.
  cbn. intros H. by replace (Z.to_nat k) with 0%nat by lia.
Qed.

Ltac exists_register_0 r Hr :=
  assert (r = 0) as Hr0 by lia; clearbody r; subst r; by eexists _, _.

(** The three ways [rm_hwmon_keyboard_make_input_dev] ends: no device could
    be allocated; the key map could not be built; the device was handed to
    [input_register_device], whose status is returned.  From the allocation
    on, [pdata->kb_dev] is set and the row shift is 4. *)
Lemma rm_hwmon_keyboard_make_input_dev_cases (E : Env) st :
  let p := set_key_layout
             (if decide (key_layout (pd st) >= 1) then 0 else key_layout (pd st))
             (pd st) in
  rm_hwmon_keyboard_make_input_dev E st
  = (- EINVAL, set_trace (trace st ++ [EvInputAllocateDevice false])
                 (set_pd (set_kb_dev None p) st))
  ∨ (∃ d ret, ret ≠ 0
       ∧ rm_hwmon_keyboard_make_input_dev E st
         = (ret, set_trace (trace st ++ [EvInputAllocateDevice true; EvBuildKeymap ret])
                   (set_pd (set_kb_dev (Some d) (set_kb_row_shift 4 p)) st)))
  ∨ (∃ d ret,
       rm_hwmon_keyboard_make_input_dev E st
       = (ret, set_trace (trace st ++ [EvInputAllocateDevice true; EvBuildKeymap 0;
                                       EvInputRegisterDevice d ret])
                 (set_pd (set_kb_dev (Some d) (set_kb_row_shift 4 p)) st))).
Proof.
  unfold rm_hwmon_keyboard_make_input_dev, input_allocate_device, modify_dev.
  unfold mbind, M_bind, mret, M_ret, get_pd, modify_pd, history, log.
  cbn -[lookup_total].
  destruct (decide (key_layout (pd st) >= Z.of_nat 1)) as [Hk|Hk];
    (destruct (input_allocate_device_ok E (trace st)) eqn:Hal;
     cbn -[lookup_total]; rewrite ?Hal; cbn -[lookup_total];
     [ try rewrite (keymap_layouts_index _ Hk); cbn;
       match goal with
       | |- context [matrix_keypad_build_keymap ?E ?k ?r ?c ?s] =>
         destruct (matrix_keypad_build_keymap_cases E k r c s _ eq_refl)
           as (a1 & d1 & ->)
       end;
       destruct (decide (a1 ≠ 0)) as [Hne|He]; cbn
     | ]).
  - right; left. exists d1, a1. split; [done|].
    rewrite (decide_True (P := key_layout (pd st) >= 1)) by exact Hk. by rewrite <- app_assoc.
  - right; right. assert (a1 = 0) as -> by lia.
    unfold input_register_device. run.
    rewrite (decide_True (P := key_layout (pd st) >= 1)) by exact Hk.
    rewrite <- !app_assoc. set (r := input_register_device_ret _ _ _).
    destruct (decide (r ≠ 0)) as [|Hr]; [by eexists _, _|].
    exists_register_0 r Hr.
  - left. by rewrite (decide_True (P := key_layout (pd st) >= 1)) by exact Hk.
  - right; left. exists d1, a1. split; [done|].
    rewrite (decide_False (P := key_layout (pd st) >= 1)) by exact Hk. by rewrite <- app_assoc.
  - right; right. assert (a1 = 0) as -> by lia.
    unfold input_register_device. run.
    rewrite (decide_False (P := key_layout (pd st) >= 1)) by exact Hk.
    rewrite <- !app_assoc. set (r := input_register_device_ret _ _ _).
    destruct (decide (r ≠ 0)) as [|Hr]; [by eexists _, _|].
    exists_register_0 r Hr.
  - left. rewrite (decide_False (P := key_layout (pd st) >= 1)) by exact Hk. by destruct st as [[]].
Qed.

(** *** Key events *)



(** No wrap-around happens in the scan code for the row and column of a key
    event and a row shift up to 28. *)
Lemma MATRIX_SCAN_CODE_int32 (r c s : Z) :
  0 ≤ r < 8 → 0 ≤ c < 16 → 0 ≤ s ≤ 28 →
  int32 (MATRIX_SCAN_CODE r c s) = r * Z.shiftl 1 s + c.
Proof.
  intros Hr Hc Hs. unfold MATRIX_SCAN_CODE, int32.
  rewrite !Z.shiftl_mul_pow2 by lia. rewrite Z.mul_1_l.
  assert (0 < 2 ^ s ≤ 2 ^ 28) by (split; [lia|apply Z.pow_le_mono_r; lia]).
  assert (0 ≤ r * 2 ^ s + c < 2 ^ 31) by nia.
  rewrite Z.mod_small; lia.
Qed.

(** C6: a key event that arrives while no input device is registered makes
    exactly one call, the request to schedule the connect work, which is
    pending afterwards; the handler returns [-ENXIO]; no key and no
    synchronisation is reported, and the device stays unregistered.  The
    same holds for the key-event packet handed to the endpoint callback. *)
Theorem rm_hwmon_keyboard_report_unregistered (hsp_success : Z)
    (event : rm_hwmon_kb_key_event) (packet : hsp_packet) (st : state) :
  kb_dev (pd st) = None →
  let r := rm_hwmon_keyboard_report event st in
  r.1 = - ENXIO
  ∧ events_since st r.2
    = [EvScheduleWork KbConnectWork (negb (pending (kb_connect_work (pd st))))]
  ∧ pending (kb_connect_work (pd r.2)) = true
  ∧ kb_dev (pd r.2) = None
  ∧ (command packet = HSP_CMD_KEY_EVENT →
     let r' := rm_hwmon_keyboard_hsp_event hsp_success packet st in
     r'.1 = - ENXIO
     ∧ events_since st r'.2
       = [EvScheduleWork KbConnectWork (negb (pending (kb_connect_work (pd st))))]).
Proof.
  intros Hd.
  assert (Hrep : ∀ ev,
    (rm_hwmon_keyboard_report ev st).1 = - ENXIO
    ∧ events_since st (rm_hwmon_keyboard_report ev st).2
      = [EvScheduleWork KbConnectWork (negb (pending (kb_connect_work (pd st))))]
    ∧ pending (kb_connect_work (pd (rm_hwmon_keyboard_report ev st).2)) = true
    ∧ kb_dev (pd (rm_hwmon_keyboard_report ev st).2) = None).
  { intros ev. unfold rm_hwmon_keyboard_report, schedule_work. run. rewrite Hd.
    cbn. destruct (pending (kb_connect_work (pd st))) eqn:Hp; cbn;
      repeat split; try done; by apply events_since_app. }
  cbn. destruct (Hrep event) as (? & ? & ? & ?). repeat split; try done.
  - unfold rm_hwmon_keyboard_hsp_event. rewrite H3. apply Hrep.
  - unfold rm_hwmon_keyboard_hsp_event. rewrite H3. apply Hrep.
Qed.

Lemma rm_hwmon_keyboard_report_unregistered_witness :
  let packet := {| command := HSP_CMD_KEY_EVENT; pkt_length := 2; data := [1; 0] |} in
  let r := rm_hwmon_keyboard_report (key_event_of_data [1; 0]) state_probe in
  r.1 = - ENXIO
  ∧ events_since state_probe r.2
    = [EvScheduleWork KbConnectWork (negb (pending (kb_connect_work (pd state_probe))))]
  ∧ pending (kb_connect_work (pd r.2)) = true
  ∧ kb_dev (pd r.2) = None
  ∧ (command packet = HSP_CMD_KEY_EVENT →
     let r' := rm_hwmon_keyboard_hsp_event 0 packet state_probe in
     r'.1 = - ENXIO
     ∧ events_since state_probe r'.2
       = [EvScheduleWork KbConnectWork
            (negb (pending (kb_connect_work (pd state_probe))))]).
Proof.
  apply (rm_hwmon_keyboard_report_unregistered 0 (key_event_of_data [1; 0])
           {| command := HSP_CMD_KEY_EVENT; pkt_length := 2; data := [1; 0] |}
           state_probe).
  reflexivity.
Defined.

(** C7: for a key event with row [r] and column [c] and the row shift [s] of
    the session, the scan index computed by the report is [r * (1 << s) + c]
    and the key code reported is the one the table holds there; the catalog
    has the single 7 x 16 layout, whose row shift [get_count_order 16] is 4,
    and this is the row shift [rm_hwmon_keyboard_make_input_dev] stores
    whenever it sets the input device. *)
Theorem scan_index_and_row_shift (E : Env) (event : rm_hwmon_kb_key_event)
    (d : input_dev) (st st0 : state) :
  kb_dev (pd st) = Some d →
  0 ≤ ev_row event < 8 → 0 ≤ column event < 16 →
  0 ≤ kb_row_shift (pd st) ≤ 28 →
  let s := kb_row_shift (pd st) in
  let index := ev_row event * Z.shiftl 1 s + column event in
  int32 (MATRIX_SCAN_CODE (ev_row event) (column event) s) = index
  ∧ rm_hwmon_keyboard_report event st
    = (0, set_trace (trace st ++ [EvInputReportKey (keymap_at d index) (pressed event);
                                  EvInputSync]) st)
  ∧ keymap_layouts = [{| keymap := rm_hwmon_keymap_v1; row := 7; col := 16 |}]
  ∧ get_count_order 16 = 4
  ∧ (is_Some (kb_dev (pd (rm_hwmon_keyboard_make_input_dev E st0).2)) →
     kb_row_shift (pd (rm_hwmon_keyboard_make_input_dev E st0).2) = 4).
Proof.
  intros Hd Hr Hc Hs. cbn.
  pose proof (MATRIX_SCAN_CODE_int32 _ _ _ Hr Hc Hs) as Hidx.
  split; [exact Hidx|]. split; [|split; [done|split; [done|]]].
  - unfold rm_hwmon_keyboard_report. run. rewrite Hd. cbn. rewrite Hidx.
    by rewrite <- app_assoc.
  - destruct (rm_hwmon_keyboard_make_input_dev_cases E st0)
      as [->|[(d' & ret & _ & ->)|(d' & ret & ->)]]; cbn; [by intros [? ?]|done..].
Qed.

(** The session after a successful connect with [env_ok]. *)
Lemma scan_index_and_row_shift_witness :
  let st := (rm_hwmon_keyboard_register env_ok 2 state_probe).2 in
  let event := key_event_of_data [0x13; 0] in
  ∃ d, kb_dev (pd st) = Some d
  ∧ int32 (MATRIX_SCAN_CODE (ev_row event) (column event) (kb_row_shift (pd st)))
    = ev_row event * Z.shiftl 1 (kb_row_shift (pd st)) + column event
  ∧ (rm_hwmon_keyboard_report event st).1 = 0
  ∧ get_count_order 16 = 4.
Proof.
  cbn zeta.
  destruct (kb_dev (pd (rm_hwmon_keyboard_register env_ok 2 state_probe).2))
    as [d|] eqn:Hd; [|by vm_compute in Hd].
  exists d. split; [done|].
  destruct (scan_index_and_row_shift env_ok (key_event_of_data [0x13; 0]) d
              (rm_hwmon_keyboard_register env_ok 2 state_probe).2 state_probe Hd)
    as (H1 & H2 & _ & H4 & _).
  - vm_compute. split; [discriminate|reflexivity].
  - vm_compute. split; [discriminate|reflexivity].
  - vm_compute. split; discriminate.
  - split; [exact H1|]. split; [by rewrite H2|exact H4].
Defined.

(** *** The language status read *)

Lemma language_show_unregistered (p : kb_data) (buf : string) :
  kb_dev p = None → language_show p buf = (- ENODEV, buf).
Proof. intros H. unfold language_show. by rewrite decide_True. Qed.

Lemma language_show_out_of_range (p : kb_data) (buf : string) :
  kb_dev p ≠ None → ¬ 1 ≤ language p ≤ 8 → language_show p buf = (- ENOEXEC, buf).
Proof.
  intros Hd Hl. unfold language_show, LANGUAGE_MIN, LANGUAGE_MAX.
  rewrite decide_False by done. rewrite decide_True by lia. done.
Qed.

Lemma language_show_in_range (p : kb_data) (buf : string) :
  kb_dev p ≠ None → 1 ≤ language p ≤ 8 → shows_language_name (language_show p buf).
Proof.
  intros Hd Hl. unfold language_show, LANGUAGE_MIN, LANGUAGE_MAX.
  rewrite decide_False by done. rewrite decide_False by lia.
  assert (Hcases : language p = 1 ∨ language p = 2 ∨ language p = 3 ∨ language p = 4
                   ∨ language p = 5 ∨ language p = 6 ∨ language p = 7 ∨ language p = 8)
    by lia.
  unfold shows_language_name, language_names.
  destruct Hcases as [H|[H|[H|[H|[H|[H|[H|H]]]]]]]; rewrite H; cbn;
    (eexists; split; [|reflexivity]); apply list_elem_of_In; cbn; tauto.
Qed.

Lemma shows_language_name_nonneg (r : Z * string) : shows_language_name r → 0 ≤ r.1.
Proof. intros (nm & _ & ->). cbn. lia. Qed.

(** C9, amended: while the input device is registered, the language status
    read writes one of the eight language names exactly when the language
    code is in 1..8, and returns the error [-ENOEXEC], leaving the buffer
    alone, for every other code, 0 and 9 included. *)
Theorem language_show_registered (p : kb_data) (buf : string) :
  kb_dev p ≠ None →
  language_name_iff_code_in_range p buf
  ∧ (¬ 1 ≤ language p ≤ 8 → language_show p buf = (- ENOEXEC, buf)).
Proof.
  intros Hd. split; [split|].
  - split.
    + intros Hs. destruct (decide (1 ≤ language p ≤ 8)) as [|Hl]; [done|].
      apply shows_language_name_nonneg in Hs.
      rewrite (language_show_out_of_range p buf Hd Hl) in Hs. by cbn in Hs.
    + by apply language_show_in_range.
  - intros Hl. by rewrite (language_show_out_of_range p buf Hd Hl).
  - by apply language_show_out_of_range.
Qed.

Lemma language_show_registered_witness :
  language_name_iff_code_in_range
    (set_language US (set_kb_dev (Some input_dev_zero) kb_data_probe)) ""
  ∧ (¬ 1 ≤ language (set_language US (set_kb_dev (Some input_dev_zero) kb_data_probe)) ≤ 8 →
     language_show (set_language US (set_kb_dev (Some input_dev_zero) kb_data_probe)) ""
     = (- ENOEXEC, "")).
Proof.
  apply (language_show_registered
           (set_language US (set_kb_dev (Some input_dev_zero) kb_data_probe)) "").
  discriminate.
Defined.

(** C9 as worded fails: with no input device registered and the language
    code of US, the read returns [-ENODEV] and no language name. *)
Lemma language_name_iff_code_in_range_fails :
  ¬ language_name_iff_code_in_range (set_language US kb_data_probe) "".
Proof.
  intros [[_ H] _].
  assert (Hs : shows_language_name (language_show (set_language US kb_data_probe) ""))
    by (apply H; cbn; unfold US; lia).
  apply shows_language_name_nonneg in Hs. by vm_compute in Hs.
Qed.

(** *** The two indicator attributes *)

(** C10: an inbound response for [KB_ATTR_ID_KEY_LIGHT_CAPS] is decoded into
    [rm_key_light] and leaves [caps_key_light] alone, and a response for
    [KB_ATTR_ID_KEY_LIGHT_RM] is decoded into [caps_key_light] and leaves
    [rm_key_light] alone; an accepted indicator write caches the value in
    [caps_key_light] when it goes to [KB_ATTR_ID_KEY_LIGHT_CAPS] and in
    [rm_key_light] when it goes to [KB_ATTR_ID_KEY_LIGHT_RM]. *)
Theorem indicator_readers_cross_wired (E : Env) :
  (∀ attr_res st,
     rx_id attr_res = KB_ATTR_ID_KEY_LIGHT_CAPS →
     dispatch (attribute_configs E) attr_res st
     = (Some true, set_pd (set_rm_key_light (bool_data attr_res) (pd st)) st)
     ∧ caps_key_light (pd (dispatch (attribute_configs E) attr_res st).2)
       = caps_key_light (pd st))
  ∧ (∀ attr_res st,
       rx_id attr_res = KB_ATTR_ID_KEY_LIGHT_RM →
       dispatch (attribute_configs E) attr_res st
       = (Some true, set_pd (set_caps_key_light (bool_data attr_res) (pd st)) st)
       ∧ rm_key_light (pd (dispatch (attribute_configs E) attr_res st).2)
         = rm_key_light (pd st))
  ∧ (∀ code value st,
       let r := rm_hwmon_kb_event E EV_LED code value st in
       r.1 = 0 → is_Some (request (attr_writer (pd r.2))) →
       (code = LED_CAPSL
        ∧ attribute (attr_writer (pd r.2)) = KB_ATTR_ID_KEY_LIGHT_CAPS
        ∧ caps_key_light (pd r.2) = bool_decide (value ≠ 0)
        ∧ rm_key_light (pd r.2) = rm_key_light (pd st))
       ∨ (code = LED_MISC
          ∧ attribute (attr_writer (pd r.2)) = KB_ATTR_ID_KEY_LIGHT_RM
          ∧ rm_key_light (pd r.2) = bool_decide (value ≠ 0)
          ∧ caps_key_light (pd r.2) = caps_key_light (pd st))).
Proof.
  split; [|split].
  - intros attr_res st Hid.
    destruct (attribute_configs_KEY_LIGHT_CAPS E) as (i & c & Hc & Hrd).
    rewrite <- Hid in Hc. by rewrite (dispatch_known _ _ _ _ _ Hc), Hrd.
  - intros attr_res st Hid.
    destruct (attribute_configs_KEY_LIGHT_RM E) as (i & c & Hc & Hrd).
    rewrite <- Hid in Hc. by rewrite (dispatch_known _ _ _ _ _ Hc), Hrd.
  - intros code value st. cbn zeta. rewrite rm_hwmon_kb_event_led.
    destruct (led_attribute code) as [attr|] eqn:Ha; [|done].
    destruct (decide (is_Some (request (attr_writer (pd st))))) as [|Hfree]; [done|].
    destruct (bool_decide (value = 0) && next_suspend_is_slumber st); [done|].
    destruct (alloc_write_buffer_result E (trace st) 1); [|done].
    destruct (pending (worker (attr_writer (pd st)))); [done|].
    intros _ _. destruct (led_attribute_cases _ _ Ha) as [[-> ->]|[-> ->]];
      [left|right]; done.
Qed.

Lemma indicator_readers_cross_wired_witness :
  (dispatch (attribute_configs env_ok)
     (set_rx_id KB_ATTR_ID_KEY_LIGHT_CAPS rx_zero) state_probe).1 = Some true
  ∧ (dispatch (attribute_configs env_ok)
       (set_rx_id KB_ATTR_ID_KEY_LIGHT_RM rx_zero) state_probe).1 = Some true
  ∧ caps_key_light (pd (rm_hwmon_kb_event env_ok EV_LED LED_CAPSL 1 state_probe).2)
    = true.
Proof.
  destruct (indicator_readers_cross_wired env_ok) as (Hcaps & Hrm & Hwrite).
  destruct (Hcaps (set_rx_id KB_ATTR_ID_KEY_LIGHT_CAPS rx_zero) state_probe eq_refl)
    as [-> _].
  destruct (Hrm (set_rx_id KB_ATTR_ID_KEY_LIGHT_RM rx_zero) state_probe eq_refl)
    as [-> _].
  destruct (Hwrite LED_CAPSL 1 state_probe eq_refl ltac:(by eexists))
    as [(_ & _ & -> & _)|(Hcode & _)]; [done|discriminate].
Defined.

(** *** Runs and their traces *)

Section Preserves.

Context (R : state → state → Prop) `{!Reflexive R, !Transitive R}.

Lemma preserves_ret {A} (a : A) : preserves R (mret a).
Proof. intros st. cbn. reflexivity. Qed.

Lemma preserves_bind {A B} (c : M A) (f : A → M B) :
  preserves R c → (∀ a, preserves R (f a)) → preserves R (c ≫= f).
Proof.
  intros Hc Hf st. unfold mbind, M_bind.
  specialize (Hc st). destruct (c st) as [a st1]. cbn in Hc.
  etransitivity; [exact Hc|apply Hf].
Qed.

Lemma preserves_get_pd : preserves R get_pd.
Proof. intros st. cbn. reflexivity. Qed.

Lemma preserves_history : preserves R history.
Proof. intros st. cbn. reflexivity. Qed.

End Preserves.

#[global] Instance trace_grows_refl : Reflexive trace_grows.
Proof. intros st. exists []. by rewrite app_nil_r. Qed.

#[global] Instance trace_grows_trans : Transitive trace_grows.
Proof.
  intros s1 s2 s3 [e1 H1] [e2 H2]. exists (e1 ++ e2).
  by rewrite H2, H1, app_assoc.
Qed.

Lemma krealloc_only_app ks1 ks2 :
  krealloc_only ks1 → krealloc_only ks2 → krealloc_only (ks1 ++ ks2).
Proof. apply Forall_app_2. Qed.

(** Reallocations tell nothing about the calls the statements look at. *)
Lemma omap_krealloc_only {A} (f : io_event → option A) ks :
  (∀ old size res, f (EvKrealloc old size res) = None) →
  krealloc_only ks → omap f ks = [].
Proof.
  intros Hf. induction 1 as [|e ks (old & size & res & ->) _ IH]; [done|].
  cbn. by rewrite Hf.
Qed.

#[global] Instance decode_frame_refl : Reflexive decode_frame.
Proof.
  intros st. split; try done. exists []. split; [by rewrite app_nil_r|constructor].
Qed.

#[global] Instance decode_frame_trans : Transitive decode_frame.
Proof.
  intros s1 s2 s3 [? ? ? ? ? ? ? ? (k1 & Hk1 & ?)] [? ? ? ? ? ? ? ? (k2 & Hk2 & ?)].
  split; try congruence.
  exists (k1 ++ k2). split; [by rewrite Hk2, Hk1, app_assoc|by apply krealloc_only_app].
Qed.

Lemma decode_frame_grows st st' : decode_frame st st' → trace_grows st st'.
Proof. intros [_ _ _ _ _ _ _ _ (ks & ? & _)]. by exists ks. Qed.

(** A change of [kb_data] that leaves the framed fields alone. *)
Lemma decode_frame_modify_pd (f : kb_data → kb_data) :
  (∀ p, kb_dev (f p) = kb_dev p ∧ kb_connect_work (f p) = kb_connect_work p
        ∧ kb_connect_lock (f p) = kb_connect_lock p ∧ attr_writer (f p) = attr_writer p
        ∧ kb_row_shift (f p) = kb_row_shift p ∧ bl_brightness (f p) = bl_brightness p
        ∧ rm_key_on_after_resume (f p) = rm_key_on_after_resume p) →
  preserves decode_frame (modify_pd f).
Proof.
  intros Hf st. destruct (Hf (pd st)) as (? & ? & ? & ? & ? & ? & ?).
  split; cbn; try done. exists []. split; [by rewrite app_nil_r|constructor].
Qed.

Lemma decode_frame_MAKE_READER {A} (member : attribute_rx → A) field_set attr_res :
  (∀ v p, kb_dev (field_set v p) = kb_dev p
          ∧ kb_connect_work (field_set v p) = kb_connect_work p
          ∧ kb_connect_lock (field_set v p) = kb_connect_lock p
          ∧ attr_writer (field_set v p) = attr_writer p
          ∧ kb_row_shift (field_set v p) = kb_row_shift p
          ∧ bl_brightness (field_set v p) = bl_brightness p
          ∧ rm_key_on_after_resume (field_set v p) = rm_key_on_after_resume p) →
  preserves decode_frame (MAKE_READER member field_set attr_res).
Proof.
  intros Hf. unfold MAKE_READER. apply preserves_bind; [apply _..| |].
  - by apply decode_frame_modify_pd.
  - intros _. apply preserves_ret, _.
Qed.

Lemma decode_frame_reader_octet_attribute (E : Env) attr_res :
  preserves decode_frame (reader_octet_attribute E attr_res).
Proof.
  intros st. unfold reader_octet_attribute.
  destruct (octet_attribute_of (rx_id attr_res)) as [slot|]; [|reflexivity].
  unfold devm_krealloc, store_block. run.
  destruct (krealloc_result E (trace st) _ _) as [a|]; cbn;
    (split; cbn; try (by destruct slot);
     eexists; split; [reflexivity|]; repeat constructor; by eexists _, _, _).
Qed.

(** Every decode of the registered table respects the frame. *)
Lemma decode_frame_attribute_configs (E : Env) :
  Forall (λ c, ∀ attr_res, preserves decode_frame (cfg_reader c attr_res))
         (attribute_configs E).
Proof.
  unfold attribute_configs.
  repeat (apply Forall_cons; split;
          [intros attr_res; cbn;
           first [ apply decode_frame_MAKE_READER; intros; by repeat split
                 | apply decode_frame_reader_octet_attribute
                 | idtac ]|]);
    [..|apply Forall_nil; done].
  - apply preserves_bind; [apply _..| |intros _; apply preserves_ret, _].
    apply decode_frame_modify_pd. intros; by repeat split.
  - unfold reader_bl_brightness_array. repeat case_decide; try apply preserves_ret, _.
    apply preserves_bind; [apply _..| |intros _; apply preserves_ret, _].
    apply decode_frame_modify_pd. intros; by repeat split.
Qed.

Lemma decode_frame_dispatch (E : Env) attr_res :
  preserves decode_frame (dispatch (attribute_configs E) attr_res).
Proof.
  unfold dispatch.
  destruct (list_find _ _) as [[i c]|] eqn:Hf; [|apply preserves_ret, _].
  apply list_find_Some in Hf as (Hi & _ & _).
  apply list_elem_of_lookup_2 in Hi.
  pose proof (proj1 (Forall_forall _ _) (decode_frame_attribute_configs E) c Hi) as Hc.
  apply preserves_bind; [apply _..|apply Hc|intros ?; apply preserves_ret, _].
Qed.

Lemma decode_frame_dispatch_all (E : Env) rs :
  preserves decode_frame (dispatch_all (attribute_configs E) rs).
Proof.
  induction rs as [|r rs IH]; cbn; [apply preserves_ret, _|].
  apply preserves_bind; [apply _..|apply decode_frame_dispatch|by intros _].
Qed.

(** [rm_hwmon_api_read_attributes]: the responses are decoded, which leads to
    a state [st1] within the frame, and the read is recorded with the status
    it returns. *)
Lemma rm_hwmon_api_read_attributes_spec (E : Env) ids st :
  ∃ ret st1,
    rm_hwmon_api_read_attributes E ids st
    = (ret, set_trace (trace st1 ++ [EvReadAttributes ids ret]) st1)
    ∧ decode_frame st st1.
Proof.
  unfold rm_hwmon_api_read_attributes. run.
  destruct (read_attributes_reply E (trace st) ids) as [responses ret].
  pose proof (decode_frame_dispatch_all E responses st) as Hd.
  destruct (dispatch_all (attribute_configs E) responses st) as [[] st1].
  by exists ret, st1.
Qed.

(** *** The firmware update sequence *)

Lemma memcmp_fw_version_zero (a b : fw_version) :
  memcmp_fw_version a b = 0 ↔ fw_version_bytes a = fw_version_bytes b.
Proof.
  unfold memcmp_fw_version, fw_version_bytes. case_decide as Hm.
  - split; [lia|]. intros [= ? ?]. done.
  - split; [intros ?; f_equal; [|f_equal]; lia|]. intros [= ? ?]. lia.
Qed.

Lemma fwu_step_spec answer ev st :
  fwu_step answer ev st
  = ((answer (trace st) (fwu (pd st))).1,
     set_trace (trace st ++ [ev (answer (trace st) (fwu (pd st))).1])
       (set_pd (set_fwu (answer (trace st) (fwu (pd st))).2 (pd st)) st)).
Proof. unfold fwu_step. run. by destruct (answer (trace st) (fwu (pd st))). Qed.

Lemma fwu_step_trace answer ev st :
  trace (fwu_step answer ev st).2 = trace st ++ [ev (fwu_step answer ev st).1].
Proof. by rewrite fwu_step_spec. Qed.

Lemma rm_hwmon_keyboard_read_init_attributes_trace (E : Env) st :
  ∃ ks, krealloc_only ks
        ∧ trace (rm_hwmon_keyboard_read_init_attributes E st).2
          = trace st ++ ks
            ++ [EvReadAttributes init_attr
                  (rm_hwmon_keyboard_read_init_attributes E st).1].
Proof.
  unfold rm_hwmon_keyboard_read_init_attributes.
  destruct (rm_hwmon_api_read_attributes_spec E init_attr st)
    as (ret & st1 & -> & [_ _ _ _ _ _ _ _ (ks & Hks & ?)]).
  exists ks. split; [done|]. cbn. by rewrite Hks, app_assoc.
Qed.

(** C3: the update sequence runs init, transfer, validate, the re-read of the
    attributes, the comparison of the image header's version with the
    version the accessory reported, and the activation, in this order; the
    first step that fails ends the sequence, no later step is run and the
    status of the failing step (for the comparison, the non-zero result of
    [memcmp]) is returned.  So the update fails whenever the two versions
    differ in a byte, whatever the validation returned. *)
Theorem rm_hwmon_keyboard_update_fwu_short_circuits (E : Env) (st : state) :
  let r1 := rm_hwmon_fwu_init E st in
  let r2 := rm_hwmon_fwu_transfer_binary E r1.2 in
  let r3 := rm_hwmon_fwu_validate_image E r2.2 in
  let r4 := rm_hwmon_keyboard_read_init_attributes E r3.2 in
  let image := fw_version_of (header (fwu (pd r4.2))) in
  let reported := current_fw_version (fwu (pd r4.2)) in
  let r6 := rm_hwmon_fwu_set_image_active E r4.2 in
  let r := rm_hwmon_keyboard_update_fwu E st in
  (r1.1 ≠ 0 → r = r1)
  ∧ (r1.1 = 0 → r2.1 ≠ 0 → r = r2)
  ∧ (r1.1 = 0 → r2.1 = 0 → r3.1 ≠ 0 → r = r3)
  ∧ (r1.1 = 0 → r2.1 = 0 → r3.1 = 0 → r4.1 ≠ 0 → r = r4)
  ∧ (r1.1 = 0 → r2.1 = 0 → r3.1 = 0 → r4.1 = 0 →
     fw_version_bytes image ≠ fw_version_bytes reported →
     r = (memcmp_fw_version image reported, r4.2) ∧ r.1 ≠ 0)
  ∧ (r1.1 = 0 → r2.1 = 0 → r3.1 = 0 → r4.1 = 0 →
     fw_version_bytes image = fw_version_bytes reported → r = r6)
  ∧ (fw_version_bytes image ≠ fw_version_bytes reported → r.1 ≠ 0)
  ∧ steps_run (events_since st r.2)
    = (StepInit, r1.1) ::
      if decide (r1.1 ≠ 0) then [] else
      (StepTransfer, r2.1) ::
      if decide (r2.1 ≠ 0) then [] else
      (StepValidate, r3.1) ::
      if decide (r3.1 ≠ 0) then [] else
      (StepReadAttributes, r4.1) ::
      if decide (r4.1 ≠ 0) then [] else
      if decide (fw_version_bytes image ≠ fw_version_bytes reported) then []
      else [(StepSetActive, r6.1)].
Proof.
  cbn zeta. unfold rm_hwmon_keyboard_update_fwu. unfold mbind, M_bind, mret, M_ret, get_pd.
  pose proof (fwu_step_trace (fwu_init_result E) EvFwuInit st) as Ht1.
  fold (rm_hwmon_fwu_init E) in Ht1.
  destruct (rm_hwmon_fwu_init E st) as [a1 s1] eqn:Hr1. cbn [fst snd] in *.
  pose proof (fwu_step_trace (fwu_transfer_binary_result E) EvFwuTransferBinary s1) as Ht2.
  fold (rm_hwmon_fwu_transfer_binary E) in Ht2.
  destruct (rm_hwmon_fwu_transfer_binary E s1) as [a2 s2] eqn:Hr2. cbn [fst snd] in *.
  pose proof (fwu_step_trace (fwu_validate_image_result E) EvFwuValidateImage s2) as Ht3.
  fold (rm_hwmon_fwu_validate_image E) in Ht3.
  destruct (rm_hwmon_fwu_validate_image E s2) as [a3 s3] eqn:Hr3. cbn [fst snd] in *.
  destruct (rm_hwmon_keyboard_read_init_attributes_trace E s3) as (ks & Hks & Ht4).
  destruct (rm_hwmon_keyboard_read_init_attributes E s3) as [a4 s4] eqn:Hr4. cbn [fst snd] in *.
  pose proof (fwu_step_trace (fwu_set_image_active_result E) EvFwuSetImageActive s4) as Ht6.
  fold (rm_hwmon_fwu_set_image_active E) in Ht6.
  destruct (rm_hwmon_fwu_set_image_active E s4) as [a6 s6] eqn:Hr6. cbn [fst snd] in *.
  set (image := fw_version_of (header (fwu (pd s4)))).
  set (reported := current_fw_version (fwu (pd s4))).
  pose proof (memcmp_fw_version_zero image reported) as Hcmp.
  assert (Hrun : ∀ evs, steps_run (ks ++ evs) = steps_run evs).
  { intros evs. unfold steps_run. rewrite omap_app.
    by rewrite (omap_krealloc_only step_of_event ks). }
  destruct (decide (a1 ≠ 0)) as [H1|H1]; cbn.
  { repeat split; try done; try (intros; lia).
    by rewrite (events_since_app st s1 _ Ht1). }
  rewrite Hr2. destruct (decide (a2 ≠ 0)) as [H2|H2]; cbn.
  { repeat split; try done; try (intros; lia).
    rewrite (events_since_app st s2 [EvFwuInit a1; EvFwuTransferBinary a2]); [done|].
    by rewrite Ht2, Ht1, <- app_assoc. }
  rewrite Hr3. destruct (decide (a3 ≠ 0)) as [H3|H3]; cbn.
  { repeat split; try done; try (intros; lia).
    rewrite (events_since_app st s3
               [EvFwuInit a1; EvFwuTransferBinary a2; EvFwuValidateImage a3]); [done|].
    by rewrite Ht3, Ht2, Ht1, <- !app_assoc. }
  assert (Ht4' : trace s4
                 = trace st ++ [EvFwuInit a1; EvFwuTransferBinary a2; EvFwuValidateImage a3]
                   ++ ks ++ [EvReadAttributes init_attr a4]).
  { rewrite Ht4, Ht3, Ht2, Ht1, <- !app_assoc. done. }
  rewrite Hr4. destruct (decide (a4 ≠ 0)) as [H4|H4]; cbn.
  { repeat split; try done; try (intros; lia).
    rewrite (events_since_app st s4 _ Ht4'). cbn. by rewrite Hrun. }
  fold image reported.
  destruct (decide (memcmp_fw_version image reported ≠ 0)) as [H5|H5]; cbn.
  { assert (fw_version_bytes image ≠ fw_version_bytes reported) by (rewrite <- Hcmp; done).
    rewrite decide_True by done.
    repeat split; try done; try (intros; lia).
    rewrite (events_since_app st s4 _ Ht4'). cbn. by rewrite Hrun. }
  assert (fw_version_bytes image = fw_version_bytes reported) by (apply Hcmp; lia).
  rewrite decide_False by (intros ?; done). rewrite Hr6.
  repeat split; try done; try (intros; lia). cbn [snd].
  rewrite (events_since_app st s6
             ([EvFwuInit a1; EvFwuTransferBinary a2; EvFwuValidateImage a3]
              ++ ks ++ [EvReadAttributes init_attr a4; EvFwuSetImageActive a6])).
  - cbn. by rewrite Hrun.
  - rewrite Ht6, Ht4'. rewrite <- !app_assoc. cbn. by rewrite <- ?app_assoc.
Qed.

(** The accessory validates the image declared as 2.0 and still reports 1.0:
    the update fails at the comparison and nothing is activated. *)
Lemma rm_hwmon_keyboard_update_fwu_short_circuits_witness :
  let st := with_image 2 0 state_probe in
  let r := rm_hwmon_keyboard_update_fwu env_reports_1_0 st in
  (rm_hwmon_fwu_validate_image env_reports_1_0
     (rm_hwmon_fwu_transfer_binary env_reports_1_0
        (rm_hwmon_fwu_init env_reports_1_0 st).2).2).1 = 0
  ∧ r.1 ≠ 0
  ∧ steps_run (events_since st r.2)
    = [(StepInit, 0); (StepTransfer, 0); (StepValidate, 0); (StepReadAttributes, 0)].
Proof.
  cbn zeta.
  destruct (rm_hwmon_keyboard_update_fwu_short_circuits env_reports_1_0
              (with_image 2 0 state_probe))
    as (_ & _ & _ & _ & H5 & _ & _ & H8).
  split; [reflexivity|].
  destruct H5 as [_ H5]; [reflexivity..| |].
  - vm_compute. discriminate.
  - split; [exact H5|]. rewrite H8. reflexivity.
Defined.

(** *** Every driver function only adds to the trace *)

Lemma grows_ret {A} (a : A) : preserves trace_grows (mret a).
Proof. apply preserves_ret, _. Qed.

Lemma grows_bind {A B} (c : M A) (f : A → M B) :
  preserves trace_grows c → (∀ a, preserves trace_grows (f a)) →
  preserves trace_grows (c ≫= f).
Proof. apply preserves_bind; apply _. Qed.

Lemma grows_get_pd : preserves trace_grows get_pd.
Proof. apply preserves_get_pd, _. Qed.

Lemma grows_history : preserves trace_grows history.
Proof. apply preserves_history, _. Qed.

Lemma grows_modify_pd f : preserves trace_grows (modify_pd f).
Proof. intros st. exists []. cbn. by rewrite app_nil_r. Qed.

Lemma grows_log e : preserves trace_grows (log e).
Proof. intros st. by exists [e]. Qed.

Lemma grows_decode {A} (c : M A) : preserves decode_frame c → preserves trace_grows c.
Proof. intros H st. apply decode_frame_grows, H. Qed.

Create HintDb grows.

Ltac grows :=
  repeat first
    [ solve [eauto with grows]
    | apply grows_ret | apply grows_get_pd | apply grows_history
    | apply grows_modify_pd | apply grows_log
    | apply grows_bind; [|intros ?]
    | progress cbv zeta
    | match goal with
      | |- preserves _ (if ?b then _ else _) => destruct b
      | |- preserves _ (match ?x with _ => _ end) => destruct x
      | |- preserves _ (from_option _ _ ?x) => destruct x; cbn [from_option]
      end ].

Lemma grows_rm_hwmon_api_read_attributes (E : Env) ids :
  preserves trace_grows (rm_hwmon_api_read_attributes E ids).
Proof.
  intros st. destruct (rm_hwmon_api_read_attributes_spec E ids st)
    as (ret & st1 & -> & Hd).
  etransitivity; [apply decode_frame_grows, Hd|]. by eexists.
Qed.

Lemma grows_rm_hwmon_api_write_cmd (E : Env) cmd :
  preserves trace_grows (rm_hwmon_api_write_cmd E cmd).
Proof. unfold rm_hwmon_api_write_cmd. grows. Qed.

Lemma grows_rm_hwmon_api_alloc_write_buffer (E : Env) len :
  preserves trace_grows (rm_hwmon_api_alloc_write_buffer E len).
Proof. unfold rm_hwmon_api_alloc_write_buffer. grows. Qed.

Lemma grows_rm_hwmon_api_write_attribute (E : Env) id req len :
  preserves trace_grows (rm_hwmon_api_write_attribute E id req len).
Proof. unfold rm_hwmon_api_write_attribute. grows. Qed.

Lemma grows_fwu_step answer ev : preserves trace_grows (fwu_step answer ev).
Proof. intros st. rewrite fwu_step_spec. by eexists. Qed.

Lemma grows_rm_hwmon_fwu_load_and_check_for_upgrade (E : Env) name :
  preserves trace_grows (rm_hwmon_fwu_load_and_check_for_upgrade E name).
Proof.
  intros st. unfold rm_hwmon_fwu_load_and_check_for_upgrade.
  destruct (fwu_load_and_check_result _ _ _ _). by eexists.
Qed.

Lemma grows_rm_hwmon_fwu_release_firmware (E : Env) :
  preserves trace_grows (rm_hwmon_fwu_release_firmware E).
Proof. unfold rm_hwmon_fwu_release_firmware. grows. Qed.

Lemma grows_modify_dev f : preserves trace_grows (modify_dev f).
Proof. apply grows_modify_pd. Qed.

Lemma grows_mutex_unlock : preserves trace_grows mutex_unlock.
Proof. apply grows_modify_pd. Qed.

Lemma grows_input_unregister_device d :
  preserves trace_grows (input_unregister_device d).
Proof. apply grows_log. Qed.

#[local] Hint Resolve grows_rm_hwmon_api_read_attributes grows_rm_hwmon_api_write_cmd
  grows_rm_hwmon_api_alloc_write_buffer grows_rm_hwmon_api_write_attribute
  grows_fwu_step grows_rm_hwmon_fwu_load_and_check_for_upgrade
  grows_rm_hwmon_fwu_release_firmware grows_modify_dev grows_mutex_unlock
  grows_input_unregister_device : grows.

Lemma grows_rm_hwmon_keyboard_make_input_dev (E : Env) :
  preserves trace_grows (rm_hwmon_keyboard_make_input_dev E).
Proof.
  intros st.
  destruct (rm_hwmon_keyboard_make_input_dev_cases E st)
    as [->|[(d & ret & _ & ->)|(d & ret & ->)]]; by eexists.
Qed.

Lemma grows_rm_hwmon_keyboard_update_fwu (E : Env) :
  preserves trace_grows (rm_hwmon_keyboard_update_fwu E).
Proof.
  unfold rm_hwmon_keyboard_update_fwu, rm_hwmon_fwu_init, rm_hwmon_fwu_transfer_binary,
    rm_hwmon_fwu_validate_image, rm_hwmon_fwu_set_image_active,
    rm_hwmon_keyboard_read_init_attributes.
  grows.
Qed.

Lemma grows_rm_hwmon_keyboard_set_brightness (E : Env) hdr :
  preserves trace_grows (rm_hwmon_keyboard_set_brightness E hdr).
Proof. unfold rm_hwmon_keyboard_set_brightness. grows. Qed.

Lemma grows_unlock_mutex ret : preserves trace_grows (unlock_mutex ret).
Proof. unfold unlock_mutex. grows. Qed.

#[local] Hint Resolve grows_rm_hwmon_keyboard_make_input_dev
  grows_rm_hwmon_keyboard_update_fwu grows_rm_hwmon_keyboard_set_brightness
  grows_unlock_mutex : grows.

Lemma grows_kb_fail_register ret : preserves trace_grows (kb_fail_register ret).
Proof. unfold kb_fail_register. grows. Qed.

#[local] Hint Resolve grows_kb_fail_register : grows.

Lemma grows_register_finish (E : Env) ret input_dev_ok :
  preserves trace_grows (register_finish E ret input_dev_ok).
Proof. unfold register_finish. grows. Qed.

#[local] Hint Resolve grows_register_finish : grows.

Lemma grows_register_after_fwu (E : Env) hdr ret fw_upgraded auth_successful input_dev_ok :
  preserves trace_grows
    (register_after_fwu E hdr ret fw_upgraded auth_successful input_dev_ok).
Proof. unfold register_after_fwu. grows. Qed.

#[local] Hint Resolve grows_register_after_fwu : grows.

Lemma grows_register_check_fwu (E : Env) hdr ret auth_successful input_dev_ok :
  preserves trace_grows (register_check_fwu E hdr ret auth_successful input_dev_ok).
Proof. unfold register_check_fwu. grows. Qed.

(** *** The connect sequence *)

Lemma rm_hwmon_keyboard_unregister_cases st :
  ∃ pre,
    (pre = [] ∨ ∃ d, pre = [EvInputUnregisterDevice d])
    ∧ (rm_hwmon_keyboard_unregister st).2
      = set_trace (trace st ++ pre) (set_pd (set_kb_dev None (pd st)) st).
Proof.
  unfold rm_hwmon_keyboard_unregister, modify_dev, input_unregister_device. run.
  destruct (kb_dev (pd st)) as [d|] eqn:Hd; cbn.
  - eexists. split; [right; by eexists|]. rewrite Hd. cbn. reflexivity.
  - exists []. split; [by left|]. rewrite app_nil_r.
    destruct st as [[] ? ? ?]. cbn in *. by subst.
Qed.

(** [rm_hwmon_keyboard_register] as a chain of its calls. *)
Lemma rm_hwmon_keyboard_register_unfold (E : Env) hdr st :
  let s0 :=
    set_pd (set_rm_key_on_after_resume false
              (set_caps_key_light false
                 (set_rm_key_light false
                    (pd (rm_hwmon_keyboard_unregister (mutex_lock st).2).2))))
      (rm_hwmon_keyboard_unregister (mutex_lock st).2).2 in
  let r1 := rm_hwmon_keyboard_read_init_attributes E s0 in
  let r2 := rm_hwmon_api_write_cmd E HSP_CMD_ACCS_AUTHORIZE_REQUEST r1.2 in
  let r3 := rm_hwmon_keyboard_make_input_dev E r2.2 in
  let r4 := rm_hwmon_keyboard_set_brightness E hdr r3.2 in
  rm_hwmon_keyboard_register E hdr st
  = if decide (r1.1 ≠ 0) then unlock_mutex r1.1 r1.2
    else if decide (r2.1 ≠ 0) then register_check_fwu E hdr r2.1 false false r2.2
    else if decide (r3.1 ≠ 0) then kb_fail_register r3.1 r3.2
    else register_check_fwu E hdr r4.1 true true r4.2.
Proof.
  cbn zeta. unfold rm_hwmon_keyboard_register.
  unfold mbind, M_bind, mret, M_ret, modify_pd. cbn [fst snd].
  destruct (mutex_lock st) as [[] sa]. cbn [fst snd].
  destruct (rm_hwmon_keyboard_unregister sa) as [b sb]. cbn [fst snd].
  destruct (rm_hwmon_keyboard_read_init_attributes E _) as [a1 s1]. cbn [fst snd].
  destruct (decide (a1 ≠ 0)); [done|].
  destruct (rm_hwmon_api_write_cmd E _ s1) as [a2 s2]. cbn [fst snd].
  destruct (decide (a2 ≠ 0)); [done|].
  destruct (rm_hwmon_keyboard_make_input_dev E s2) as [a3 s3]. cbn [fst snd].
  destruct (decide (a3 ≠ 0)); [done|].
  by destruct (rm_hwmon_keyboard_set_brightness E hdr s3) as [a4 s4].
Qed.

Lemma kb_fail_register_spec ret st :
  ∃ post,
    (post = [] ∨ ∃ d, post = [EvInputUnregisterDevice d])
    ∧ kb_fail_register ret st
      = (ret, set_trace (trace st ++ post)
                (set_pd (set_kb_connect_lock {| locked := false |}
                           (set_kb_dev None (pd st))) st)).
Proof.
  unfold kb_fail_register, unlock_mutex, mutex_unlock, modify_dev,
    input_unregister_device. run.
  destruct (kb_dev (pd st)) as [d|] eqn:Hd; cbn.
  - eexists. split; [right; by eexists|]. rewrite Hd. cbn. reflexivity.
  - exists []. split; [by left|]. by rewrite app_nil_r.
Qed.

Lemma rm_hwmon_keyboard_set_brightness_cases (E : Env) hdr st :
  let len := u32 (hdr + 1 * ATTRIBUTES_NR_OF_BKLS) in
  rm_hwmon_keyboard_set_brightness E hdr st
  = (- ENOMEM, set_trace (trace st ++ [EvAllocWriteBuffer len false]) st)
  ∨ ∃ req ret,
      rm_hwmon_keyboard_set_brightness E hdr st
      = (ret, set_trace (trace st ++ [EvAllocWriteBuffer len true;
                                      EvWriteAttribute KB_ATTR_ID_BKL_BRIGHTNESS req len ret])
                st).
Proof.
  unfold rm_hwmon_keyboard_set_brightness, rm_hwmon_api_alloc_write_buffer,
    rm_hwmon_api_write_attribute. run.
  destruct (alloc_write_buffer_result E (trace st) _) as [req|]; cbn.
  - right. eexists _, _. by rewrite <- app_assoc.
  - by left.
Qed.

Lemma events_since_grows st s st' evs rest :
  trace s = trace st ++ evs → trace st' = trace s ++ rest →
  events_since st st' = evs ++ rest.
Proof.
  intros Hs Hst'. apply events_since_app. by rewrite Hst', Hs, app_assoc.
Qed.

(** The update sequence opens with the init step. *)
Lemma rm_hwmon_keyboard_update_fwu_starts (E : Env) st :
  ∃ a rest, trace (rm_hwmon_keyboard_update_fwu E st).2 = trace st ++ EvFwuInit a :: rest.
Proof.
  unfold rm_hwmon_keyboard_update_fwu. unfold mbind at 1. unfold M_bind.
  unfold rm_hwmon_fwu_init at 1. rewrite fwu_step_spec.
  set (a := (fwu_init_result E (trace st) (fwu (pd st))).1).
  set (s1 := set_trace _ _).
  match goal with
  | |- context [(if decide (a ≠ 0) then ?c1 else ?c2) s1] =>
    assert (Hg : preserves trace_grows (if decide (a ≠ 0) then c1 else c2))
      by (unfold rm_hwmon_fwu_transfer_binary, rm_hwmon_fwu_validate_image,
            rm_hwmon_fwu_set_image_active, rm_hwmon_keyboard_read_init_attributes;
          grows);
    destruct (Hg s1) as [rest Hrest]
  end.
  exists a, rest. rewrite Hrest. unfold s1. cbn. by rewrite <- app_assoc.
Qed.

Ltac omaps ks :=
  rewrite ?omap_app, ?(omap_krealloc_only _ ks) by done; cbn.

(** C1, amended: in a connect sequence in which the initial attribute read
    and the authorize request succeed, the input device is made and
    registered and the buffer of the brightness write is allocated, whether
    the firmware update runs is decided by the firmware provider alone.
    When it reports no eligible image, no step of the update runs, the
    session ends with the input device registered and the lock released,
    the brightness attribute is written exactly once, and the status of
    that write is what the sequence returns.  When it reports an image, the
    update is started although the authorize request had succeeded. *)
Theorem rm_hwmon_keyboard_register_authorized (E : Env) (hdr : Z) (st : state) :
  let r := rm_hwmon_keyboard_register E hdr st in
  let evs := events_since st r.2 in
  head (omap read_result evs) = Some 0 →
  head (omap authorize_result evs) = Some 0 →
  head (omap register_result evs) = Some 0 →
  head (omap write_buffer_alloc evs) = Some true →
  (head (omap upgrade_check evs) = Some false →
   is_Some (kb_dev (pd r.2))
   ∧ locked (kb_connect_lock (pd r.2)) = false
   ∧ omap register_result evs = [0]
   ∧ omap fwu_call evs = []
   ∧ omap brightness_write evs = [r.1])
  ∧ (head (omap upgrade_check evs) = Some true → omap fwu_call evs ≠ []).
Proof.
  intros r evs.
  assert (Hr := rm_hwmon_keyboard_register_unfold E hdr st). cbn zeta in Hr.
  fold r in Hr. clearbody r.
  destruct (rm_hwmon_keyboard_unregister_cases (mutex_lock st).2)
    as (pre & Hpre & Hunreg).
  rewrite Hunreg in Hr. clear Hunreg.
  set (s0 := set_pd _ _) in Hr.
  assert (Ht0 : trace s0 = trace st ++ pre) by (by cbn).
  assert (Hd0 : kb_dev (pd s0) = None) by done.
  unfold rm_hwmon_keyboard_read_init_attributes in Hr.
  destruct (rm_hwmon_api_read_attributes_spec E init_attr s0)
    as (a1 & s1 & Hread & Hframe).
  rewrite Hread in Hr. clear Hread.
  destruct Hframe as [Hd1 _ _ _ _ _ _ _ (ks & Ht1 & Hks)].
  rewrite Hd0 in Hd1. rewrite Ht0 in Ht1. clearbody s0. clear Ht0 Hd0 s0.
  cbn [fst snd] in Hr.
  assert (Hpre' : ∀ {A} (f : io_event → option A),
             (∀ d, f (EvInputUnregisterDevice d) = None) → omap f pre = []).
  { intros A f Hf. destruct Hpre as [->|[d ->]]; [done|]. cbn. by rewrite Hf. }
  destruct (decide (a1 ≠ 0)) as [Ha1|Ha1].
  { (* the initial read failed *)
    intros Hread. exfalso. revert Hread. subst r evs.
    rewrite (events_since_app st _ (pre ++ ks ++ [EvReadAttributes init_attr a1]))
      by (cbn; rewrite Ht1, <- !app_assoc; done).
    omaps ks. rewrite (Hpre' _ read_result) by done. cbn. congruence. }
  assert (a1 = 0) as -> by lia. clear Ha1.
  unfold rm_hwmon_api_write_cmd in Hr. run.
  set (a2 := write_cmd_ret E _ _) in Hr.
  set (s2 := set_trace (_ ++ [EvWriteCmd _ _]) _) in Hr.
  assert (Ht2 : trace s2 = trace st ++ pre ++ ks
                           ++ [EvReadAttributes init_attr 0;
                               EvWriteCmd HSP_CMD_ACCS_AUTHORIZE_REQUEST a2]).
  { unfold s2. cbn. rewrite Ht1, <- !app_assoc. done. }
  assert (Hd2 : kb_dev (pd s2) = None) by exact Hd1.
  clearbody s2 a2.
  destruct (decide (a2 ≠ 0)) as [Ha2|Ha2].
  { (* the authorize request failed *)
    intros _ Hauth. exfalso. revert Hauth. subst r evs.
    destruct (grows_register_check_fwu E hdr a2 false false s2) as [rest Hrest].
    rewrite (events_since_grows st s2 _ _ rest Ht2 Hrest).
    omaps ks. rewrite (Hpre' _ authorize_result) by done.
    cbn. congruence. }
  assert (a2 = 0) as -> by lia. clear Ha2.
  intros _ _.
  destruct (rm_hwmon_keyboard_make_input_dev_cases E s2)
    as [Hmk|[(d & a3 & Ha3 & Hmk)|(d & a3 & Hmk)]];
    cbn zeta in Hmk; rewrite Hmk in Hr; clear Hmk; cbn [fst snd] in Hr.
  { (* no input device could be allocated *)
    intros Hreg. exfalso. revert Hreg. rewrite decide_True in Hr by done.
    destruct (kb_fail_register_spec (- EINVAL)
                (set_trace (trace s2 ++ [EvInputAllocateDevice false])
                   (set_pd (set_kb_dev None
                              (set_key_layout
                                 (if decide (key_layout (pd s2) >= 1) then 0
                                  else key_layout (pd s2)) (pd s2))) s2)))
      as (post & Hpost & Hfail).
    rewrite Hfail in Hr. subst r evs.
    rewrite (events_since_grows st s2 _ _ ([EvInputAllocateDevice false] ++ post) Ht2)
      by (cbn; by rewrite <- app_assoc).
    omaps ks. rewrite (Hpre' _ register_result) by done.
    destruct Hpost as [->|[d ->]]; done. }
  { (* the key map could not be built *)
    intros Hreg. exfalso. revert Hreg. rewrite decide_True in Hr by done.
    match type of Hr with
    | _ = kb_fail_register ?a ?s =>
      destruct (kb_fail_register_spec a s) as (post & Hpost & Hfail)
    end.
    rewrite Hfail in Hr. subst r evs.
    rewrite (events_since_grows st s2 _ _
               ([EvInputAllocateDevice true; EvBuildKeymap a3] ++ post) Ht2)
      by (cbn; by rewrite <- app_assoc).
    omaps ks. rewrite (Hpre' _ register_result) by done.
    destruct Hpost as [->|[d' ->]]; done. }
  destruct (decide (a3 ≠ 0)) as [Ha3|Ha3].
  { (* the input device could not be registered *)
    intros Hreg. exfalso. revert Hreg.
    match type of Hr with
    | _ = kb_fail_register ?a ?s =>
      destruct (kb_fail_register_spec a s) as (post & Hpost & Hfail)
    end.
    rewrite Hfail in Hr. subst r evs.
    rewrite (events_since_grows st s2 _ _
               ([EvInputAllocateDevice true; EvBuildKeymap 0;
                 EvInputRegisterDevice d a3] ++ post) Ht2)
      by (cbn; by rewrite <- app_assoc).
    omaps ks. rewrite (Hpre' _ register_result) by done. cbn. congruence. }
  assert (a3 = 0) as -> by lia. clear Ha3. intros _.
  set (s3 := set_trace _ _) in Hr.
  assert (Ht3 : trace s3 = trace st ++ pre ++ ks
                           ++ [EvReadAttributes init_attr 0;
                               EvWriteCmd HSP_CMD_ACCS_AUTHORIZE_REQUEST 0;
                               EvInputAllocateDevice true; EvBuildKeymap 0;
                               EvInputRegisterDevice d 0]).
  { unfold s3. cbn. rewrite Ht2, <- !app_assoc. done. }
  assert (Hd3 : kb_dev (pd s3) = Some d) by done.
  clearbody s3. clear Ht2 Hd2 s2 Ht1 Hd1 s1.
  destruct (rm_hwmon_keyboard_set_brightness_cases E hdr s3)
    as [Hbr|(req & a4 & Hbr)];
    cbn zeta in Hbr; rewrite Hbr in Hr; clear Hbr; cbn [fst snd] in Hr.
  { (* the write buffer could not be allocated *)
    intros Halloc. exfalso. revert Halloc.
    match type of Hr with
    | _ = register_check_fwu _ _ ?a ?b ?c ?s =>
      destruct (grows_register_check_fwu E hdr a b c s) as [rest Hrest]
    end.
    rewrite <- Hr in Hrest. subst evs.
    rewrite (events_since_grows st s3 _ _ ([EvAllocWriteBuffer _ false] ++ rest) Ht3)
      by (rewrite Hrest; cbn; by rewrite <- app_assoc).
    omaps ks. rewrite (Hpre' _ write_buffer_alloc) by done. done. }
  intros _.
  set (len := u32 (hdr + 1 * ATTRIBUTES_NR_OF_BKLS)) in Hr.
  set (s4 := set_trace _ s3) in Hr.
  assert (Ht4 : trace s4 = trace st ++ pre ++ ks
                           ++ [EvReadAttributes init_attr 0;
                               EvWriteCmd HSP_CMD_ACCS_AUTHORIZE_REQUEST 0;
                               EvInputAllocateDevice true; EvBuildKeymap 0;
                               EvInputRegisterDevice d 0;
                               EvAllocWriteBuffer len true;
                               EvWriteAttribute KB_ATTR_ID_BKL_BRIGHTNESS req len a4]).
  { unfold s4. cbn. rewrite Ht3, <- !app_assoc. done. }
  assert (Hd4 : kb_dev (pd s4) = Some d) by exact Hd3.
  clearbody s4. clear Ht3 Hd3 s3.
  unfold register_check_fwu, rm_hwmon_fwu_load_and_check_for_upgrade in Hr.
  unfold mbind, M_bind, get_pd in Hr. cbn [fst snd] in Hr.
  destruct (fwu_load_and_check_result E (trace s4) (fwu (pd s4)) _) as [avail f].
  set (s5 := set_trace _ _) in Hr.
  assert (Ht5 : trace s5 = trace s4 ++ [EvFwuLoadAndCheck avail]) by done.
  assert (Hd5 : kb_dev (pd s5) = Some d) by exact Hd4.
  clearbody s5.
  destruct avail.
  - (* an image is offered: the update starts *)
    destruct (rm_hwmon_keyboard_update_fwu_starts E s5) as (a & rest & Hupd).
    destruct (rm_hwmon_keyboard_update_fwu E s5) as [u s6]. cbn [fst snd] in *.
    destruct (grows_rm_hwmon_fwu_release_firmware E s6) as [rest1 Hrest1].
    destruct (rm_hwmon_fwu_release_firmware E s6) as [[] s7]. cbn [fst snd] in *.
    destruct (grows_register_after_fwu E hdr u (bool_decide (u = 0)) true true s7)
      as [rest2 Hrest2].
    rewrite <- Hr in Hrest2. subst evs.
    rewrite (events_since_grows st s4 _ _
               (EvFwuLoadAndCheck true :: EvFwuInit a :: rest ++ rest1 ++ rest2) Ht4)
      by (rewrite Hrest2, Hrest1, Hupd, Ht5, <- !app_assoc; done).
    omaps ks. rewrite !(Hpre' _ _) by done. cbn. split; [congruence|done].
  - (* no image: the sequence leaves through [unlock_mutex] *)
    unfold register_after_fwu, register_finish, unlock_mutex, mutex_unlock in Hr.
    run. subst r evs. cbn [fst snd].
    rewrite (events_since_grows st s4 _ _ [EvFwuLoadAndCheck false] Ht4)
      by (by cbn).
    omaps ks. rewrite !(Hpre' _ _) by done. cbn.
    split; [|congruence]. intros _. rewrite Hd5.
    rewrite decide_True by done. repeat split. by eexists.
Qed.

Lemma rm_hwmon_keyboard_register_authorized_witness :
  let r := rm_hwmon_keyboard_register env_ok 2 state_probe in
  let evs := events_since state_probe r.2 in
  is_Some (kb_dev (pd r.2))
  ∧ locked (kb_connect_lock (pd r.2)) = false
  ∧ omap register_result evs = [0]
  ∧ omap fwu_call evs = []
  ∧ omap brightness_write evs = [r.1].
Proof.
  destruct (rm_hwmon_keyboard_register_authorized env_ok 2 state_probe) as [H _];
    [reflexivity..|].
  apply H. reflexivity.
Defined.

(** The two other conditions of the statement are needed: read and authorize
    succeed, and yet without an input device the session stays
    disconnected, and without a write buffer the brightness is not written. *)
Example connect_without_input_device :
  let r := rm_hwmon_keyboard_register env_no_input_dev 2 state_probe in
  let evs := events_since state_probe r.2 in
  omap read_result evs = [0] ∧ omap authorize_result evs = [0]
  ∧ r.1 = - EINVAL ∧ kb_dev (pd r.2) = None.
Proof. vm_compute. done. Qed.

Example connect_without_write_buffer :
  let r := rm_hwmon_keyboard_register env_no_write_buffer 2 state_probe in
  let evs := events_since state_probe r.2 in
  omap read_result evs = [0] ∧ omap authorize_result evs = [0]
  ∧ r.1 = - ENOMEM ∧ is_Some (kb_dev (pd r.2)) ∧ omap brightness_write evs = [].
Proof. vm_compute. repeat split. by eexists. Qed.

(** C1 as worded fails: the accessory authorizes at once, an image 1.0 is
    waiting for its firmware 0.9, and the update runs all the same; the
    brightness is written before and after it. *)
Lemma connect_without_firmware_update_fails :
  ¬ connect_without_firmware_update env_upgrade 2 state_probe.
Proof.
  intros H. destruct H as (_ & _ & Hfwu & _); [reflexivity..|].
  vm_compute in Hfwu. discriminate.
Qed.

(** [matrix_keypad_map_keys] writes the code table and the key bits only, and
    whether it succeeds and the table it leaves depend on the table it starts
    from alone. *)
Lemma matrix_keypad_map_keys_fields rows cols s keys d :
  let r := matrix_keypad_map_keys rows cols s keys d in
  let r0 := matrix_keypad_map_keys rows cols s keys
              (set_keycode (keycode d) input_dev_zero) in
  r.1 = r0.1 ∧ keycode r.2 = keycode r0.2
  ∧ name r.2 = name d ∧ uniq r.2 = uniq d ∧ event_cb r.2 = event_cb d
  ∧ keycodemax r.2 = keycodemax d ∧ evbit r.2 = evbit d ∧ ledbit r.2 = ledbit d.
Proof.
  cbn zeta. revert d. induction keys as [|key keys IH]; intros d; [done|].
  cbn [matrix_keypad_map_keys]. unfold matrix_keypad_map_key.
  destruct (decide (KEY_ROW key >= rows ∨ KEY_COL key >= cols)); [done|].
  cbn [fst snd].
  match goal with
  | |- context [matrix_keypad_map_keys _ _ _ keys ?d1] =>
    destruct (IH d1) as (-> & -> & -> & -> & -> & -> & -> & ->)
  end.
  match goal with
  | |- context [matrix_keypad_map_keys _ _ _ keys
                  (set_keybit ?b (set_keycode ?c (set_keycode _ input_dev_zero)))] =>
    destruct (IH (set_keybit b (set_keycode c (set_keycode (keycode d) input_dev_zero))))
      as (-> & -> & _)
  end.
  done.
Qed.


(** [matrix_keypad_build_keymap] when it succeeds: the device holds the table
    of the key map and has the key event type. *)
Lemma matrix_keypad_build_keymap_success (E : Env) keymap_data rows cols st d0 :
  kb_dev (pd st) = Some d0 →
  (matrix_keypad_build_keymap E keymap_data rows cols st).1 = 0 →
  let d1 := set_evbit (Z.setbit (evbit d0) EV_KEY)
              (set_keycodemax (Z.shiftl rows (get_count_order cols))
                 (set_keycode
                    (replicate (Z.to_nat (Z.shiftl rows (get_count_order cols))) 0) d0)) in
  let m := matrix_keypad_map_keys rows cols (get_count_order cols) keymap_data d1 in
  m.1 = true
  ∧ (matrix_keypad_build_keymap E keymap_data rows cols st).2
    = set_trace (trace st ++ [EvBuildKeymap 0])
        (set_pd (set_kb_dev
                   (Some (set_keybit (Z.clearbit (keybit m.2) KEY_RESERVED) m.2))
                   (pd st)) st).
Proof.
  intros Hd. unfold matrix_keypad_build_keymap, modify_dev. run.
  destruct (keymap_alloc_ok E (trace st)); cbn; [|intros [=]].
  rewrite Hd. cbn.
  destruct (matrix_keypad_map_keys _ _ _ _ _) as [[] d']; cbn; [|intros [=]].
  done.
Qed.

(** The table the key map of layout version 1 gives, whatever the device it
    is built into. *)
Lemma matrix_keypad_map_keys_v1 d :
  keycode d = replicate 112 0 →
  let m := matrix_keypad_map_keys 7 16 4 rm_hwmon_keymap_v1 d in
  m.1 = true ∧ keycode m.2 = keycode_v1
  ∧ name m.2 = name d ∧ uniq m.2 = uniq d ∧ event_cb m.2 = event_cb d
  ∧ keycodemax m.2 = keycodemax d ∧ evbit m.2 = evbit d ∧ ledbit m.2 = ledbit d.
Proof.
  intros Hd. cbn zeta.
  destruct (matrix_keypad_map_keys_fields 7 16 4 rm_hwmon_keymap_v1 d)
    as (-> & -> & ?).
  rewrite Hd. split; [by vm_compute|]. split; [by vm_compute|done].
Qed.

Lemma rm_hwmon_keyboard_make_input_dev_success (E : Env) st :
  (rm_hwmon_keyboard_make_input_dev E st).1 = 0 →
  ∃ d, kb_dev (pd (rm_hwmon_keyboard_make_input_dev E st).2) = Some d
       ∧ registered_surface (pd (rm_hwmon_keyboard_make_input_dev E st).2) d
       ∧ uniq d = rm_serial_number (pd st)
       ∧ last (trace (rm_hwmon_keyboard_make_input_dev E st).2)
         = Some (EvInputRegisterDevice d 0).
Proof.
  destruct (rm_hwmon_keyboard_make_input_dev E st) as [a s'] eqn:Heq.
  cbn [fst snd]. intros ->. revert Heq.
  unfold rm_hwmon_keyboard_make_input_dev, input_allocate_device, modify_dev,
    input_set_capability, input_register_device, modify_dev.
  unfold mbind, M_bind, mret, M_ret, get_pd, modify_pd, history, log.
  cbn -[lookup_total matrix_keypad_build_keymap].
  destruct (decide (key_layout (pd st) >= Z.of_nat 1)) as [Hk|Hk];
    (destruct (input_allocate_device_ok E (trace st)) eqn:Hal;
     cbn -[lookup_total matrix_keypad_build_keymap]; rewrite ?Hal;
     cbn -[lookup_total matrix_keypad_build_keymap]; [|intros [=]]).
  all: rewrite ?(keymap_layouts_index _ Hk); change (Z.to_nat 0) with 0%nat.
  all: set (kl := keymap_layouts !!! 0%nat).
  all: assert (Hkl : (keymap kl, row kl, col kl) = (rm_hwmon_keymap_v1, 7, 16))
         by reflexivity.
  all: clearbody kl; injection Hkl as Hkm Hrow Hcol.
  all: match goal with
       | |- context [matrix_keypad_build_keymap ?E ?k ?r ?c ?s] =>
         pose proof (matrix_keypad_build_keymap_success E k r c s _ eq_refl) as Hb;
         destruct (matrix_keypad_build_keymap E k r c s) as [a1 s1]
       end.
  all: cbn [fst snd] in Hb.
  all: destruct (decide (a1 ≠ 0)) as [Hne|He]; [intros [= ? ?]; contradiction|].
  all: assert (a1 = 0) as -> by lia.
  all: destruct (Hb eq_refl) as [Hm ->]; clear Hb.
  all: rewrite Hkm, Hrow, Hcol in *.
  all: change (get_count_order 16) with 4 in *; change (Z.shiftl 7 4) with 112 in *.
  all: change (Z.to_nat 112) with 112%nat in *.
  all: clear Hm.
  all: match goal with
       | |- context [matrix_keypad_map_keys 7 16 4 rm_hwmon_keymap_v1 ?d0] =>
         pose proof (matrix_keypad_map_keys_v1 d0 eq_refl) as Hf;
         cbn zeta in Hf;
         destruct (matrix_keypad_map_keys 7 16 4 rm_hwmon_keymap_v1 d0) as [ok d']
       end.
  all: cbn in Hf; destruct Hf as (_ & Hkc & Hn & Hu & Hcb & Hmax & Hev & Hled).
  all: cbn.
  all: destruct (decide (EV_LED = EV_LED)) as [_|Hne]; [|by destruct Hne]; cbn.
  all: set (r := input_register_device_ret _ _ _).
  all: destruct (decide (r ≠ 0)) as [Hr|Hr]; cbn; [intros [= ? ?]; contradiction|].
  all: assert (r = 0) as Hr0 by lia; clearbody r; subst r.
  all: intros [= <-]; eexists; split; [reflexivity|].
  all: split; [|split; [exact Hu|cbn; rewrite last_snoc; reflexivity]].
  all: split; cbn; rewrite ?Hn, ?Hcb, ?Hmax, ?Hev, ?Hled, ?Hkc; reflexivity.
Qed.

(** *** What runs keep *)

Create HintDb keeps.

#[global] Instance run_keeps_refl {X} (proj : kb_data → X) P : Reflexive (run_keeps proj P).
Proof. intros st. repeat split. exists []. split; [by rewrite app_nil_r|constructor]. Qed.

#[global] Instance run_keeps_trans {X} (proj : kb_data → X) P :
  Transitive (run_keeps proj P).
Proof.
  intros s1 s2 s3 (H1 & H1' & e1 & He1 & Hp1) (H2 & H2' & e2 & He2 & Hp2).
  split; [congruence|]. split; [congruence|].
  exists (e1 ++ e2). split; [by rewrite He2, He1, app_assoc|by apply Forall_app_2].
Qed.

Lemma run_keeps_mono {X Y} (proj : kb_data → X) (proj' : kb_data → Y)
    (P P' : io_event → bool) st st' :
  (∀ p p', proj p' = proj p → proj' p' = proj' p) →
  (∀ e, P e = true → P' e = true) →
  run_keeps proj P st st' → run_keeps proj' P' st st'.
Proof.
  intros Hproj HP (H1 & H2 & evs & He & Hf).
  split; [by apply Hproj|]. split; [done|].
  exists evs. split; [done|]. eapply Forall_impl; [exact Hf|exact HP].
Qed.

Lemma keeps_modify_pd {X} (proj : kb_data → X) P f :
  (∀ p, proj (f p) = proj p) → preserves (run_keeps proj P) (modify_pd f).
Proof.
  intros Hf st. split; [apply Hf|]. split; [done|].
  exists []. split; [by rewrite app_nil_r|constructor].
Qed.

Lemma keeps_log {X} (proj : kb_data → X) (P : io_event → bool) e :
  P e = true → preserves (run_keeps proj P) (log e).
Proof.
  intros He st. split; [done|]. split; [done|].
  exists [e]. split; [done|]. by constructor.
Qed.

Lemma keeps_decode_frame (P : io_event → bool) st st' :
  (∀ old size res, P (EvKrealloc old size res) = true) →
  decode_frame st st' → run_keeps session_fields P st st'.
Proof.
  intros HP [H1 H2 H3 H4 H5 H6 H7 H8 (ks & Hks & Hk)].
  split; [unfold session_fields; congruence|]. split; [done|].
  exists ks. split; [done|].
  eapply Forall_impl; [exact Hk|]. intros e (old & size & res & ->). apply HP.
Qed.

Lemma keeps_get_heap {X} (proj : kb_data → X) P : preserves (run_keeps proj P) get_heap.
Proof. intros st. reflexivity. Qed.



Ltac keeps_with leaf :=
  repeat first
    [ leaf
    | solve [eauto with keeps]
    | apply preserves_ret; apply _
    | apply preserves_get_pd; apply _
    | apply preserves_history; apply _
    | apply keeps_get_heap
    | apply keeps_modify_pd; intros ?; reflexivity
    | apply keeps_log; reflexivity
    | apply preserves_bind; [apply _..| |intros ?]
    | progress cbv zeta
    | match goal with
      | |- preserves _ (if ?b then _ else _) => destruct b
      | |- preserves _ (match ?x with _ => _ end) => destruct x
      | |- preserves _ (from_option _ _ ?x) => destruct x; cbn [from_option]
      end ].

Ltac keeps := keeps_with fail.

Lemma keeps_rm_hwmon_api_read_attributes (E : Env) (P : io_event → bool) ids :
  (∀ old size res, P (EvKrealloc old size res) = true) →
  (∀ ret, P (EvReadAttributes ids ret) = true) →
  preserves (run_keeps session_fields P) (rm_hwmon_api_read_attributes E ids).
Proof.
  intros HPk HPr st.
  destruct (rm_hwmon_api_read_attributes_spec E ids st) as (ret & st1 & -> & Hd).
  etransitivity; [by apply keeps_decode_frame|].
  split; [done|]. split; [done|]. exists [EvReadAttributes ids ret].
  split; [done|]. by constructor.
Qed.

Lemma keeps_any_read_attributes (E : Env) ids :
  preserves (run_keeps session_fields any_call) (rm_hwmon_api_read_attributes E ids).
Proof. by apply keeps_rm_hwmon_api_read_attributes. Qed.

#[local] Hint Resolve keeps_any_read_attributes : keeps.

Lemma keeps_rm_hwmon_fwu_load_and_check_for_upgrade (E : Env) (P : io_event → bool) nm :
  (∀ avail, P (EvFwuLoadAndCheck avail) = true) →
  preserves (run_keeps session_fields P) (rm_hwmon_fwu_load_and_check_for_upgrade E nm).
Proof.
  intros HP st. unfold rm_hwmon_fwu_load_and_check_for_upgrade.
  destruct (fwu_load_and_check_result _ _ _ _) as [avail f].
  split; [done|]. split; [done|]. eexists. split; [done|]. by constructor.
Qed.

(** The firmware update sequence writes [pdata->fwu] and what the attribute
    readers write, and calls the four steps of the firmware helper, the one
    read and the reallocations of the decode. *)
Lemma keeps_rm_hwmon_keyboard_update_fwu (E : Env) :
  preserves (run_keeps session_fields update_call) (rm_hwmon_keyboard_update_fwu E).
Proof.
  unfold rm_hwmon_keyboard_update_fwu, rm_hwmon_fwu_init, rm_hwmon_fwu_transfer_binary,
    rm_hwmon_fwu_validate_image, rm_hwmon_fwu_set_image_active, fwu_step,
    rm_hwmon_keyboard_read_init_attributes.
  pose proof (keeps_rm_hwmon_api_read_attributes E update_call init_attr
                ltac:(done) ltac:(done)).
  keeps.
Qed.

Lemma keeps_session_connect_call {A} (c : M A) :
  preserves (run_keeps session_fields update_call) c →
  preserves (run_keeps session_fields connect_call) c.
Proof.
  intros H st. eapply run_keeps_mono; [| |apply H]; [done|].
  by intros [].
Qed.

Lemma keeps_user_fields {A} P (c : M A) :
  preserves (run_keeps session_fields P) c → preserves (run_keeps user_fields P) c.
Proof.
  intros H st. eapply run_keeps_mono; [| |apply H]; [|done].
  unfold session_fields, user_fields. intros p p' [= ? ? ? ? ? ? ?]. congruence.
Qed.

Lemma keeps_connect_read_init (E : Env) :
  preserves (run_keeps session_fields connect_call)
    (rm_hwmon_keyboard_read_init_attributes E).
Proof. by apply keeps_rm_hwmon_api_read_attributes. Qed.

Lemma keeps_connect_write_cmd (E : Env) :
  preserves (run_keeps session_fields connect_call)
    (rm_hwmon_api_write_cmd E HSP_CMD_ACCS_AUTHORIZE_REQUEST).
Proof. unfold rm_hwmon_api_write_cmd. keeps. Qed.

Lemma keeps_connect_set_brightness (E : Env) hdr :
  preserves (run_keeps session_fields connect_call)
    (rm_hwmon_keyboard_set_brightness E hdr).
Proof.
  unfold rm_hwmon_keyboard_set_brightness, rm_hwmon_api_alloc_write_buffer,
    rm_hwmon_api_write_attribute.
  keeps.
Qed.

Lemma keeps_connect_load_and_check (E : Env) nm :
  preserves (run_keeps session_fields connect_call)
    (rm_hwmon_fwu_load_and_check_for_upgrade E nm).
Proof. by apply keeps_rm_hwmon_fwu_load_and_check_for_upgrade. Qed.

Lemma keeps_connect_release (E : Env) :
  preserves (run_keeps session_fields connect_call) (rm_hwmon_fwu_release_firmware E).
Proof. unfold rm_hwmon_fwu_release_firmware. keeps. Qed.

Lemma keeps_connect_update_fwu (E : Env) :
  preserves (run_keeps session_fields connect_call) (rm_hwmon_keyboard_update_fwu E).
Proof. apply keeps_session_connect_call, keeps_rm_hwmon_keyboard_update_fwu. Qed.

#[local] Hint Resolve keeps_connect_read_init keeps_connect_write_cmd
  keeps_connect_set_brightness keeps_connect_load_and_check keeps_connect_release
  keeps_connect_update_fwu : keeps.

Ltac keeps_user :=
  keeps_with ltac:(apply keeps_user_fields; solve [eauto with keeps]).

Lemma keeps_user_unregister :
  preserves (run_keeps user_fields connect_call) rm_hwmon_keyboard_unregister.
Proof.
  unfold rm_hwmon_keyboard_unregister, modify_dev, input_unregister_device. keeps.
Qed.

Lemma keeps_user_make_input_dev (E : Env) :
  preserves (run_keeps user_fields connect_call) (rm_hwmon_keyboard_make_input_dev E).
Proof.
  intros st.
  destruct (rm_hwmon_keyboard_make_input_dev_cases E st)
    as [->|[(d & ret & _ & ->)|(d & ret & ->)]];
    (split; [done|]; split; [done|]; eexists; split; [done|]; by repeat constructor).
Qed.

Lemma keeps_user_kb_fail_register ret :
  preserves (run_keeps user_fields connect_call) (kb_fail_register ret).
Proof.
  unfold kb_fail_register, unlock_mutex, mutex_unlock, modify_dev,
    input_unregister_device.
  keeps.
Qed.

Lemma keeps_user_unlock_mutex ret :
  preserves (run_keeps user_fields connect_call) (unlock_mutex ret).
Proof. unfold unlock_mutex, mutex_unlock. keeps. Qed.

#[local] Hint Resolve keeps_user_unregister keeps_user_make_input_dev
  keeps_user_kb_fail_register keeps_user_unlock_mutex : keeps.

Lemma keeps_user_register (E : Env) hdr :
  preserves (run_keeps user_fields connect_call) (rm_hwmon_keyboard_register E hdr).
Proof.
  unfold rm_hwmon_keyboard_register, register_check_fwu, register_after_fwu,
    register_finish, mutex_lock.
  keeps_user.
Qed.

(** *** How the connect sequence leaves *)

Lemma registered_surface_row_shift p p' d :
  kb_row_shift p' = kb_row_shift p → registered_surface p d → registered_surface p' d.
Proof. intros Hp []. split; congruence. Qed.

(** A run within the session frame keeps the input device as it is. *)
Lemma run_keeps_surface P st st' :
  run_keeps session_fields P st st' →
  kb_dev (pd st') = kb_dev (pd st)
  ∧ locked (kb_connect_lock (pd st')) = locked (kb_connect_lock (pd st))
  ∧ (surface_inv st → surface_inv st').
Proof.
  unfold session_fields. intros ([= Hd Hs Hl _ _ _ _] & _).
  split; [done|]. split; [by rewrite Hl|].
  intros Hi d Hd'. rewrite Hd in Hd'.
  eapply registered_surface_row_shift; [|by apply Hi]. done.
Qed.

Lemma kb_fail_register_post ret st : ret ≠ 0 → connect_post (kb_fail_register ret st).
Proof.
  intros Hret. destruct (kb_fail_register_spec ret st) as (post & _ & ->).
  split; [done|]. split; [done|]. intros d [=].
Qed.

Lemma unlock_mutex_post ret st :
  (ret = 0 → is_Some (kb_dev (pd st))) → surface_inv st →
  connect_post (unlock_mutex ret st).
Proof.
  intros Hret Hs. split; [done|]. split; [done|].
  intros d Hd. eapply registered_surface_row_shift; [|by apply Hs]. done.
Qed.

Lemma register_finish_post (E : Env) ret input_dev_ok st :
  (input_dev_ok = true → is_Some (kb_dev (pd st)) ∧ surface_inv st) →
  connect_post (register_finish E ret input_dev_ok st).
Proof.
  intros Hok. unfold register_finish. destruct input_dev_ok; cbn [negb].
  - destruct (Hok eq_refl). by apply unlock_mutex_post.
  - unfold mbind, M_bind.
    pose proof (rm_hwmon_keyboard_make_input_dev_success E st) as Hm.
    destruct (rm_hwmon_keyboard_make_input_dev E st) as [a s]. cbn [fst snd] in Hm.
    destruct (decide (a ≠ 0)) as [Ha|Ha]; [by apply kb_fail_register_post|].
    destruct Hm as (d & Hd & Hs & _); [lia|].
    apply unlock_mutex_post; [by rewrite Hd|].
    intros d' Hd'. by replace d' with d by congruence.
Qed.

Lemma register_after_fwu_post (E : Env) hdr ret fw_upgraded auth_successful
    input_dev_ok st :
  (input_dev_ok = true → is_Some (kb_dev (pd st)) ∧ surface_inv st) →
  (fw_upgraded = false → auth_successful = false → ret ≠ 0) →
  connect_post
    (register_after_fwu E hdr ret fw_upgraded auth_successful input_dev_ok st).
Proof.
  intros Hok Hret. unfold register_after_fwu. destruct fw_upgraded.
  - unfold mbind, M_bind.
    pose proof (keeps_connect_write_cmd E st) as H1.
    destruct (rm_hwmon_api_write_cmd E _ st) as [a1 s1]. cbn [snd] in H1.
    destruct (decide (a1 ≠ 0)); [by apply kb_fail_register_post|].
    pose proof (keeps_connect_set_brightness E hdr s1) as H2.
    destruct (rm_hwmon_keyboard_set_brightness E hdr s1) as [a2 s2]. cbn [snd] in H2.
    apply register_finish_post. intros Hi. destruct (Hok Hi) as [Hd Hs].
    apply run_keeps_surface in H1 as (Hd1 & _ & Hs1).
    apply run_keeps_surface in H2 as (Hd2 & _ & Hs2).
    split; [by rewrite Hd2, Hd1|auto].
  - destruct auth_successful; cbn [negb].
    + by apply register_finish_post.
    + by apply kb_fail_register_post, Hret.
Qed.

Lemma register_check_fwu_post (E : Env) hdr ret auth_successful input_dev_ok st :
  (input_dev_ok = true → is_Some (kb_dev (pd st)) ∧ surface_inv st) →
  (auth_successful = false → ret ≠ 0) →
  connect_post (register_check_fwu E hdr ret auth_successful input_dev_ok st).
Proof.
  intros Hok Hret. unfold register_check_fwu.
  unfold mbind, M_bind, get_pd. cbn [fst snd].
  pose proof (keeps_connect_load_and_check E (device_name (pd st)) st) as H1.
  destruct (rm_hwmon_fwu_load_and_check_for_upgrade E _ st) as [avail s1].
  cbn [snd] in H1. apply run_keeps_surface in H1 as (Hd1 & _ & Hs1).
  destruct avail.
  - pose proof (keeps_connect_update_fwu E s1) as H2.
    destruct (rm_hwmon_keyboard_update_fwu E s1) as [a2 s2]. cbn [snd] in H2.
    apply run_keeps_surface in H2 as (Hd2 & _ & Hs2).
    pose proof (keeps_connect_release E s2) as H3.
    destruct (rm_hwmon_fwu_release_firmware E s2) as [[] s3]. cbn [snd] in H3.
    apply run_keeps_surface in H3 as (Hd3 & _ & Hs3).
    apply register_after_fwu_post.
    + intros Hi. destruct (Hok Hi). split; [by rewrite Hd3, Hd2, Hd1|auto].
    + intros Hb _. by apply bool_decide_eq_false in Hb.
  - apply register_after_fwu_post; [|by intros _].
    intros Hi. destruct (Hok Hi). split; [by rewrite Hd1|auto].
Qed.

Lemma rm_hwmon_keyboard_register_post (E : Env) hdr st :
  connect_post (rm_hwmon_keyboard_register E hdr st).
Proof.
  rewrite rm_hwmon_keyboard_register_unfold. cbn zeta.
  destruct (rm_hwmon_keyboard_unregister_cases (mutex_lock st).2) as (pre & _ & Hu).
  set (s0 := set_pd _ _).
  assert (Hs0 : kb_dev (pd s0) = None) by (unfold s0; rewrite Hu; done).
  clearbody s0. clear Hu.
  pose proof (keeps_connect_read_init E s0) as H1.
  destruct (rm_hwmon_keyboard_read_init_attributes E s0) as [a1 s1]. cbn [fst snd] in *.
  apply run_keeps_surface in H1 as (Hd1 & _ & _).
  destruct (decide (a1 ≠ 0)).
  { apply unlock_mutex_post; [done|]. intros d. by rewrite Hd1, Hs0. }
  pose proof (keeps_connect_write_cmd E s1) as H2.
  destruct (rm_hwmon_api_write_cmd E _ s1) as [a2 s2]. cbn [fst snd] in *.
  destruct (decide (a2 ≠ 0)).
  { apply register_check_fwu_post; done. }
  pose proof (rm_hwmon_keyboard_make_input_dev_success E s2) as Hm.
  destruct (rm_hwmon_keyboard_make_input_dev E s2) as [a3 s3]. cbn [fst snd] in *.
  destruct (decide (a3 ≠ 0)); [by apply kb_fail_register_post|].
  destruct Hm as (d & Hd & Hs & _); [lia|].
  pose proof (keeps_connect_set_brightness E hdr s3) as H4.
  destruct (rm_hwmon_keyboard_set_brightness E hdr s3) as [a4 s4]. cbn [fst snd] in *.
  apply run_keeps_surface in H4 as (Hd4 & _ & Hs4).
  apply register_check_fwu_post; [|done].
  intros _. split; [by rewrite Hd4, Hd|].
  apply Hs4. intros d' Hd'. by replace d' with d by congruence.
Qed.

(** *** The invariant of the driver *)

Lemma driver_inv_run_keeps P st st' :
  run_keeps inv_fields P st st' → driver_inv st → driver_inv st'.
Proof.
  unfold inv_fields. intros ([= Hd Hs Hl Hw] & _) [Il Is Iw].
  split.
  - by rewrite Hl.
  - intros d Hd'. rewrite Hd in Hd'.
    eapply registered_surface_row_shift; [|by apply Is]. done.
  - by rewrite Hw.
Qed.

Lemma keeps_inv_fields {A} P (c : M A) :
  preserves (run_keeps session_fields P) c → preserves (run_keeps inv_fields any_call) c.
Proof.
  intros H st. eapply run_keeps_mono; [| |apply H]; [|done].
  unfold session_fields, inv_fields. intros p p' [= ? ? ? ? ? ? ?]. congruence.
Qed.

Ltac keeps_inv :=
  keeps_with ltac:(eapply keeps_inv_fields; solve [eauto with keeps]).

Lemma rm_hwmon_kb_event_inv (E : Env) type code value st :
  driver_inv st → driver_inv (rm_hwmon_kb_event E type code value st).2.
Proof.
  intros [Il Is Iw].
  assert (Hw : ∀ attr, driver_inv (with_attribute attr st)).
  { intros attr. split; [done| |done].
    intros d Hd. eapply registered_surface_row_shift; [|by apply Is]. done. }
  destruct (decide (type = EV_LED)) as [->|Ht].
  2: { unfold rm_hwmon_kb_event. by rewrite decide_True. }
  rewrite rm_hwmon_kb_event_led.
  destruct (led_attribute code) as [attr|]; [|done].
  destruct (decide (is_Some (request (attr_writer (pd st))))) as [|Hr]; [apply Hw|].
  destruct (bool_decide (value = 0) && next_suspend_is_slumber st); [apply Hw|].
  destruct (alloc_write_buffer_result E (trace st) 1) as [req|].
  - destruct (pending (worker (attr_writer (pd st)))) eqn:Hp.
    + destruct Hr. by apply Iw.
    + unfold submitted. cbn [snd].
      destruct (decide (code = LED_CAPSL)); (split; cbn; [done| |by eauto]);
        intros d Hd; (eapply registered_surface_row_shift; [|by apply Is]); done.
  - split; [done| |].
    + intros d Hd. eapply registered_surface_row_shift; [|by apply Is]. done.
    + cbn. intros Hp. destruct Hr. by apply Iw.
Qed.

Lemma input_event_inv (E : Env) changes type code value st :
  driver_inv st → driver_inv (input_event E changes type code value st).2.
Proof.
  intros Hi. unfold input_event. run.
  destruct (kb_dev (pd st)) as [d|]; [|done].
  destruct (_ && _); [|done]. cbn.
  pose proof (rm_hwmon_kb_event_inv E type code value st Hi) as H.
  by destruct (rm_hwmon_kb_event E type code value st).
Qed.

(** The disconnect command: the device, if there is one, is handed to
    [input_unregister_device] with both LED bits cleared, [pdata->kb_dev] is
    [NULL], and the lock is free again. *)
Lemma rm_hwmon_keyboard_hsp_event_disconnect hsp_success packet st :
  command packet = HSP_CMD_ACCS_DISCONNECT →
  rm_hwmon_keyboard_hsp_event hsp_success packet st
  = (0, set_trace
          (trace st ++ match kb_dev (pd st) with
                       | Some d => [EvInputUnregisterDevice (clear_led_bits d)]
                       | None => []
                       end)
          (set_pd (set_kb_connect_lock {| locked := false |} (set_kb_dev None (pd st)))
             st)).
Proof.
  intros Hc. unfold rm_hwmon_keyboard_hsp_event. rewrite Hc.
  unfold mutex_lock, mutex_unlock, rm_hwmon_keyboard_unregister, modify_dev,
    input_unregister_device. run.
  destruct (kb_dev (pd st)) as [d|] eqn:Hd; cbn.
  - rewrite Hd. reflexivity.
  - rewrite app_nil_r. destruct st as [[] ? ? ?]. cbn in *. by subst.
Qed.

Lemma driver_step_inv (E : Env) hdr hsp_success c st :
  driver_inv st → driver_inv (driver_step E hdr hsp_success c st).2.
Proof.
  intros Hi. destruct c as [packet|w|changes code value|b| | |changes|changes|slumber];
    cbn [driver_step].
  - destruct (command packet) eqn:Hc.
    + eapply driver_inv_run_keeps; [|exact Hi].
      assert (H : preserves (run_keeps inv_fields any_call)
                    ((schedule_work KbConnectWork;; mret 0);; mret tt))
        by (unfold schedule_work; keeps).
      unfold rm_hwmon_keyboard_hsp_event. rewrite Hc. apply H.
    + unfold mbind at 1. unfold M_bind.
      rewrite rm_hwmon_keyboard_hsp_event_disconnect by done. cbn.
      destruct Hi as [Il Is Iw]. split; [done| |done]. intros d [=].
    + eapply driver_inv_run_keeps; [|exact Hi].
      assert (H : preserves (run_keeps inv_fields any_call)
                    (rm_hwmon_keyboard_report (key_event_of_data (data packet));; mret tt))
        by (unfold rm_hwmon_keyboard_report, schedule_work; keeps).
      unfold rm_hwmon_keyboard_hsp_event. rewrite Hc. apply H.
    + eapply driver_inv_run_keeps; [|exact Hi].
      unfold rm_hwmon_keyboard_hsp_event. rewrite Hc.
      match goal with
      | |- run_keeps _ _ _ (?c st).2 =>
        assert (H : preserves (run_keeps inv_fields any_call) c)
          by (unfold rm_hwmon_api_req_complete; keeps)
      end.
      apply H.
    + unfold rm_hwmon_keyboard_hsp_event. by rewrite Hc.
  - destruct w; unfold run_work; cbn [set_work_of].
    + unfold rm_hwmon_keyboard_connect_event, mbind, M_bind, modify_pd, mret, M_ret.
      cbn [fst snd].
      set (s0 := set_pd _ st).
      pose proof (rm_hwmon_keyboard_register_post E hdr s0) as (Hl & _ & Hs).
      pose proof (keeps_user_register E hdr s0) as (Hu & _).
      destruct (rm_hwmon_keyboard_register E hdr s0) as [a s1]. cbn [fst snd] in *.
      unfold user_fields in Hu. injection Hu as _ Hw _.
      split; [done..|]. rewrite Hw. apply Hi.
    + unfold rm_hwmon_keyboard_attribute_writer, rm_hwmon_api_write_attribute. run.
      destruct Hi as [Il Is Iw].
      destruct (request (attr_writer (pd st))); cbn; (split; cbn; [done| |done]);
        intros d Hd; (eapply registered_surface_row_shift; [|by apply Is]); done.
  - unfold mbind. by apply input_event_inv.
  - eapply driver_inv_run_keeps; [|exact Hi].
    match goal with
    | |- run_keeps _ _ _ (?c st).2 =>
      assert (H : preserves (run_keeps inv_fields any_call) c)
        by (unfold rm_hwmon_kb_bl_update_status; keeps_inv)
    end.
    apply H.
  - eapply driver_inv_run_keeps; [|exact Hi].
    match goal with
    | |- run_keeps _ _ _ (?c st).2 =>
      assert (H : preserves (run_keeps inv_fields any_call) c)
        by (unfold cn_serial_show, rm_hwmon_api_read_attribute; keeps_inv)
    end.
    apply H.
  - eapply driver_inv_run_keeps; [|exact Hi].
    match goal with
    | |- run_keeps _ _ _ (?c st).2 =>
      assert (H : preserves (run_keeps inv_fields any_call) c)
        by (unfold prod_records_show, rm_hwmon_api_read_attribute; keeps_inv)
    end.
    apply H.
  - unfold rm_hwmon_kb_led_save. run.
    destruct (bool_decide (is_Some (kb_dev (pd st))) && rm_key_light (pd st)); [|done].
    cbn.
    match goal with
    | |- context [input_event E changes EV_LED LED_MISC 0 ?s] =>
      pose proof (input_event_inv E changes EV_LED LED_MISC 0 s) as H;
      destruct (input_event E changes EV_LED LED_MISC 0 s) as [[] s1]
    end.
    apply H. destruct Hi as [Il Is Iw]. split; [done| |done].
    intros d Hd. eapply registered_surface_row_shift; [|by apply Is]. done.
  - unfold rm_hwmon_kb_led_load. run.
    assert (Hset : ∀ s, driver_inv s →
              driver_inv (set_pd (set_rm_key_on_after_resume false (pd s)) s)).
    { intros s [Il Is Iw]. split; [done| |done].
      intros d Hd. eapply registered_surface_row_shift; [|by apply Is]. done. }
    destruct (bool_decide (is_Some (kb_dev (pd st))) && rm_key_on_after_resume (pd st));
      [|by apply Hset].
    pose proof (input_event_inv E changes EV_LED LED_MISC 1 st Hi) as H.
    destruct (input_event E changes EV_LED LED_MISC 1 st) as [[] s1].
    by apply Hset.
  - destruct Hi as [Il Is Iw]. by split.
Qed.

(** Every state the driver reaches from a state of the invariant is one. *)
Lemma driver_run_inv (E : Env) hdr hsp_success cs st :
  driver_inv st → driver_inv (driver_run E hdr hsp_success cs st).2.
Proof.
  revert st. induction cs as [|c cs IH]; intros st Hi; [done|].
  cbn [driver_run]. unfold mbind, M_bind.
  pose proof (driver_step_inv E hdr hsp_success c st Hi) as H.
  destruct (driver_step E hdr hsp_success c st) as [[] s1]. by apply IH.
Qed.

Lemma driver_inv_probe : driver_inv state_probe.
Proof. split; [done| |done]. intros d [=]. Qed.

(** *** The removal of the input device *)

Lemma rm_hwmon_keyboard_unregister_spec st :
  rm_hwmon_keyboard_unregister st
  = (bool_decide (is_Some (kb_dev (pd st))),
     set_trace
       (trace st ++ match kb_dev (pd st) with
                    | Some d => [EvInputUnregisterDevice (clear_led_bits d)]
                    | None => []
                    end)
       (set_pd (set_kb_dev None (pd st)) st)).
Proof.
  unfold rm_hwmon_keyboard_unregister, modify_dev, input_unregister_device. run.
  destruct (kb_dev (pd st)) as [d|] eqn:Hd; cbn.
  - rewrite Hd. reflexivity.
  - rewrite app_nil_r. destruct st as [[] ? ? ?]. cbn in *. by subst.
Qed.

(** X1: the disconnect command, when an input device is registered, hands
    the device to [input_unregister_device] with the two LED bits cleared
    and every other capability bit as it was, makes no other call, leaves
    [pdata->kb_dev] at [NULL] and the lock free, and returns 0; a second
    disconnect command makes no call at all. *)
Theorem rm_hwmon_keyboard_hsp_event_disconnect_removes (hsp_success : Z)
    (packet : hsp_packet) (st : state) (d : input_dev) :
  command packet = HSP_CMD_ACCS_DISCONNECT →
  kb_dev (pd st) = Some d →
  let r := rm_hwmon_keyboard_hsp_event hsp_success packet st in
  let r' := rm_hwmon_keyboard_hsp_event hsp_success packet r.2 in
  r.1 = 0
  ∧ events_since st r.2 = [EvInputUnregisterDevice (clear_led_bits d)]
  ∧ Z.testbit (ledbit (clear_led_bits d)) LED_CAPSL = false
  ∧ Z.testbit (ledbit (clear_led_bits d)) LED_MISC = false
  ∧ (∀ n, n ≠ LED_CAPSL → n ≠ LED_MISC →
          Z.testbit (ledbit (clear_led_bits d)) n = Z.testbit (ledbit d) n)
  ∧ kb_dev (pd r.2) = None
  ∧ locked (kb_connect_lock (pd r.2)) = false
  ∧ r'.1 = 0 ∧ events_since r.2 r'.2 = [] ∧ kb_dev (pd r'.2) = None.
Proof.
  intros Hc Hd r r'. subst r'. subst r.
  rewrite (rm_hwmon_keyboard_hsp_event_disconnect _ _ st Hc), Hd. cbn [fst snd].
  rewrite rm_hwmon_keyboard_hsp_event_disconnect by done. cbn [fst snd].
  assert (Hl : ledbit (clear_led_bits d)
               = Z.clearbit (Z.clearbit (ledbit d) LED_CAPSL) LED_MISC) by done.
  rewrite Hl.
  split; [done|]. split; [by apply events_since_app|].
  split; [by rewrite Z.clearbit_neq, Z.clearbit_eq|].
  split; [by rewrite Z.clearbit_eq|].
  split; [intros n H1 H2; by rewrite !Z.clearbit_neq|].
  repeat split. apply events_since_app. cbn. by rewrite app_nil_r.
Qed.

Lemma rm_hwmon_keyboard_hsp_event_disconnect_removes_witness :
  let packet := {| command := HSP_CMD_ACCS_DISCONNECT; pkt_length := 0; data := [] |} in
  let r := rm_hwmon_keyboard_hsp_event 0 packet state_active in
  r.1 = 0 ∧ kb_dev (pd r.2) = None ∧ length (events_since state_active r.2) = 1%nat.
Proof.
  pose proof (rm_hwmon_keyboard_hsp_event_disconnect_removes 0
                {| command := HSP_CMD_ACCS_DISCONNECT; pkt_length := 0; data := [] |}
                state_active
                (default input_dev_zero (kb_dev (pd state_active)))
                eq_refl ltac:(vm_compute; reflexivity)) as (H1 & H2 & _ & _ & _ & H3 & _).
  cbn zeta. rewrite H2. auto.
Defined.

(** *** The connect sequence, whatever the accessory and the kernel answer *)

(** X2: however a connect sequence goes, it returns with the lock released;
    a status of zero means that an input device is registered; and a device
    that is registered when it returns is the one
    [rm_hwmon_keyboard_make_input_dev] makes: the row shift is 4, the code
    table is the one built from the key map of layout version 1, the key,
    repeat and LED event types and the two LEDs are announced, and the LED
    handler is installed. *)
Theorem rm_hwmon_keyboard_register_leaves (E : Env) (hdr : Z) (st : state) :
  let r := rm_hwmon_keyboard_register E hdr st in
  locked (kb_connect_lock (pd r.2)) = false
  ∧ (r.1 = 0 → is_Some (kb_dev (pd r.2)))
  ∧ (∀ d, kb_dev (pd r.2) = Some d → registered_surface (pd r.2) d).
Proof. apply rm_hwmon_keyboard_register_post. Qed.

(** X3: a connect sequence leaves alone the writer slot of the indicators,
    the connect work and the stored brightness, and the slumber flag; it
    schedules no work, reports no key and completes no request; the one
    command it sends is the authorize request and the one attribute it
    writes is the brightness. *)
Theorem rm_hwmon_keyboard_register_frame (E : Env) (hdr : Z) (st : state) :
  let r := rm_hwmon_keyboard_register E hdr st in
  attr_writer (pd r.2) = attr_writer (pd st)
  ∧ kb_connect_work (pd r.2) = kb_connect_work (pd st)
  ∧ bl_brightness (pd r.2) = bl_brightness (pd st)
  ∧ next_suspend_is_slumber r.2 = next_suspend_is_slumber st
  ∧ Forall (λ e, connect_call e = true) (events_since st r.2).
Proof.
  destruct (keeps_user_register E hdr st) as ([= H1 H2 H3] & H4 & evs & He & Hf).
  cbn zeta. by rewrite (events_since_app _ _ _ He).
Qed.

(** X4: the firmware update sequence writes nothing of the driver data but
    [pdata->fwu] and what the attribute readers write: the input device, the
    row shift, the lock, the connect work, the writer slot, the stored
    brightness and the resume flag are as before, and so is the slumber
    flag.  Its calls are the four steps of the firmware helper, the read of
    the attributes and the reallocations of the decode; it sends no command
    and writes no attribute. *)
Theorem rm_hwmon_keyboard_update_fwu_frame (E : Env) (st : state) :
  let r := rm_hwmon_keyboard_update_fwu E st in
  session_fields (pd r.2) = session_fields (pd st)
  ∧ next_suspend_is_slumber r.2 = next_suspend_is_slumber st
  ∧ Forall (λ e, update_call e = true) (events_since st r.2).
Proof.
  destruct (keeps_rm_hwmon_keyboard_update_fwu E st) as (H1 & H2 & evs & He & Hf).
  cbn zeta. by rewrite (events_since_app _ _ _ He).
Qed.

(** X5: no reader of the attribute table touches the input device, the row
    shift, the lock, the connect work, the writer slot, the stored
    brightness or the resume flag, whatever the response; the only calls a
    reader makes are reallocations. *)
Theorem attribute_configs_readers_frame (E : Env) (c : attribute_config)
    (attr_res : attribute_rx) (st : state) :
  c ∈ attribute_configs E →
  let r := cfg_reader c attr_res st in
  session_fields (pd r.2) = session_fields (pd st)
  ∧ next_suspend_is_slumber r.2 = next_suspend_is_slumber st
  ∧ Forall (λ e, is_krealloc e = true) (events_since st r.2).
Proof.
  intros Hc.
  pose proof (proj1 (Forall_forall _ _) (decode_frame_attribute_configs E) c Hc
                attr_res st) as Hd.
  destruct (keeps_decode_frame is_krealloc _ _ ltac:(done) Hd)
    as (H1 & H2 & evs & He & Hf).
  cbn zeta. by rewrite (events_since_app _ _ _ He).
Qed.

Lemma attribute_configs_readers_frame_witness :
  let r := reader_octet_attribute env_ok rx_device_name state_named in
  session_fields (pd r.2) = session_fields (pd state_named)
  ∧ next_suspend_is_slumber r.2 = next_suspend_is_slumber state_named
  ∧ Forall (λ e, is_krealloc e = true) (events_since state_named r.2).
Proof.
  apply (attribute_configs_readers_frame env_ok
           {| cfg_id := KB_ATTR_ID_DEVICE_NAME;
              cfg_type := ATTRIBUTE_STORAGE_DATA_CHARACTER_STRING;
              cfg_reader := reader_octet_attribute env_ok;
              cfg_name := "KB_ATTR_ID_DEVICE_NAME" |}).
  apply list_elem_of_In. cbn. tauto.
Defined.

(** The connect sequence up to the initial read: the device left from an
    earlier session is removed, the responses are decoded, and the rest of
    the sequence runs from a state without input device. *)
Lemma rm_hwmon_keyboard_register_prefix (E : Env) hdr st :
  ∃ ks a1 s1,
    krealloc_only ks
    ∧ trace s1
      = trace st
        ++ match kb_dev (pd st) with
           | Some d => [EvInputUnregisterDevice (clear_led_bits d)]
           | None => []
           end
        ++ ks ++ [EvReadAttributes init_attr a1]
    ∧ kb_dev (pd s1) = None
    ∧ rm_hwmon_keyboard_register E hdr st
      = (if decide (a1 ≠ 0) then unlock_mutex a1 else register_authorize E hdr) s1.
Proof.
  rewrite rm_hwmon_keyboard_register_unfold. cbn zeta.
  rewrite rm_hwmon_keyboard_unregister_spec. cbn [fst snd].
  set (s0 := set_pd _ _).
  assert (Ht0 : trace s0
                = trace st ++ match kb_dev (pd st) with
                              | Some d => [EvInputUnregisterDevice (clear_led_bits d)]
                              | None => []
                              end) by done.
  assert (Hd0 : kb_dev (pd s0) = None) by done.
  clearbody s0.
  unfold rm_hwmon_keyboard_read_init_attributes.
  destruct (rm_hwmon_api_read_attributes_spec E init_attr s0)
    as (a1 & s1 & -> & [Hd1 _ _ _ _ _ _ _ (ks & Ht1 & Hks)]).
  cbn [fst snd].
  exists ks, a1, (set_trace (trace s1 ++ [EvReadAttributes init_attr a1]) s1).
  split; [done|]. split; [cbn; by rewrite Ht1, Ht0, <- !app_assoc|].
  split; [cbn; congruence|].
  destruct (decide (a1 ≠ 0)); [done|].
  unfold register_authorize, mbind, M_bind.
  destruct (rm_hwmon_api_write_cmd E _ _) as [a2 s2]. cbn [fst snd].
  destruct (decide (a2 ≠ 0)); [done|].
  destruct (rm_hwmon_keyboard_make_input_dev E s2) as [a3 s3]. cbn [fst snd].
  destruct (decide (a3 ≠ 0)); [done|].
  by destruct (rm_hwmon_keyboard_set_brightness E hdr s3) as [a4 s4].
Qed.

Lemma grows_register_authorize (E : Env) hdr :
  preserves trace_grows (register_authorize E hdr).
Proof. unfold register_authorize. grows; apply grows_register_check_fwu. Qed.

Lemma omap_is_Some_None {A} (f : io_event → option A) (P : io_event → bool) evs :
  (∀ e, P e = true → f e = None) → Forall (λ e, P e = true) evs → omap f evs = [].
Proof.
  intros Hf. induction 1 as [|e evs He _ IH]; [done|]. cbn. by rewrite (Hf e He).
Qed.

Lemma omap_unregister_pre {A} (f : io_event → option A) (o : option input_dev) :
  (∀ d, f (EvInputUnregisterDevice d) = None) →
  omap f match o with
         | Some d => [EvInputUnregisterDevice (clear_led_bits d)]
         | None => []
         end = [].
Proof. intros Hf. destruct o; [|done]. cbn. by rewrite Hf. Qed.

Ltac omaps' ks :=
  rewrite ?omap_app, ?(omap_krealloc_only _ ks), ?omap_unregister_pre by done; cbn.

(** X6: when the initial read of a connect sequence fails, the sequence ends
    there: the status of the read is returned, no authorize request is
    sent, the firmware provider is not asked, no input device is allocated
    or registered, no write buffer is allocated, and the session is left
    without input device and with the lock released. *)
Theorem rm_hwmon_keyboard_register_read_fails (E : Env) (hdr : Z) (st : state) (e : Z) :
  let r := rm_hwmon_keyboard_register E hdr st in
  let evs := events_since st r.2 in
  head (omap read_result evs) = Some e → e ≠ 0 →
  r.1 = e
  ∧ kb_dev (pd r.2) = None
  ∧ locked (kb_connect_lock (pd r.2)) = false
  ∧ omap read_result evs = [e]
  ∧ omap authorize_result evs = []
  ∧ omap upgrade_check evs = []
  ∧ omap device_alloc evs = []
  ∧ omap register_result evs = []
  ∧ omap write_buffer_alloc evs = [].
Proof.
  intros r evs.
  destruct (rm_hwmon_keyboard_register_prefix E hdr st)
    as (ks & a1 & s1 & Hks & Ht1 & Hd1 & Hr).
  fold r in Hr. clearbody r.
  destruct (decide (a1 ≠ 0)) as [Ha1|Ha1].
  - intros Hread _. revert Hread. subst evs. subst r.
    change (unlock_mutex a1 s1)
      with (a1, set_pd (set_kb_connect_lock {| locked := false |} (pd s1)) s1).
    cbn [fst snd].
    rewrite (events_since_app st (set_pd _ s1) _ Ht1). omaps' ks.
    intros [= <-]. by rewrite Hd1.
  - intros Hread He. exfalso. assert (a1 = 0) as -> by lia.
    destruct (grows_register_authorize E hdr s1) as [rest Hrest].
    rewrite <- Hr in Hrest. revert Hread. subst evs.
    rewrite (events_since_grows st s1 _ _ rest Ht1 Hrest). omaps' ks.
    congruence.
Qed.

Lemma rm_hwmon_keyboard_register_read_fails_witness :
  let r := rm_hwmon_keyboard_register env_read_fails 2 state_probe in
  r.1 = - EINVAL ∧ kb_dev (pd r.2) = None
  ∧ omap authorize_result (events_since state_probe r.2) = [].
Proof.
  destruct (rm_hwmon_keyboard_register_read_fails env_read_fails 2 state_probe (- EINVAL))
    as (H1 & H2 & _ & _ & H3 & _); [reflexivity|done|].
  auto.
Defined.

(** [register_check_fwu] after the firmware provider has answered. *)
Lemma register_check_fwu_unfold (E : Env) hdr ret auth_successful input_dev_ok st :
  ∃ avail s1,
    trace s1 = trace st ++ [EvFwuLoadAndCheck avail]
    ∧ session_fields (pd s1) = session_fields (pd st)
    ∧ register_check_fwu E hdr ret auth_successful input_dev_ok st
      = (if (avail : bool) then
           ret ← rm_hwmon_keyboard_update_fwu E;
           rm_hwmon_fwu_release_firmware E;;
           register_after_fwu E hdr ret (bool_decide (ret = 0)) auth_successful
             input_dev_ok
         else register_after_fwu E hdr ret false auth_successful input_dev_ok) s1.
Proof.
  unfold register_check_fwu, rm_hwmon_fwu_load_and_check_for_upgrade.
  unfold mbind at 1. unfold M_bind at 1. unfold mbind at 1. unfold M_bind at 1.
  unfold get_pd. cbn [fst snd].
  destruct (fwu_load_and_check_result E (trace st) (fwu (pd st)) _) as [avail f].
  eexists avail, _. split; [|split]; [| |destruct avail; reflexivity]; done.
Qed.

Lemma rm_hwmon_api_write_cmd_spec (E : Env) cmd st :
  rm_hwmon_api_write_cmd E cmd st
  = (write_cmd_ret E (trace st) cmd,
     set_trace (trace st ++ [EvWriteCmd cmd (write_cmd_ret E (trace st) cmd)]) st).
Proof. reflexivity. Qed.

(** The failure exit of the connect sequence. *)
Lemma kb_fail_register_exact ret st :
  kb_fail_register ret st
  = (ret, set_trace
            (trace st ++ match kb_dev (pd st) with
                         | Some d => [EvInputUnregisterDevice (clear_led_bits d)]
                         | None => []
                         end)
            (set_pd (set_kb_connect_lock {| locked := false |}
                       (set_kb_dev None (pd st))) st)).
Proof.
  unfold kb_fail_register, unlock_mutex, mutex_unlock, modify_dev,
    input_unregister_device. run.
  destruct (kb_dev (pd st)) as [d|] eqn:Hd; cbn.
  - rewrite Hd. reflexivity.
  - by rewrite app_nil_r.
Qed.

(** X7: when the initial read succeeds, the authorize request fails and the
    firmware provider has no image, the session stays disconnected: the
    status of the authorize request is returned, nothing of the firmware
    update runs, no input device is allocated or registered, the brightness
    is not written, and the lock is released. *)
Theorem rm_hwmon_keyboard_register_unauthorized (E : Env) (hdr : Z) (st : state)
    (e : Z) :
  let r := rm_hwmon_keyboard_register E hdr st in
  let evs := events_since st r.2 in
  head (omap read_result evs) = Some 0 →
  head (omap authorize_result evs) = Some e → e ≠ 0 →
  head (omap upgrade_check evs) = Some false →
  r.1 = e
  ∧ kb_dev (pd r.2) = None
  ∧ locked (kb_connect_lock (pd r.2)) = false
  ∧ omap authorize_result evs = [e]
  ∧ omap fwu_call evs = []
  ∧ omap device_alloc evs = []
  ∧ omap register_result evs = []
  ∧ omap write_buffer_alloc evs = [].
Proof.
  intros r evs.
  destruct (rm_hwmon_keyboard_register_prefix E hdr st)
    as (ks & a1 & s1 & Hks & Ht1 & Hd1 & Hr).
  fold r in Hr. clearbody r.
  destruct (decide (a1 ≠ 0)) as [Ha1|Ha1].
  { intros Hread. exfalso. revert Hread. subst evs. subst r.
    change (unlock_mutex a1 s1)
      with (a1, set_pd (set_kb_connect_lock {| locked := false |} (pd s1)) s1).
    cbn [fst snd].
    rewrite (events_since_app st (set_pd _ s1) _ Ht1). omaps' ks. congruence. }
  assert (a1 = 0) as -> by lia. clear Ha1. intros _.
  unfold register_authorize in Hr. unfold mbind at 1 in Hr. unfold M_bind at 1 in Hr.
  rewrite rm_hwmon_api_write_cmd_spec in Hr. cbn [fst snd] in Hr.
  set (a2 := write_cmd_ret E _ _) in Hr.
  set (s2 := set_trace (_ ++ [EvWriteCmd _ _]) _) in Hr.
  assert (Ht2 : trace s2
                = trace st
                  ++ match kb_dev (pd st) with
                     | Some d => [EvInputUnregisterDevice (clear_led_bits d)]
                     | None => []
                     end
                  ++ ks ++ [EvReadAttributes init_attr 0;
                            EvWriteCmd HSP_CMD_ACCS_AUTHORIZE_REQUEST a2]).
  { unfold s2. cbn. rewrite Ht1, <- !app_assoc. done. }
  assert (Hd2 : kb_dev (pd s2) = None) by exact Hd1.
  clearbody s2 a2.
  destruct (decide (a2 ≠ 0)) as [Ha2|Ha2].
  2: { (* the authorize request succeeded *)
    intros Hauth He. exfalso. revert Hauth. subst evs.
    match type of Hr with
    | r = ?c s2 =>
      assert (Hg : preserves trace_grows c) by (grows; apply grows_register_check_fwu)
    end.
    destruct (Hg s2) as [rest Hrest]. rewrite <- Hr in Hrest.
    rewrite (events_since_grows st s2 _ _ rest Ht2 Hrest). omaps' ks.
    intros [= <-]. lia. }
  destruct (register_check_fwu_unfold E hdr a2 false false s2)
    as (avail & s3 & Ht3 & Hf3 & Hc).
  rewrite Hc in Hr. clear Hc.
  assert (Hd3 : kb_dev (pd s3) = None).
  { unfold session_fields in Hf3. injection Hf3 as -> _. done. }
  destruct avail; cbv iota in Hr.
  { (* an image is offered *)
    intros _ _ Hup. exfalso. revert Hup. subst evs.
    match type of Hr with
    | r = ?c s3 =>
      assert (Hg : preserves trace_grows c) by grows
    end.
    destruct (Hg s3) as [rest Hrest]. rewrite <- Hr in Hrest.
    rewrite (events_since_grows st s2 _ _ (EvFwuLoadAndCheck true :: rest) Ht2)
      by (rewrite Hrest, Ht3, <- app_assoc; done).
    omaps' ks. congruence. }
  cbn [register_after_fwu negb] in Hr.
  rewrite kb_fail_register_exact, Hd3 in Hr.
  intros Hauth He _. revert Hauth. subst evs. subst r. cbn [fst snd].
  rewrite (events_since_grows st s2 (set_trace _ _) _ [EvFwuLoadAndCheck false] Ht2)
    by (cbn; by rewrite app_nil_r).
  omaps' ks. intros [= <-]. done.
Qed.

Lemma rm_hwmon_keyboard_register_unauthorized_witness :
  let r := rm_hwmon_keyboard_register env_unauthorized 2 state_probe in
  r.1 = - EACCES ∧ kb_dev (pd r.2) = None
  ∧ omap device_alloc (events_since state_probe r.2) = [].
Proof.
  destruct (rm_hwmon_keyboard_register_unauthorized env_unauthorized 2 state_probe
              (- EACCES))
    as (H1 & H2 & _ & _ & _ & H3 & _); [reflexivity|reflexivity|done|reflexivity|].
  auto.
Defined.

(** A firmware update that returns 0 has run every step, each with status 0:
    init, transfer, validate, the read of the attributes and the
    activation. *)
Lemma rm_hwmon_keyboard_update_fwu_success (E : Env) st :
  (rm_hwmon_keyboard_update_fwu E st).1 = 0 →
  ∃ ks, krealloc_only ks
        ∧ trace (rm_hwmon_keyboard_update_fwu E st).2
          = trace st ++ [EvFwuInit 0; EvFwuTransferBinary 0; EvFwuValidateImage 0]
            ++ ks ++ [EvReadAttributes init_attr 0; EvFwuSetImageActive 0].
Proof.
  unfold rm_hwmon_keyboard_update_fwu, rm_hwmon_fwu_init, rm_hwmon_fwu_transfer_binary,
    rm_hwmon_fwu_validate_image, rm_hwmon_fwu_set_image_active.
  unfold mbind, M_bind.
  rewrite fwu_step_spec. cbn [fst snd].
  set (a1 := (fwu_init_result E _ _).1). set (s1 := set_trace _ _).
  assert (Ht1 : trace s1 = trace st ++ [EvFwuInit a1]) by done. clearbody a1 s1.
  destruct (decide (a1 ≠ 0)); [cbn; intros; lia|]. assert (a1 = 0) as -> by lia.
  rewrite fwu_step_spec. cbn [fst snd].
  set (a2 := (fwu_transfer_binary_result E _ _).1). set (s2 := set_trace _ _).
  assert (Ht2 : trace s2 = trace s1 ++ [EvFwuTransferBinary a2]) by done. clearbody a2 s2.
  destruct (decide (a2 ≠ 0)); [cbn; intros; lia|]. assert (a2 = 0) as -> by lia.
  rewrite fwu_step_spec. cbn [fst snd].
  set (a3 := (fwu_validate_image_result E _ _).1). set (s3 := set_trace _ _).
  assert (Ht3 : trace s3 = trace s2 ++ [EvFwuValidateImage a3]) by done. clearbody a3 s3.
  destruct (decide (a3 ≠ 0)); [cbn; intros; lia|]. assert (a3 = 0) as -> by lia.
  destruct (rm_hwmon_keyboard_read_init_attributes_trace E s3) as (ks & Hks & Ht4).
  destruct (rm_hwmon_keyboard_read_init_attributes E s3) as [a4 s4]. cbn [fst snd] in *.
  destruct (decide (a4 ≠ 0)); [cbn; intros; lia|]. assert (a4 = 0) as -> by lia.
  unfold get_pd. cbn [fst snd].
  destruct (decide (memcmp_fw_version _ _ ≠ 0)); [cbn; intros; lia|].
  rewrite fwu_step_spec. cbn [fst snd mret M_ret].
  set (a5 := (fwu_set_image_active_result E _ _).1). intros ->.
  exists ks. split; [done|]. cbn. rewrite Ht4, Ht3, Ht2, Ht1, <- !app_assoc. done.
Qed.

Lemma rm_hwmon_fwu_release_firmware_spec (E : Env) st :
  rm_hwmon_fwu_release_firmware E st
  = (tt, set_trace (trace st ++ [EvFwuReleaseFirmware])
           (set_pd (set_fwu (fwu_release_firmware_result E (trace st) (fwu (pd st)))
                      (pd st)) st)).
Proof. reflexivity. Qed.

Lemma omap_update_call {A} (f : io_event → option A) evs :
  (∀ e, update_call e = true → f e = None) →
  Forall (λ e, update_call e = true) evs → omap f evs = [].
Proof. apply omap_is_Some_None. Qed.

(** X8: the firmware path of the connect sequence.  When the initial read
    succeeds, the first authorize request fails and a second one is sent
    and succeeds, and the input device is registered, then the firmware
    provider had an image, the update ran all its four steps with status 0
    and read the attributes again, the buffer of the brightness write was
    asked for once, after the update, and the input device was made last;
    the session ends with the input device registered and the lock released,
    and the status returned is 0 whatever the brightness write returned. *)
Theorem rm_hwmon_keyboard_register_firmware_path (E : Env) (hdr : Z) (st : state)
    (e : Z) :
  let r := rm_hwmon_keyboard_register E hdr st in
  let evs := events_since st r.2 in
  head (omap read_result evs) = Some 0 →
  omap authorize_result evs = [e; 0] → e ≠ 0 →
  head (omap register_result evs) = Some 0 →
  r.1 = 0
  ∧ is_Some (kb_dev (pd r.2))
  ∧ locked (kb_connect_lock (pd r.2)) = false
  ∧ omap upgrade_check evs = [true]
  ∧ omap fwu_call evs = [0; 0; 0; 0]
  ∧ omap read_result evs = [0; 0]
  ∧ omap register_result evs = [0]
  ∧ length (omap write_buffer_alloc evs) = 1%nat
  ∧ ∃ d, last evs = Some (EvInputRegisterDevice d 0).
Proof.
  intros r evs.
  destruct (rm_hwmon_keyboard_register_prefix E hdr st)
    as (ks & a1 & s1 & Hks & Ht1 & Hd1 & Hr).
  fold r in Hr. clearbody r.
  set (pre := match kb_dev (pd st) with
              | Some d => [EvInputUnregisterDevice (clear_led_bits d)]
              | None => []
              end) in *.
  assert (Hpre : ∀ {A} (f : io_event → option A),
             (∀ d, f (EvInputUnregisterDevice d) = None) → omap f pre = []).
  { intros A f Hf. by apply omap_unregister_pre. }
  clearbody pre.
  destruct (decide (a1 ≠ 0)) as [Ha1|Ha1].
  { intros Hread. exfalso. revert Hread. subst evs. subst r.
    change (unlock_mutex a1 s1)
      with (a1, set_pd (set_kb_connect_lock {| locked := false |} (pd s1)) s1).
    cbn [fst snd].
    rewrite (events_since_app st (set_pd _ s1) _ Ht1).
    omaps ks. rewrite (Hpre _ read_result) by done. cbn. congruence. }
  assert (a1 = 0) as -> by lia. clear Ha1. intros _.
  unfold register_authorize in Hr. unfold mbind at 1 in Hr. unfold M_bind at 1 in Hr.
  rewrite rm_hwmon_api_write_cmd_spec in Hr. cbn [fst snd] in Hr.
  set (a2 := write_cmd_ret E _ _) in Hr.
  set (s2 := set_trace (_ ++ [EvWriteCmd _ _]) _) in Hr.
  assert (Ht2 : trace s2
                = trace st ++ pre ++ ks
                  ++ [EvReadAttributes init_attr 0;
                      EvWriteCmd HSP_CMD_ACCS_AUTHORIZE_REQUEST a2]).
  { unfold s2. cbn. rewrite Ht1, <- !app_assoc. done. }
  assert (Hd2 : kb_dev (pd s2) = None) by exact Hd1.
  clearbody s2 a2. clear Ht1 Hd1 s1.
  destruct (decide (a2 ≠ 0)) as [Ha2|Ha2].
  2: { (* the first authorize request succeeded *)
    intros Hauth He. exfalso. revert Hauth. subst evs.
    match type of Hr with
    | r = ?c s2 =>
      assert (Hg : preserves trace_grows c) by (grows; apply grows_register_check_fwu)
    end.
    destruct (Hg s2) as [rest Hrest]. rewrite <- Hr in Hrest.
    rewrite (events_since_grows st s2 _ _ rest Ht2 Hrest).
    omaps ks. rewrite (Hpre _ authorize_result) by done. cbn.
    intros [= <- _]. lia. }
  destruct (register_check_fwu_unfold E hdr a2 false false s2)
    as (avail & s3 & Ht3 & Hf3 & Hc).
  rewrite Hc in Hr. clear Hc.
  assert (Hd3 : kb_dev (pd s3) = None).
  { unfold session_fields in Hf3. injection Hf3 as -> _. done. }
  clear Hf3.
  destruct avail; cbv iota in Hr.
  2: { (* no image *)
    cbn [register_after_fwu negb] in Hr.
    rewrite kb_fail_register_exact, Hd3 in Hr.
    intros Hauth. exfalso. revert Hauth. subst evs. subst r. cbn [fst snd].
    rewrite (events_since_grows st s2 (set_trace _ _) _ [EvFwuLoadAndCheck false] Ht2)
      by (cbn; by rewrite app_nil_r).
    omaps ks. rewrite (Hpre _ authorize_result) by done. cbn. congruence. }
  unfold mbind at 1 in Hr. unfold M_bind at 1 in Hr.
  pose proof (rm_hwmon_keyboard_update_fwu_success E s3) as Hus.
  destruct (keeps_rm_hwmon_keyboard_update_fwu E s3) as (Hf4 & _ & ev4 & Ht4 & Hu4).
  destruct (rm_hwmon_keyboard_update_fwu E s3) as [u s4]. cbn [fst snd] in *.
  assert (Hd4 : kb_dev (pd s4) = None).
  { unfold session_fields in Hf4. injection Hf4 as -> _. done. }
  clear Hf4.
  unfold mbind at 1 in Hr. unfold M_bind at 1 in Hr.
  rewrite rm_hwmon_fwu_release_firmware_spec in Hr. cbn [fst snd] in Hr.
  set (s5 := set_trace _ _) in Hr.
  assert (Ht5 : trace s5 = trace s4 ++ [EvFwuReleaseFirmware]) by done.
  assert (Hd5 : kb_dev (pd s5) = None) by exact Hd4.
  clearbody s5.
  destruct (decide (u = 0)) as [->|Hu].
  2: { (* the update failed *)
    rewrite bool_decide_eq_false_2 in Hr by done.
    cbn [register_after_fwu negb] in Hr.
    rewrite kb_fail_register_exact, Hd5 in Hr.
    intros Hauth. exfalso. revert Hauth. subst evs. subst r. cbn [fst snd].
    rewrite (events_since_grows st s2 (set_trace _ _) _
               ([EvFwuLoadAndCheck true] ++ ev4 ++ [EvFwuReleaseFirmware]) Ht2)
      by (cbn; rewrite app_nil_r, Ht5, Ht4, Ht3, <- !app_assoc; done).
    rewrite !omap_app, (omap_krealloc_only _ ks), (Hpre _ authorize_result),
      (omap_update_call authorize_result ev4) by (done || by intros []).
    cbn. congruence. }
  destruct Hus as (ks4 & Hks4 & Ht4'); [done|]. clear Ht4 Hu4 ev4.
  rewrite bool_decide_eq_true_2 in Hr by done.
  cbn [register_after_fwu] in Hr.
  assert (Ht5' : trace s5
                 = trace st ++ pre ++ ks
                   ++ [EvReadAttributes init_attr 0;
                       EvWriteCmd HSP_CMD_ACCS_AUTHORIZE_REQUEST a2;
                       EvFwuLoadAndCheck true;
                       EvFwuInit 0; EvFwuTransferBinary 0; EvFwuValidateImage 0]
                   ++ ks4 ++ [EvReadAttributes init_attr 0; EvFwuSetImageActive 0;
                              EvFwuReleaseFirmware]).
  { rewrite Ht5, Ht4', Ht3, Ht2, <- !app_assoc. done. }
  clear Ht5 Ht4' Ht3 Ht2 Hd4 Hd3 Hd2 s4 s3 s2.
  unfold mbind at 1 in Hr. unfold M_bind at 1 in Hr.
  rewrite rm_hwmon_api_write_cmd_spec in Hr. cbn [fst snd] in Hr.
  set (a5 := write_cmd_ret E _ _) in Hr.
  set (s6 := set_trace (_ ++ [EvWriteCmd _ _]) _) in Hr.
  assert (Ht6 : trace s6
                = trace s5 ++ [EvWriteCmd HSP_CMD_ACCS_AUTHORIZE_REQUEST a5]) by done.
  assert (Hd6 : kb_dev (pd s6) = None) by exact Hd5.
  clearbody s6 a5.
  destruct (decide (a5 ≠ 0)) as [Ha5|Ha5].
  { (* the second authorize request failed *)
    rewrite kb_fail_register_exact, Hd6 in Hr.
    intros Hauth. exfalso. revert Hauth. subst evs. subst r. cbn [fst snd].
    rewrite (events_since_grows st s5 (set_trace _ _) _
               [EvWriteCmd HSP_CMD_ACCS_AUTHORIZE_REQUEST a5] Ht5')
      by (cbn; by rewrite app_nil_r, Ht6).
    rewrite !omap_app, (omap_krealloc_only _ ks), (omap_krealloc_only _ ks4),
      (Hpre _ authorize_result) by done.
    cbn. intros [= _ ?]. lia. }
  assert (a5 = 0) as -> by lia. clear Ha5.
  unfold mbind at 1 in Hr. unfold M_bind at 1 in Hr.
  assert (Hbr : ∃ a s7 bev,
             rm_hwmon_keyboard_set_brightness E hdr s6 = (a, s7)
             ∧ trace s7 = trace s6 ++ bev ∧ kb_dev (pd s7) = None
             ∧ length (omap write_buffer_alloc bev) = 1%nat
             ∧ omap authorize_result bev = [] ∧ omap upgrade_check bev = []
             ∧ omap fwu_call bev = [] ∧ omap read_result bev = []
             ∧ omap register_result bev = []).
  { destruct (rm_hwmon_keyboard_set_brightness_cases E hdr s6)
      as [Hb|(req & a & Hb)]; cbn zeta in Hb; rewrite Hb;
      eexists _, _, _; (split; [reflexivity|]); (split; [reflexivity|]); by repeat split. }
  destruct Hbr as (a7 & s7 & bev & Hb0 & Ht7 & Hd7 & Hb1 & Hb2 & Hb3 & Hb4 & Hb5 & Hb6).
  rewrite Hb0 in Hr. clear Hb0.
  cbn [fst snd register_finish negb] in Hr.
  unfold mbind at 1 in Hr. unfold M_bind at 1 in Hr.
  destruct (rm_hwmon_keyboard_make_input_dev_cases E s7)
    as [Hmk|[(d & a8 & Ha8 & Hmk)|(d & a8 & Hmk)]];
    cbn zeta in Hmk; rewrite Hmk in Hr; clear Hmk; cbn [fst snd] in Hr.
  { (* no input device could be allocated *)
    rewrite decide_True in Hr by done. rewrite kb_fail_register_exact in Hr.
    intros _ _ Hreg. exfalso. revert Hreg. subst evs. subst r. cbn [fst snd].
    rewrite (events_since_grows st s5 (set_trace _ _) _
               ([EvWriteCmd HSP_CMD_ACCS_AUTHORIZE_REQUEST 0] ++ bev
                ++ [EvInputAllocateDevice false]) Ht5')
      by (cbn; rewrite app_nil_r, Ht7, Ht6, <- !app_assoc; done).
    rewrite !omap_app, (omap_krealloc_only _ ks), (omap_krealloc_only _ ks4),
      (Hpre _ register_result), Hb6 by done.
    done. }
  { (* the key map could not be built *)
    rewrite decide_True in Hr by done. rewrite kb_fail_register_exact in Hr.
    intros _ _ Hreg. exfalso. revert Hreg. subst evs. subst r. cbn [fst snd].
    rewrite (events_since_grows st s5 (set_trace _ _) _
               ([EvWriteCmd HSP_CMD_ACCS_AUTHORIZE_REQUEST 0] ++ bev
                ++ [EvInputAllocateDevice true; EvBuildKeymap a8;
                    EvInputUnregisterDevice (clear_led_bits d)]) Ht5')
      by (cbn; rewrite Ht7, Ht6, <- !app_assoc; done).
    rewrite !omap_app, (omap_krealloc_only _ ks), (omap_krealloc_only _ ks4),
      (Hpre _ register_result), Hb6 by done.
    done. }
  destruct (decide (a8 ≠ 0)) as [Ha8|Ha8].
  { (* the input device could not be registered *)
    rewrite kb_fail_register_exact in Hr.
    intros _ _ Hreg. exfalso. revert Hreg. subst evs. subst r. cbn [fst snd].
    rewrite (events_since_grows st s5 (set_trace _ _) _
               ([EvWriteCmd HSP_CMD_ACCS_AUTHORIZE_REQUEST 0] ++ bev
                ++ [EvInputAllocateDevice true; EvBuildKeymap 0;
                    EvInputRegisterDevice d a8;
                    EvInputUnregisterDevice (clear_led_bits d)]) Ht5')
      by (cbn; rewrite Ht7, Ht6, <- !app_assoc; done).
    rewrite !omap_app, (omap_krealloc_only _ ks), (omap_krealloc_only _ ks4),
      (Hpre _ register_result), Hb6 by done.
    cbn. congruence. }
  assert (a8 = 0) as -> by lia. clear Ha8.
  intros Hauth _ _. revert Hauth.
  change (unlock_mutex 0 ?s)
    with (0, set_pd (set_kb_connect_lock {| locked := false |} (pd s)) s) in Hr.
  subst evs. subst r. cbn [fst snd].
  rewrite (events_since_grows st s5 (set_pd _ _) _
             ([EvWriteCmd HSP_CMD_ACCS_AUTHORIZE_REQUEST 0] ++ bev
              ++ [EvInputAllocateDevice true; EvBuildKeymap 0;
                  EvInputRegisterDevice d 0]) Ht5')
    by (cbn; rewrite Ht7, Ht6, <- !app_assoc; done).
  rewrite !omap_app, !(omap_krealloc_only _ ks), !(omap_krealloc_only _ ks4),
    !(Hpre _ _), Hb2, Hb3, Hb4, Hb5, Hb6 by done.
  cbn. intros [= <-].
  split; [done|]. split; [by eexists|]. split; [done|].
  repeat (split; [done|]).
  split.
  - by rewrite app_nil_r.
  - exists d. by rewrite last_app, last_cons, last_app.
Qed.

Lemma rm_hwmon_keyboard_register_firmware_path_witness :
  let r := rm_hwmon_keyboard_register env_upgrade_first 2 state_probe in
  let evs := events_since state_probe r.2 in
  r.1 = 0 ∧ is_Some (kb_dev (pd r.2)) ∧ omap fwu_call evs = [0; 0; 0; 0].
Proof.
  destruct (rm_hwmon_keyboard_register_firmware_path env_upgrade_first 2 state_probe
              (- EACCES))
    as (H1 & H2 & _ & _ & H3 & _); [reflexivity|reflexivity|done|reflexivity|].
  auto.
Defined.

(** *** Strings *)

(** X9: a string attribute whose reallocation succeeds is decoded into a
    block of [str_len + 1] bytes, the bytes of the response followed by a
    terminating zero; the destination of the attribute points at the block,
    the two other string destinations are as they were, and the one call
    made is the reallocation of the destination's block. *)
Theorem reader_octet_attribute_stores_string (E : Env) (attr_res : attribute_rx)
    (slot : octet_slot) (st : state) (a : N) :
  octet_attribute_of (rx_id attr_res) = Some slot →
  krealloc_result E (trace st) (slot_get slot (pd st)) (str_len (octets attr_res) + 1)
    = Some a →
  let r := reader_octet_attribute E attr_res st in
  r.1 = true
  ∧ slot_get slot (pd r.2) = Some a
  ∧ heap r.2 !! a = Some (str (octets attr_res) ++ [0])
  ∧ (∀ slot', slot' ≠ slot → slot_get slot' (pd r.2) = slot_get slot' (pd st))
  ∧ events_since st r.2
    = [EvKrealloc (slot_get slot (pd st)) (str_len (octets attr_res) + 1) (Some a)].
Proof.
  intros Hs Hk.
  destruct (reader_octet_attribute_success E attr_res slot st a Hs Hk) as (H1 & H2 & H3).
  cbn zeta. split; [done|]. split; [done|]. split; [done|].
  unfold reader_octet_attribute. rewrite Hs. unfold devm_krealloc, store_block. run.
  rewrite Hk. cbn. split.
  - intros slot' Hne. by destruct slot, slot'.
  - by apply events_since_app.
Qed.

Lemma reader_octet_attribute_stores_string_witness :
  let r := reader_octet_attribute env_ok rx_device_name state_named in
  r.1 = true ∧ device_name (pd r.2) = Some 1%N
  ∧ heap r.2 !! 1%N = Some [114; 77; 50; 0].
Proof.
  destruct (reader_octet_attribute_stores_string env_ok rx_device_name SlotDeviceName
              state_named 1%N eq_refl eq_refl) as (H1 & H2 & H3 & _).
  auto.
Defined.

(** X10: the input device's [uniq] is the pointer [pdata->rm_serial_number]
    (it is set so by [rm_hwmon_keyboard_make_input_dev]).  When a
    serial-number response is decoded while the device is registered and
    the reallocation moves the block, [pdata->rm_serial_number] follows,
    and the registered device is as it was: its [uniq] still holds the old
    address, at which no block lives any more. *)
Theorem reader_octet_attribute_moves_serial (E : Env) (attr_res : attribute_rx)
    (st : state) (d : input_dev) (a a' : N) :
  rx_id attr_res = KB_ATTR_ID_RM_SERIAL_NUMBER →
  kb_dev (pd st) = Some d → uniq d = Some a →
  rm_serial_number (pd st) = Some a →
  krealloc_result E (trace st) (Some a) (str_len (octets attr_res) + 1) = Some a' →
  a' ≠ a →
  let r := reader_octet_attribute E attr_res st in
  r.1 = true
  ∧ rm_serial_number (pd r.2) = Some a'
  ∧ kb_dev (pd r.2) = Some d
  ∧ heap r.2 !! a = None.
Proof.
  intros Hid Hd Hu Hs Hk Hne.
  unfold reader_octet_attribute. rewrite Hid. cbn [octet_attribute_of].
  change (octet_attribute_of KB_ATTR_ID_RM_SERIAL_NUMBER) with (Some SlotRmSerialNumber).
  unfold devm_krealloc, store_block. run.
  rewrite Hs, Hk. cbn.
  split; [done|]. split; [done|]. split; [done|].
  rewrite lookup_alter_ne by done. rewrite lookup_insert_ne by done.
  apply lookup_delete_eq.
Qed.

Lemma reader_octet_attribute_moves_serial_witness :
  let r := reader_octet_attribute env_ok rx_rm_serial state_serial in
  (uniq <$> kb_dev (pd r.2)) = Some (Some 16%N)
  ∧ rm_serial_number (pd r.2) = Some 1%N
  ∧ heap r.2 !! 16%N = None.
Proof.
  destruct (reader_octet_attribute_moves_serial env_ok rx_rm_serial state_serial
              (set_uniq (Some 16%N) input_dev_zero) 16%N 1%N
              eq_refl eq_refl eq_refl eq_refl eq_refl ltac:(done))
    as (_ & H1 & H2 & H3).
  cbn zeta. rewrite H2. auto.
Defined.

(** *** The brightness *)

Lemma u8_u8 (x : Z) : u8 (u8 x) = u8 x.
Proof. unfold u8. by rewrite Z.mod_mod. Qed.

(** [rm_hwmon_keyboard_set_brightness], call by call. *)
Lemma rm_hwmon_keyboard_set_brightness_spec (E : Env) hdr st :
  let len := u32 (hdr + 1 * ATTRIBUTES_NR_OF_BKLS) in
  match alloc_write_buffer_result E (trace st) len with
  | None =>
    rm_hwmon_keyboard_set_brightness E hdr st
    = (- ENOMEM, set_trace (trace st ++ [EvAllocWriteBuffer len false]) st)
  | Some buf =>
    ∃ req ret,
      brightness_payload (bl_brightness (pd st)) req
      ∧ rm_hwmon_keyboard_set_brightness E hdr st
        = (ret, set_trace (trace st ++ [EvAllocWriteBuffer len true;
                                        EvWriteAttribute KB_ATTR_ID_BKL_BRIGHTNESS req len
                                          ret]) st)
  end.
Proof.
  unfold rm_hwmon_keyboard_set_brightness, rm_hwmon_api_alloc_write_buffer,
    rm_hwmon_api_write_attribute. run.
  destruct (alloc_write_buffer_result E (trace st) _) as [buf|]; cbn; [|done].
  eexists _, _. split; [|by rewrite <- app_assoc].
  split; [done|]. split; [done|]. cbn.
  intros i Hi. do 6 (destruct i as [|i]; [reflexivity|]). lia.
Qed.

(** X11: a brightness write whose buffer is allocated makes two calls, the
    allocation and the write of the brightness attribute, returns the
    status of the write and leaves the driver data as they are.  The
    payload announces six elements of eight bits and every element is the
    stored brightness cut to a byte; decoded by the reader of the
    brightness attribute, it gives a brightness array of six times that
    byte. *)
Theorem rm_hwmon_keyboard_set_brightness_round_trip (E : Env) (hdr : Z) (st : state)
    (buf : attribute_tx) :
  alloc_write_buffer_result E (trace st) (u32 (hdr + 1 * ATTRIBUTES_NR_OF_BKLS))
    = Some buf →
  length (bl_brightness_array (pd st)) = 6%nat →
  let r := rm_hwmon_keyboard_set_brightness E hdr st in
  ∃ req,
    events_since st r.2
    = [EvAllocWriteBuffer (u32 (hdr + 1 * ATTRIBUTES_NR_OF_BKLS)) true;
       EvWriteAttribute KB_ATTR_ID_BKL_BRIGHTNESS req
         (u32 (hdr + 1 * ATTRIBUTES_NR_OF_BKLS)) r.1]
    ∧ pd r.2 = pd st ∧ heap r.2 = heap st
    ∧ brightness_payload (bl_brightness (pd st)) req
    ∧ let r' := reader_bl_brightness_array (rx_of_tx KB_ATTR_ID_BKL_BRIGHTNESS req) r.2 in
      r'.1 = true
      ∧ bl_brightness_array (pd r'.2) = replicate 6 (u8 (bl_brightness (pd st))).
Proof.
  intros Ha Hl. pose proof (rm_hwmon_keyboard_set_brightness_spec E hdr st) as Hs.
  cbn zeta in Hs. rewrite Ha in Hs. destruct Hs as (req & ret & Hp & ->).
  cbn [fst snd]. exists req.
  split; [by apply events_since_app|]. split; [done|]. split; [done|].
  split; [done|]. destruct Hp as (Hsub & Hn & Hdata).
  unfold reader_bl_brightness_array, rx_of_tx. cbn [array subtype n_len array_data].
  rewrite Hsub, Hn. rewrite !decide_False by (intros H; by apply H). run.
  split; [done|].
  destruct (bl_brightness_array (pd st)) as [|x0 [|x1 [|x2 [|x3 [|x4 [|x5 [|]]]]]]];
    try done.
  change (Z.to_nat ATTRIBUTES_NR_OF_BKLS) with 6%nat. cbn -[u8].
  rewrite !Hdata by lia. by rewrite u8_u8.
Qed.

Lemma rm_hwmon_keyboard_set_brightness_round_trip_witness :
  let st := set_pd (set_bl_brightness 300 kb_data_probe) state_probe in
  let r := rm_hwmon_keyboard_set_brightness env_ok 2 st in
  ∃ req,
    brightness_payload 300 req
    ∧ bl_brightness_array
        (pd (reader_bl_brightness_array (rx_of_tx KB_ATTR_ID_BKL_BRIGHTNESS req) r.2).2)
      = [44; 44; 44; 44; 44; 44].
Proof.
  destruct (rm_hwmon_keyboard_set_brightness_round_trip env_ok 2
              (set_pd (set_bl_brightness 300 kb_data_probe) state_probe) tx_zero
              eq_refl eq_refl) as (req & _ & _ & _ & H1 & _ & H2).
  exists req. auto.
Defined.

#[global] Instance payload_frame_refl b : Reflexive (payload_frame b).
Proof.
  intros st Hb. split; [done|]. exists []. split; [by rewrite app_nil_r|constructor].
Qed.

#[global] Instance payload_frame_trans b : Transitive (payload_frame b).
Proof.
  intros s1 s2 s3 H1 H2 Hb.
  destruct (H1 Hb) as (Hb2 & e1 & He1 & Hf1).
  destruct (H2 Hb2) as (Hb3 & e2 & He2 & Hf2).
  split; [done|]. exists (e1 ++ e2).
  split; [by rewrite He2, He1, app_assoc|by apply Forall_app_2].
Qed.

(** A run that keeps the stored brightness and writes no attribute. *)
Lemma payload_frame_keeps b st st' :
  run_keeps bl_brightness no_attribute_write st st' → payload_frame b st st'.
Proof.
  intros (H1 & _ & evs & He & Hf) Hb. split; [congruence|].
  exists evs. split; [done|]. eapply Forall_impl; [exact Hf|].
  intros e He' id req len ret ->. done.
Qed.

Lemma payload_preserves_keeps b {A} (c : M A) :
  preserves (run_keeps bl_brightness no_attribute_write) c →
  preserves (payload_frame b) c.
Proof. intros H st. apply payload_frame_keeps, H. Qed.

Lemma payload_set_brightness (E : Env) hdr b :
  preserves (payload_frame b) (rm_hwmon_keyboard_set_brightness E hdr).
Proof.
  intros st Hb. pose proof (rm_hwmon_keyboard_set_brightness_spec E hdr st) as Hs.
  cbn zeta in Hs. destruct (alloc_write_buffer_result E (trace st) _) as [buf|].
  - destruct Hs as (req & ret & Hp & ->). split; [done|].
    eexists. split; [reflexivity|].
    apply Forall_cons. split; [intros id req' len ret' [=]|].
    apply Forall_cons. split; [|constructor].
    intros id req' len ret' [= _ <- _ _]. by subst.
  - rewrite Hs. split; [done|]. eexists. split; [reflexivity|].
    apply Forall_cons. split; [intros id req' len ret' [=]|constructor].
Qed.

Lemma keeps_nw_session {A} (c : M A) :
  preserves (run_keeps session_fields no_attribute_write) c →
  preserves (run_keeps bl_brightness no_attribute_write) c.
Proof.
  intros H st. eapply run_keeps_mono; [| |apply H]; [|done].
  unfold session_fields. intros p p' [= ? ? ? ? ? ? ?]. congruence.
Qed.

Lemma keeps_nw_read_attributes (E : Env) ids :
  preserves (run_keeps bl_brightness no_attribute_write)
    (rm_hwmon_api_read_attributes E ids).
Proof. by apply keeps_nw_session, keeps_rm_hwmon_api_read_attributes. Qed.

Lemma keeps_nw_load_and_check (E : Env) nm :
  preserves (run_keeps bl_brightness no_attribute_write)
    (rm_hwmon_fwu_load_and_check_for_upgrade E nm).
Proof. by apply keeps_nw_session, keeps_rm_hwmon_fwu_load_and_check_for_upgrade. Qed.

Lemma keeps_nw_make_input_dev (E : Env) :
  preserves (run_keeps bl_brightness no_attribute_write)
    (rm_hwmon_keyboard_make_input_dev E).
Proof.
  intros st.
  destruct (rm_hwmon_keyboard_make_input_dev_cases E st)
    as [->|[(d & ret & _ & ->)|(d & ret & ->)]];
    (split; [done|]; split; [done|]; eexists; split; [done|]; by repeat constructor).
Qed.

Lemma keeps_nw_update_fwu (E : Env) :
  preserves (run_keeps bl_brightness no_attribute_write) (rm_hwmon_keyboard_update_fwu E).
Proof.
  apply keeps_nw_session. intros st.
  eapply run_keeps_mono; [| |apply keeps_rm_hwmon_keyboard_update_fwu]; [done|].
  by intros [].
Qed.

#[local] Hint Resolve keeps_nw_read_attributes keeps_nw_load_and_check
  keeps_nw_make_input_dev keeps_nw_update_fwu : keeps.

Ltac payload :=
  repeat first
    [ apply payload_set_brightness
    | apply payload_preserves_keeps; solve [keeps]
    | apply preserves_bind; [apply _..| |intros ?]
    | progress cbv zeta
    | match goal with
      | |- preserves _ (if ?b then _ else _) => destruct b
      | |- preserves _ (match ?x with _ => _ end) => destruct x
      end ].

Lemma payload_register (E : Env) hdr b :
  preserves (payload_frame b) (rm_hwmon_keyboard_register E hdr).
Proof.
  unfold rm_hwmon_keyboard_register, register_check_fwu, register_after_fwu,
    register_finish, rm_hwmon_keyboard_read_init_attributes, mutex_lock,
    rm_hwmon_keyboard_unregister, kb_fail_register, unlock_mutex, mutex_unlock,
    modify_dev, input_unregister_device, rm_hwmon_api_write_cmd,
    rm_hwmon_fwu_release_firmware.
  payload.
Qed.

(** The attributes a connect sequence writes. *)
Lemma rm_hwmon_keyboard_register_payload (E : Env) hdr st :
  let r := rm_hwmon_keyboard_register E hdr st in
  bl_brightness (pd r.2) = bl_brightness (pd st)
  ∧ Forall (λ e, ∀ id req len ret,
              e = EvWriteAttribute id req len ret →
              id = KB_ATTR_ID_BKL_BRIGHTNESS
              ∧ brightness_payload (bl_brightness (pd st)) req)
      (events_since st r.2).
Proof.
  cbn zeta.
  destruct (payload_register E hdr (bl_brightness (pd st)) st eq_refl)
    as (Hb & evs & He & Hf).
  destruct (keeps_user_register E hdr st) as (_ & _ & evs' & He' & Hf').
  assert (evs' = evs) as -> by (rewrite He in He'; by apply app_inv_head in He').
  split; [done|]. rewrite (events_since_app _ _ _ He).
  apply Forall_forall. intros e Hin id req len ret ->.
  split.
  - pose proof (proj1 (Forall_forall _ _) Hf' _ Hin) as Hc. cbn in Hc.
    by apply bool_decide_eq_true in Hc.
  - by eapply (proj1 (Forall_forall _ _) Hf _ Hin).
Qed.

(** X12: every attribute a connect sequence writes is the brightness
    attribute, with the payload for the brightness that was stored when the
    sequence began: six elements of eight bits, each that brightness cut to
    a byte.  The stored brightness is not changed. *)
Theorem rm_hwmon_keyboard_register_writes_brightness (E : Env) (hdr : Z) (st : state) :
  let r := rm_hwmon_keyboard_register E hdr st in
  bl_brightness (pd r.2) = bl_brightness (pd st)
  ∧ Forall (λ e, ∀ id req len ret,
              e = EvWriteAttribute id req len ret →
              id = KB_ATTR_ID_BKL_BRIGHTNESS
              ∧ brightness_payload (bl_brightness (pd st)) req)
      (events_since st r.2).
Proof. apply rm_hwmon_keyboard_register_payload. Qed.


(** *** Key events of a session *)








(** *** Indicator events *)

(** X16: the LED handler never writes to the accessory itself: whatever
    the event, the only calls it makes are the allocation of the one-byte
    write buffer and the request to schedule the writer work, and it
    leaves the heap, the slumber flag, the input device, the lock, the
    connect work and the stored brightness alone.  An event that is not an
    LED event, or is for an LED other than the caps and the rM one, is
    answered with -1 and changes nothing at all. *)
Theorem rm_hwmon_kb_event_calls (E : Env) (type code value : Z) (st : state) :
  let r := rm_hwmon_kb_event E type code value st in
  Forall (λ e, led_call e = true) (events_since st r.2)
  ∧ (length (events_since st r.2) ≤ 2)%nat
  ∧ heap r.2 = heap st
  ∧ next_suspend_is_slumber r.2 = next_suspend_is_slumber st
  ∧ kb_dev (pd r.2) = kb_dev (pd st)
  ∧ kb_connect_lock (pd r.2) = kb_connect_lock (pd st)
  ∧ kb_connect_work (pd r.2) = kb_connect_work (pd st)
  ∧ bl_brightness (pd r.2) = bl_brightness (pd st)
  ∧ (type ≠ EV_LED ∨ led_attribute code = None → r = (-1, st)).
Proof.
  cbn zeta. destruct (decide (type = EV_LED)) as [->|Ht].
  2: { unfold rm_hwmon_kb_event. rewrite decide_True by done. cbn.
       rewrite events_since_refl. repeat split; try done; cbn; lia. }
  rewrite rm_hwmon_kb_event_led.
  destruct (led_attribute code) as [attr|] eqn:Ha.
  2: { cbn. rewrite events_since_refl. repeat split; try done; cbn; lia. }
  destruct (decide (is_Some (request (attr_writer (pd st))))).
  { cbn. rewrite events_since_same_trace by done.
    repeat split; try done; try (cbn; lia). intros [H|H]; [by destruct H|done]. }
  destruct (bool_decide (value = 0) && next_suspend_is_slumber st).
  { cbn. rewrite events_since_same_trace by done.
    repeat split; try done; try (cbn; lia). intros [H|H]; [by destruct H|done]. }
  destruct (alloc_write_buffer_result E (trace st) 1) as [req|].
  - destruct (pending (worker (attr_writer (pd st)))).
    + cbn. rewrite (events_since_app st _ [_; _]) by done.
      repeat split; try done; try (cbn; lia).
      * by repeat constructor.
      * intros [H|H]; [by destruct H|done].
    + unfold submitted. cbn [fst snd]. rewrite (events_since_app st _ [_; _]) by done.
      repeat split; try (cbn; lia); try (by destruct (decide (code = LED_CAPSL))).
      * by repeat constructor.
      * intros [H|H]; [by destruct H|done].
  - cbn. rewrite (events_since_app st _ [_]) by done.
    repeat split; try done; try (cbn; lia).
    * by repeat constructor.
    * intros [H|H]; [by destruct H|done].
Qed.

(** X17: the attribute id of the writer slot is set before the slot is found
    busy.  So when an indicator event is accepted and, before the writer
    work has run, an event for the other indicator arrives, the second
    event is refused as busy and yet redirects the write of the first: the
    writer work sends the value of the first event to the attribute of the
    second, and the cached indicator states are those the first event
    left. *)
Theorem rm_hwmon_kb_event_busy_redirects (E : Env) (hdr : Z)
    (code1 value1 code2 value2 attr2 : Z) (st : state) :
  led_attribute code2 = Some attr2 →
  let r1 := rm_hwmon_kb_event E EV_LED code1 value1 st in
  let r2 := rm_hwmon_kb_event E EV_LED code2 value2 r1.2 in
  let s3 := (run_work E hdr AttrWriterWork r2.2).2 in
  r1.1 = 0 → is_Some (request (attr_writer (pd r1.2))) →
  r2.1 = - EBUSY
  ∧ (∃ req ret,
       events_since r2.2 s3 = [EvWriteAttribute attr2 req 1 ret]
       ∧ tx_u8_data req = u8 value1)
  ∧ caps_key_light (pd s3) = caps_key_light (pd r1.2)
  ∧ rm_key_light (pd s3) = rm_key_light (pd r1.2).
Proof.
  intros Ha2 r1 r2 s3. subst s3 r2 r1.
  rewrite (rm_hwmon_kb_event_led E code1).
  destruct (led_attribute code1) as [attr1|]; [|done].
  destruct (decide (is_Some (request (attr_writer (pd st))))) as [|Hfree]; [done|].
  destruct (bool_decide (value1 = 0) && next_suspend_is_slumber st).
  { cbn. intros _ Hr. by destruct Hfree. }
  destruct (alloc_write_buffer_result E (trace st) 1) as [req|]; [|done].
  destruct (pending (worker (attr_writer (pd st)))); [done|].
  cbn [fst snd]. intros _ _.
  set (s1 := submitted code1 value1 req attr1 st).
  set (req1 := {| tx_u8_data := u8 value1; tx_subtype := tx_subtype req;
                  tx_n_len := tx_n_len req; tx_array_data := tx_array_data req |}).
  assert (Hr1 : request (attr_writer (pd s1)) = Some req1)
    by (unfold s1, submitted; cbn; by destruct (decide (code1 = LED_CAPSL))).
  rewrite (rm_hwmon_kb_event_led E code2), Ha2.
  rewrite decide_True by (rewrite Hr1; by eexists).
  cbn [fst snd]. split; [done|].
  destruct (run_attribute_writer E hdr (with_attribute attr2 s1) req1)
    as (_ & _ & _ & Hev); [exact Hr1|].
  split.
  - eexists req1, _. split; [|done]. rewrite Hev. cbn [with_attribute].
    f_equal. cbn. f_equal.
    unfold s1, submitted. cbn. by destruct (decide (code1 = LED_CAPSL)).
  - unfold run_work, rm_hwmon_keyboard_attribute_writer, rm_hwmon_api_write_attribute.
    run. rewrite Hr1. done.
Qed.

Lemma rm_hwmon_kb_event_busy_redirects_witness :
  let r1 := rm_hwmon_kb_event env_ok EV_LED LED_CAPSL 1 state_probe in
  let r2 := rm_hwmon_kb_event env_ok EV_LED LED_MISC 0 r1.2 in
  let s3 := (run_work env_ok 2 AttrWriterWork r2.2).2 in
  r2.1 = - EBUSY
  ∧ (∃ req ret,
       events_since r2.2 s3 = [EvWriteAttribute KB_ATTR_ID_KEY_LIGHT_RM req 1 ret]
       ∧ tx_u8_data req = 1)
  ∧ caps_key_light (pd s3) = true ∧ rm_key_light (pd s3) = false.
Proof.
  destruct (rm_hwmon_kb_event_busy_redirects env_ok 2 LED_CAPSL 1 LED_MISC 0
              KB_ATTR_ID_KEY_LIGHT_RM state_probe eq_refl eq_refl
              ltac:(vm_compute; by eexists)) as (H1 & H2 & H3 & H4).
  split; [exact H1|]. split; [exact H2|]. split; [by rewrite H3|by rewrite H4].
Defined.

(** X18: the writer work empties the slot whatever the write returns, and
    writes at most once: with no request in the slot it makes no call, and
    a second run right after a run makes no call either.  It leaves the
    cached indicator states and the input device alone. *)
Theorem rm_hwmon_keyboard_attribute_writer_once (E : Env) (hdr : Z) (st : state) :
  let s1 := (run_work E hdr AttrWriterWork st).2 in
  let s2 := (run_work E hdr AttrWriterWork s1).2 in
  request (attr_writer (pd s1)) = None
  ∧ pending (worker (attr_writer (pd s1))) = false
  ∧ (length (events_since st s1) ≤ 1)%nat
  ∧ (request (attr_writer (pd st)) = None → events_since st s1 = [])
  ∧ events_since s1 s2 = []
  ∧ kb_dev (pd s1) = kb_dev (pd st)
  ∧ caps_key_light (pd s1) = caps_key_light (pd st)
  ∧ rm_key_light (pd s1) = rm_key_light (pd st).
Proof.
  cbn zeta.
  assert (Hrun : ∀ s, request (attr_writer (pd s)) = None →
            events_since s (run_work E hdr AttrWriterWork s).2 = []).
  { intros s Hs. unfold run_work, rm_hwmon_keyboard_attribute_writer. run.
    rewrite Hs. cbn. by apply events_since_same_trace. }
  assert (H1 : request (attr_writer (pd (run_work E hdr AttrWriterWork st).2)) = None).
  { unfold run_work, rm_hwmon_keyboard_attribute_writer, rm_hwmon_api_write_attribute.
    run. destruct (request (attr_writer (pd st))) eqn:Hq; cbn; rewrite ?Hq; reflexivity. }
  split; [done|]. split; [|split; [|split; [by apply Hrun|split; [by apply Hrun|]]]].
  - unfold run_work, rm_hwmon_keyboard_attribute_writer, rm_hwmon_api_write_attribute.
    run. destruct (request (attr_writer (pd st))) eqn:Hq; cbn; rewrite ?Hq; reflexivity.
  - destruct (request (attr_writer (pd st))) as [req|] eqn:Hr.
    + destruct (run_attribute_writer E hdr st req Hr) as (_ & _ & _ & ->). cbn. lia.
    + rewrite Hrun by done. cbn. lia.
  - unfold run_work, rm_hwmon_keyboard_attribute_writer, rm_hwmon_api_write_attribute.
    run. destruct (request (attr_writer (pd st))) eqn:Hq; cbn; by repeat split.
Qed.

(** *** The endpoint callback *)

(** X19: the reply to an authorize request completes the pending request of
    the transport, and makes no other call and no change to the driver
    data; the status it completes with, which is also returned, is 0
    exactly when the packet is one byte long and that byte is the success
    code, and [-EACCES] otherwise. *)
Theorem rm_hwmon_keyboard_hsp_event_authorize (hsp_success : Z) (packet : hsp_packet)
    (st : state) :
  command packet = HSP_CMD_ACCS_AUTHORIZE_REQUEST →
  let r := rm_hwmon_keyboard_hsp_event hsp_success packet st in
  events_since st r.2 = [EvReqComplete r.1]
  ∧ pd r.2 = pd st ∧ heap r.2 = heap st
  ∧ (r.1 = 0 ↔ pkt_length packet = 1 ∧ data packet !! 0%nat = Some hsp_success)
  ∧ (r.1 ≠ 0 → r.1 = - EACCES).
Proof.
  intros Hc. unfold rm_hwmon_keyboard_hsp_event, rm_hwmon_api_req_complete. rewrite Hc.
  run. split; [by apply events_since_app|]. split; [done|]. split; [done|].
  destruct (bool_decide (pkt_length packet = 1)) eqn:H1;
    [apply bool_decide_eq_true in H1|apply bool_decide_eq_false in H1];
    (destruct (bool_decide (data packet !! 0%nat = Some hsp_success)) eqn:H2;
     [apply bool_decide_eq_true in H2|apply bool_decide_eq_false in H2]);
    cbn; (split; [split; [try done; intros _; try done|intros [? ?]; done]|done]).
Qed.

Lemma rm_hwmon_keyboard_hsp_event_authorize_witness :
  let r := rm_hwmon_keyboard_hsp_event 0
             {| command := HSP_CMD_ACCS_AUTHORIZE_REQUEST; pkt_length := 2;
                data := [0; 0] |} state_probe in
  r.1 = - EACCES ∧ events_since state_probe r.2 = [EvReqComplete (- EACCES)].
Proof.
  destruct (rm_hwmon_keyboard_hsp_event_authorize 0
              {| command := HSP_CMD_ACCS_AUTHORIZE_REQUEST; pkt_length := 2;
                 data := [0; 0] |} state_probe eq_refl) as (H1 & _ & _ & _ & H2).
  cbn zeta in *. rewrite H1. split; [|f_equal; f_equal]; by apply H2.
Defined.

(** *** The states the driver reaches *)



(** X21: in every state the driver reaches, [schedule_work] never refuses
    the writer work to the LED handler: an event for the caps or the rM LED
    is answered with 0, [-EBUSY] or [-ENOMEM], and the status -1 of the
    refused work, after which the buffer would be freed, does not occur. *)
Theorem rm_hwmon_kb_event_outcomes (E : Env) (hdr hsp_success : Z)
    (cs : list driver_call) (st0 : state) (code value : Z) :
  driver_inv st0 →
  is_Some (led_attribute code) →
  let st := (driver_run E hdr hsp_success cs st0).2 in
  let r := rm_hwmon_kb_event E EV_LED code value st in
  (r.1 = 0 ∨ r.1 = - EBUSY ∨ r.1 = - ENOMEM)
  ∧ EvScheduleWork AttrWriterWork false ∉ events_since st r.2.
Proof.
  intros Hi [attr Ha] st.
  pose proof (driver_run_inv E hdr hsp_success cs st0 Hi) as [_ _ Hw]. fold st in Hw.
  clearbody st. cbn zeta. rewrite rm_hwmon_kb_event_led, Ha.
  destruct (decide (is_Some (request (attr_writer (pd st))))) as [|Hfree].
  { cbn. rewrite events_since_same_trace by done. split; [auto|]. by intros ?%elem_of_nil. }
  destruct (bool_decide (value = 0) && next_suspend_is_slumber st).
  { cbn. rewrite events_since_same_trace by done. split; [auto|]. by intros ?%elem_of_nil. }
  destruct (alloc_write_buffer_result E (trace st) 1) as [req|].
  - destruct (pending (worker (attr_writer (pd st)))) eqn:Hp.
    + destruct Hfree. by apply Hw.
    + unfold submitted. cbn [fst snd]. rewrite (events_since_app st _ [_; _]) by done.
      split; [auto|]. intros Hin. apply list_elem_of_In in Hin. cbn in Hin.
      destruct Hin as [|[|]]; done.
  - cbn. rewrite (events_since_app st _ [_]) by done.
    split; [auto|]. intros Hin. apply list_elem_of_In in Hin. cbn in Hin.
    destruct Hin as [|]; done.
Qed.

Lemma rm_hwmon_kb_event_outcomes_witness :
  let st := (driver_run env_ok 2 0 [CallRunWork KbConnectWork; CallLedEvent true LED_MISC 1]
               state_probe).2 in
  (rm_hwmon_kb_event env_ok EV_LED LED_CAPSL 1 st).1 = - EBUSY.
Proof.
  destruct (rm_hwmon_kb_event_outcomes env_ok 2 0
              [CallRunWork KbConnectWork; CallLedEvent true LED_MISC 1] state_probe
              LED_CAPSL 1 driver_inv_probe ltac:(by eexists)) as [_ _].
  reflexivity.
Defined.

(** *** The status files *)

(** X22: while no input device is registered, each of the five status reads
    returns [-ENODEV] and leaves the buffer as it is; the two that would ask
    the accessory do not. *)
Theorem status_reads_unregistered (E : Env) (st : state) (buf : string) :
  kb_dev (pd st) = None →
  firmware_show (pd st) buf = (- ENODEV, buf)
  ∧ rm_serial_show st buf = (- ENODEV, buf)
  ∧ cn_serial_show E buf st = ((- ENODEV, buf), st)
  ∧ prod_records_show E buf st = ((- ENODEV, buf), st)
  ∧ language_show (pd st) buf = (- ENODEV, buf).
Proof.
  intros Hd. unfold firmware_show, rm_serial_show, cn_serial_show, prod_records_show,
    language_show. run.
  rewrite !decide_True by auto. done.
Qed.

Lemma status_reads_unregistered_witness :
  cn_serial_show env_ok "" state_probe = ((- ENODEV, ""), state_probe)
  ∧ prod_records_show env_ok "" state_probe = ((- ENODEV, ""), state_probe).
Proof.
  destruct (status_reads_unregistered env_ok state_probe "" eq_refl)
    as (_ & _ & H1 & H2 & _).
  auto.
Defined.

Lemma rm_hwmon_api_read_attribute_spec (E : Env) id st :
  ∃ ks, krealloc_only ks
        ∧ trace (rm_hwmon_api_read_attribute E id st).2
          = trace st ++ ks ++ [EvReadAttributes [id] (rm_hwmon_api_read_attribute E id st).1]
        ∧ session_fields (pd (rm_hwmon_api_read_attribute E id st).2)
          = session_fields (pd st).
Proof.
  unfold rm_hwmon_api_read_attribute.
  destruct (rm_hwmon_api_read_attributes_spec E [id] st)
    as (ret & st1 & -> & [H1 H2 H3 H4 H5 H6 H7 _ (ks & Hks & ?)]).
  exists ks. split; [done|]. cbn. split; [by rewrite Hks, app_assoc|].
  unfold session_fields. congruence.
Qed.

(** X23: with an input device registered, the read of the CN serial number
    and the read of the production records ask the accessory for their one
    attribute first, decoding the response through the attribute table.
    When that read fails, its status is returned and the buffer is left as
    it is; when it succeeds, the text is the value as it is stored after
    the decode, followed by a newline, and its length is returned. *)
Theorem status_reads_ask_accessory (E : Env) (st : state) (buf : string) :
  is_Some (kb_dev (pd st)) →
  let r := cn_serial_show E buf st in
  let r' := prod_records_show E buf st in
  (∃ ks ret,
     krealloc_only ks
     ∧ events_since st r.2 = ks ++ [EvReadAttributes [KB_ATTR_ID_CN_SERIAL_NUMBER] ret]
     ∧ r.1 = if decide (ret ≠ 0) then (ret, buf)
             else sprintf_result
                    (print_s (heap r.2) (cn_serial_number (pd r.2)) +:+ newline))
  ∧ (∃ ks ret,
       krealloc_only ks
       ∧ events_since st r'.2 = ks ++ [EvReadAttributes [KB_ATTR_ID_MFG_PROD_RECORDS] ret]
       ∧ r'.1 = if decide (ret ≠ 0) then (ret, buf)
                else sprintf_result
                       (print_x (u8 (mfg_prod_records (pd r'.2))) +:+ newline)).
Proof.
  intros [d Hd]. cbn zeta. split.
  - unfold cn_serial_show. run. rewrite decide_False by (by rewrite Hd).
    destruct (rm_hwmon_api_read_attribute_spec E KB_ATTR_ID_CN_SERIAL_NUMBER st)
      as (ks & Hks & Ht & _).
    destruct (rm_hwmon_api_read_attribute E KB_ATTR_ID_CN_SERIAL_NUMBER st) as [ret s1].
    cbn in *. exists ks, ret. split; [done|].
    destruct (decide (ret ≠ 0)); cbn; (split; [by apply events_since_app|done]).
  - unfold prod_records_show. run. rewrite decide_False by (by rewrite Hd).
    destruct (rm_hwmon_api_read_attribute_spec E KB_ATTR_ID_MFG_PROD_RECORDS st)
      as (ks & Hks & Ht & _).
    destruct (rm_hwmon_api_read_attribute E KB_ATTR_ID_MFG_PROD_RECORDS st) as [ret s1].
    cbn in *. exists ks, ret. split; [done|].
    destruct (decide (ret ≠ 0)); cbn; (split; [by apply events_since_app|done]).
Qed.

Lemma status_reads_ask_accessory_witness :
  let r := cn_serial_show env_ok "" state_active in
  ∃ ks ret,
    krealloc_only ks
    ∧ events_since state_active r.2
      = ks ++ [EvReadAttributes [KB_ATTR_ID_CN_SERIAL_NUMBER] ret]
    ∧ r.1 = if decide (ret ≠ 0) then (ret, "")
            else sprintf_result
                   (print_s (heap r.2) (cn_serial_number (pd r.2)) +:+ newline).
Proof.
  apply (status_reads_ask_accessory env_ok state_active "").
  vm_compute. by eexists.
Defined.

Lemma string_length_app (s t : string) :
  String.length (s +:+ t) = (String.length s + String.length t)%nat.
Proof.
  induction s as [|c s IH]; [done|].
  change (String c s +:+ t) with (String c (s +:+ t)).
  cbn [String.length]. by rewrite IH.
Qed.

Lemma string_of_bytes_length l : String.length (string_of_bytes l) = length l.
Proof. induction l as [|b l IH]; [done|]. cbn. by rewrite IH. Qed.

(** [%s] prints a block up to its first zero byte. *)
Lemma c_string_terminated l rest :
  Forall (λ b, u8 b ≠ 0) l → c_string (l ++ 0 :: rest) = string_of_bytes l.
Proof.
  induction 1 as [|b l Hb _ IH]; cbn.
  - by rewrite decide_True.
  - rewrite decide_False by done. by rewrite IH.
Qed.

(** X24: the serial number that was decoded is the serial number that is
    shown.  After a serial-number response without a zero byte is decoded
    while an input device is registered, the read of the rM serial number
    gives the bytes of the response as text, followed by a newline, and
    returns the length of the response plus one. *)
Theorem rm_serial_show_decoded (E : Env) (attr_res : attribute_rx) (st : state)
    (a : N) (buf : string) :
  rx_id attr_res = KB_ATTR_ID_RM_SERIAL_NUMBER →
  is_Some (kb_dev (pd st)) →
  krealloc_result E (trace st) (rm_serial_number (pd st)) (str_len (octets attr_res) + 1)
    = Some a →
  Forall (λ b, u8 b ≠ 0) (str (octets attr_res)) →
  let r := reader_octet_attribute E attr_res st in
  rm_serial_show r.2 buf
  = (str_len (octets attr_res) + 1,
     string_of_bytes (str (octets attr_res)) +:+ newline).
Proof.
  intros Hid [d Hd] Hk Hnz.
  assert (Hs : octet_attribute_of (rx_id attr_res) = Some SlotRmSerialNumber)
    by (by rewrite Hid).
  destruct (reader_octet_attribute_success E attr_res SlotRmSerialNumber st a Hs Hk)
    as (_ & Hp & Hh).
  pose proof (decode_frame_reader_octet_attribute E attr_res st) as [Hdev _ _ _ _ _ _ _ _].
  cbn zeta. cbn [slot_get] in Hp.
  unfold rm_serial_show. rewrite decide_False.
  2: { rewrite Hdev, Hd, Hp. by intros [|]. }
  unfold sprintf_result, print_s. rewrite Hp, Hh. cbn [default from_option id].
  unfold id.
  rewrite c_string_terminated by done.
  rewrite string_length_app, string_of_bytes_length. unfold str_len. cbn.
  f_equal. lia.
Qed.

Lemma rm_serial_show_decoded_witness :
  rm_serial_show (reader_octet_attribute env_ok rx_rm_serial state_serial).2 ""
  = (7, "S12345" +:+ newline).
Proof.
  apply (rm_serial_show_decoded env_ok rx_rm_serial state_serial 1%N "" eq_refl).
  - by eexists.
  - reflexivity.
  - repeat constructor; by vm_compute.
Defined.

(** *** An indicator event from the handler to the accessory *)

(** An indicator event that finds the slot free, is not a suppressed off
    transition and gets its buffer, followed by a run of the writer work. *)
Lemma rm_hwmon_kb_event_then_writer (E : Env) hdr code value attr st :
  led_attribute code = Some attr →
  request (attr_writer (pd st)) = None →
  pending (worker (attr_writer (pd st))) = false →
  bool_decide (value = 0) && next_suspend_is_slumber st = false →
  is_Some (alloc_write_buffer_result E (trace st) 1) →
  let r := rm_hwmon_kb_event E EV_LED code value st in
  let s' := (run_work E hdr AttrWriterWork r.2).2 in
  r.1 = 0
  ∧ (∃ req ret,
       events_since st s'
       = [EvAllocWriteBuffer 1 true; EvScheduleWork AttrWriterWork true;
          EvWriteAttribute attr req 1 ret]
       ∧ tx_u8_data req = u8 value)
  ∧ request (attr_writer (pd s')) = None
  ∧ pending (worker (attr_writer (pd s'))) = false
  ∧ next_suspend_is_slumber s' = next_suspend_is_slumber st
  ∧ kb_dev (pd s') = kb_dev (pd st)
  ∧ kb_row_shift (pd s') = kb_row_shift (pd st)
  ∧ rm_key_on_after_resume (pd s') = rm_key_on_after_resume (pd st)
  ∧ caps_key_light (pd s')
    = (if decide (code = LED_CAPSL) then bool_decide (value ≠ 0)
       else caps_key_light (pd st))
  ∧ rm_key_light (pd s')
    = (if decide (code = LED_CAPSL) then rm_key_light (pd st)
       else bool_decide (value ≠ 0)).
Proof.
  intros Ha Hfree Hpend Hsl [buf Hbuf]. cbn zeta.
  rewrite rm_hwmon_kb_event_led, Ha.
  rewrite decide_False by (rewrite Hfree; by intros [? ?]).
  rewrite Hsl, Hbuf, Hpend. cbn [fst snd].
  set (s1 := submitted code value buf attr st).
  set (req := {| tx_u8_data := u8 value; tx_subtype := tx_subtype buf;
                 tx_n_len := tx_n_len buf; tx_array_data := tx_array_data buf |}).
  assert (Hr1 : request (attr_writer (pd s1)) = Some req)
    by (unfold s1, submitted; cbn; by destruct (decide (code = LED_CAPSL))).
  assert (Ht1 : trace s1 = trace st ++ [EvAllocWriteBuffer 1 true;
                                        EvScheduleWork AttrWriterWork true]) by done.
  assert (Hw1 : attribute (attr_writer (pd s1)) = attr
                ∧ data_length (attr_writer (pd s1)) = 1)
    by (unfold s1, submitted; cbn; by destruct (decide (code = LED_CAPSL))).
  destruct Hw1 as [Hat Hlen].
  destruct (run_attribute_writer E hdr s1 req Hr1) as (Hq & Hp & Hsl' & Hev).
  rewrite Hat, Hlen in Hev.
  split; [done|]. split.
  { eexists req, _. split; [|done].
    apply events_since_app. apply (f_equal (λ l, trace s1 ++ l)) in Hev.
    unfold events_since in Hev at 1.
    assert (Hg : ∃ evs, trace (run_work E hdr AttrWriterWork s1).2 = trace s1 ++ evs).
    { unfold run_work, rm_hwmon_keyboard_attribute_writer, rm_hwmon_api_write_attribute.
      run. rewrite Hr1. by eexists. }
    destruct Hg as [evs Hg]. rewrite Hg, drop_app_length in Hev.
    rewrite Hg, Hev, Ht1, <- app_assoc. done. }
  split; [done|]. split; [done|]. split; [done|].
  unfold run_work, rm_hwmon_keyboard_attribute_writer, rm_hwmon_api_write_attribute.
  run. rewrite Hr1. unfold s1, submitted. cbn.
  destruct (decide (code = LED_CAPSL)); by cbn.
Qed.

(** X26: an indicator event reaches the accessory.  When the writer slot is
    free and the writer work is not pending, the event is not an off
    transition with a slumber ahead, and the write buffer is allocated,
    the handler returns 0 and the next run of the writer work writes one
    byte, the value of the event cut to a byte, to the attribute of the
    event's LED (caps or rM); these are the only calls.  Afterwards the slot
    is free again, and the cached state of that LED tells whether the value
    was non-zero, the cached state of the other LED being as before. *)
Theorem rm_hwmon_kb_event_written (E : Env) (hdr code value attr : Z) (st : state) :
  led_attribute code = Some attr →
  request (attr_writer (pd st)) = None →
  pending (worker (attr_writer (pd st))) = false →
  ¬ (value = 0 ∧ next_suspend_is_slumber st = true) →
  is_Some (alloc_write_buffer_result E (trace st) 1) →
  let r := rm_hwmon_kb_event E EV_LED code value st in
  let s' := (run_work E hdr AttrWriterWork r.2).2 in
  r.1 = 0
  ∧ (∃ req ret,
       events_since st s'
       = [EvAllocWriteBuffer 1 true; EvScheduleWork AttrWriterWork true;
          EvWriteAttribute attr req 1 ret]
       ∧ tx_u8_data req = u8 value)
  ∧ request (attr_writer (pd s')) = None
  ∧ caps_key_light (pd s')
    = (if decide (code = LED_CAPSL) then bool_decide (value ≠ 0)
       else caps_key_light (pd st))
  ∧ rm_key_light (pd s')
    = (if decide (code = LED_CAPSL) then rm_key_light (pd st)
       else bool_decide (value ≠ 0)).
Proof.
  intros Ha Hfree Hpend Hsl Hbuf.
  assert (Hsl' : bool_decide (value = 0) && next_suspend_is_slumber st = false).
  { destruct (bool_decide (value = 0)) eqn:Hv; [|done].
    apply bool_decide_eq_true in Hv.
    destruct (next_suspend_is_slumber st); [|done]. by destruct Hsl. }
  destruct (rm_hwmon_kb_event_then_writer E hdr code value attr st Ha Hfree Hpend Hsl' Hbuf)
    as (H1 & H2 & H3 & _ & _ & _ & _ & _ & H4 & H5).
  done.
Qed.

Lemma rm_hwmon_kb_event_written_witness :
  let r := rm_hwmon_kb_event env_ok EV_LED LED_CAPSL 257 state_slumber in
  let s' := (run_work env_ok 2 AttrWriterWork r.2).2 in
  (∃ req ret,
     events_since state_slumber s'
     = [EvAllocWriteBuffer 1 true; EvScheduleWork AttrWriterWork true;
        EvWriteAttribute KB_ATTR_ID_KEY_LIGHT_CAPS req 1 ret]
     ∧ tx_u8_data req = 1)
  ∧ caps_key_light (pd s') = true.
Proof.
  destruct (rm_hwmon_kb_event_written env_ok 2 LED_CAPSL 257
              KB_ATTR_ID_KEY_LIGHT_CAPS state_slumber eq_refl eq_refl eq_refl
              ltac:(by intros [? _]) ltac:(by eexists)) as (_ & H1 & _ & H2 & _).
  split; [exact H1|]. cbn zeta. by rewrite H2.
Defined.

(** *** Suspend and resume *)

(** [input_event] for the rM LED of a device as
    [rm_hwmon_keyboard_make_input_dev] registers it. *)
Lemma input_event_led_misc (E : Env) value st d :
  kb_dev (pd st) = Some d → registered_surface (pd st) d →
  input_event E true EV_LED LED_MISC value st
  = (tt, (rm_hwmon_kb_event E EV_LED LED_MISC value st).2).
Proof.
  intros Hd [_ _ _ _ Hled Hev _ _ Hcb _]. unfold input_event. run.
  rewrite Hd, Hev, Hled, Hcb. cbn.
  by destruct (rm_hwmon_kb_event E EV_LED LED_MISC value st).
Qed.

(** The writer work does not look at the resume flag. *)
Lemma run_work_writer_resume_flag (E : Env) hdr v s :
  (run_work E hdr AttrWriterWork (set_pd (set_rm_key_on_after_resume v (pd s)) s)).2
  = set_pd (set_rm_key_on_after_resume v (pd (run_work E hdr AttrWriterWork s).2))
      (run_work E hdr AttrWriterWork s).2.
Proof.
  unfold run_work, rm_hwmon_keyboard_attribute_writer, rm_hwmon_api_write_attribute.
  run. by destruct (request (attr_writer (pd s))).
Qed.

(** The suspend hook of a registered session whose rM light is on. *)
Lemma rm_hwmon_kb_led_save_registered (E : Env) st d :
  kb_dev (pd st) = Some d → registered_surface (pd st) d →
  rm_key_light (pd st) = true →
  (rm_hwmon_kb_led_save E true st).2
  = (rm_hwmon_kb_event E EV_LED LED_MISC 0
       (set_pd (set_rm_key_on_after_resume true (pd st)) st)).2.
Proof.
  intros Hd Hs Hlight. unfold rm_hwmon_kb_led_save. run. rewrite Hd, Hlight.
  rewrite bool_decide_eq_true_2 by eauto. cbn.
  rewrite (input_event_led_misc E 0 _ d); [reflexivity|exact Hd|].
  eapply registered_surface_row_shift; [|exact Hs]. reflexivity.
Qed.

(** The resume hook of a registered session whose resume flag is set. *)
Lemma rm_hwmon_kb_led_load_registered (E : Env) st d :
  kb_dev (pd st) = Some d → registered_surface (pd st) d →
  rm_key_on_after_resume (pd st) = true →
  (rm_hwmon_kb_led_load E true st).2
  = set_pd (set_rm_key_on_after_resume false
              (pd (rm_hwmon_kb_event E EV_LED LED_MISC 1 st).2))
      (rm_hwmon_kb_event E EV_LED LED_MISC 1 st).2.
Proof.
  intros Hd Hs Hflag. unfold rm_hwmon_kb_led_load. run. rewrite Hd, Hflag.
  rewrite bool_decide_eq_true_2 by eauto. cbn.
  by rewrite (input_event_led_misc E 1 _ d Hd Hs).
Qed.

(** The request to switch the rM light off, then a run of the writer work:
    dropped when a slumber is ahead, written otherwise. *)
Lemma rm_hwmon_kb_event_off_then_writer (E : Env) hdr st :
  request (attr_writer (pd st)) = None →
  pending (worker (attr_writer (pd st))) = false →
  is_Some (alloc_write_buffer_result E (trace st) 1) →
  ∃ s1 s2,
    (rm_hwmon_kb_event E EV_LED LED_MISC 0 st).2 = s1
    ∧ (run_work E hdr AttrWriterWork s1).2 = s2
    ∧ rm_key_on_after_resume (pd s1) = rm_key_on_after_resume (pd st)
    ∧ rm_key_light (pd s2)
      = (if next_suspend_is_slumber st then rm_key_light (pd st) else false)
    ∧ omap attribute_write (events_since st s2)
      = (if next_suspend_is_slumber st then [] else [(KB_ATTR_ID_KEY_LIGHT_RM, 0)])
    ∧ request (attr_writer (pd s2)) = None
    ∧ pending (worker (attr_writer (pd s2))) = false
    ∧ kb_dev (pd s2) = kb_dev (pd st)
    ∧ kb_row_shift (pd s2) = kb_row_shift (pd st)
    ∧ rm_key_on_after_resume (pd s2) = rm_key_on_after_resume (pd st).
Proof.
  intros Hfree Hpend Hbuf. eexists _, _. split; [reflexivity|]. split; [reflexivity|].
  destruct (next_suspend_is_slumber st) eqn:Hslumber.
  - rewrite rm_hwmon_kb_event_led.
    change (led_attribute LED_MISC) with (Some KB_ATTR_ID_KEY_LIGHT_RM). cbv beta iota.
    rewrite decide_False by (rewrite Hfree; by intros [? ?]).
    rewrite Hslumber, bool_decide_eq_true_2 by reflexivity. cbn [andb fst snd].
    unfold run_work, rm_hwmon_keyboard_attribute_writer. run. rewrite Hfree. cbn.
    rewrite events_since_same_trace by reflexivity.
    repeat split; assumption.
  - destruct (rm_hwmon_kb_event_then_writer E hdr LED_MISC 0 KB_ATTR_ID_KEY_LIGHT_RM st
                eq_refl Hfree Hpend ltac:(by rewrite Hslumber, andb_false_r) Hbuf)
      as (_ & (req & ret & Hev & Hreq) & Hq & Hp & _ & Hd & Hr & Hf & _ & Hl).
    split.
    { rewrite rm_hwmon_kb_event_led.
      change (led_attribute LED_MISC) with (Some KB_ATTR_ID_KEY_LIGHT_RM). cbv beta iota.
      rewrite decide_False by (rewrite Hfree; by intros [? ?]).
      rewrite Hslumber, andb_false_r. destruct Hbuf as [buf ->]. by rewrite Hpend. }
    split; [exact Hl|]. split; [by rewrite Hev; cbn; rewrite Hreq|].
    repeat split; assumption.
Qed.

(** The request to switch the rM light on, then a run of the writer work. *)
Lemma rm_hwmon_kb_event_on_then_writer (E : Env) hdr st :
  request (attr_writer (pd st)) = None →
  pending (worker (attr_writer (pd st))) = false →
  is_Some (alloc_write_buffer_result E (trace st) 1) →
  ∃ s,
    (run_work E hdr AttrWriterWork (rm_hwmon_kb_event E EV_LED LED_MISC 1 st).2).2 = s
    ∧ rm_key_light (pd s) = true
    ∧ omap attribute_write (events_since st s) = [(KB_ATTR_ID_KEY_LIGHT_RM, 1)].
Proof.
  intros Hfree Hpend Hbuf. eexists. split; [reflexivity|].
  destruct (rm_hwmon_kb_event_then_writer E hdr LED_MISC 1 KB_ATTR_ID_KEY_LIGHT_RM st
              eq_refl Hfree Hpend eq_refl Hbuf)
    as (_ & (req & ret & Hev & Hreq) & _ & _ & _ & _ & _ & _ & _ & Hl).
  split; [exact Hl|]. by rewrite Hev; cbn; rewrite Hreq.
Qed.

Lemma events_since_set_pd s p s' : events_since s (set_pd p s') = events_since s s'.
Proof. reflexivity. Qed.

Lemma events_since_of_set_pd s p s' : events_since (set_pd p s) s' = events_since s s'.
Proof. reflexivity. Qed.

(** X25: suspend and resume of a session whose rM light is on, when no
    indicator write is outstanding and write buffers can be allocated.  The
    suspend hook sets the resume flag and asks for the light to go off; if
    the next suspend is a slumber the request is dropped and the light
    stays on, otherwise the writer work writes 0 to the rM light.  The
    resume hook asks for the light to go on and clears the flag, and the
    writer work writes 1: after the round trip the cached state of the rM
    light is on again and the flag is clear. *)
Theorem rm_hwmon_kb_led_save_load (E : Env) (hdr : Z) (st : state) :
  driver_inv st →
  is_Some (kb_dev (pd st)) →
  rm_key_light (pd st) = true →
  request (attr_writer (pd st)) = None →
  (∀ h, is_Some (alloc_write_buffer_result E h 1)) →
  let s1 := (rm_hwmon_kb_led_save E true st).2 in
  let s2 := (run_work E hdr AttrWriterWork s1).2 in
  let s3 := (rm_hwmon_kb_led_load E true s2).2 in
  let s4 := (run_work E hdr AttrWriterWork s3).2 in
  rm_key_on_after_resume (pd s1) = true
  ∧ rm_key_light (pd s2) = next_suspend_is_slumber st
  ∧ rm_key_on_after_resume (pd s3) = false
  ∧ rm_key_light (pd s4) = true
  ∧ omap attribute_write (events_since st s2 ++ events_since s2 s4)
    = if next_suspend_is_slumber st then [(KB_ATTR_ID_KEY_LIGHT_RM, 1)]
      else [(KB_ATTR_ID_KEY_LIGHT_RM, 0); (KB_ATTR_ID_KEY_LIGHT_RM, 1)].
Proof.
  intros Hi [d Hd] Hlight Hfree Halloc.
  assert (Hpend : pending (worker (attr_writer (pd st))) = false).
  { destruct (pending (worker (attr_writer (pd st)))) eqn:Hp; [|reflexivity].
    destruct (inv_writer _ Hi Hp) as [? ?]. congruence. }
  pose proof (inv_surface _ Hi d Hd) as Hs.
  cbv zeta. rewrite (rm_hwmon_kb_led_save_registered E st d Hd Hs Hlight).
  rewrite <- (events_since_of_set_pd st (set_rm_key_on_after_resume true (pd st))).
  destruct (rm_hwmon_kb_event_off_then_writer E hdr
              (set_pd (set_rm_key_on_after_resume true (pd st)) st)
              Hfree Hpend (Halloc _))
    as (s1 & s2 & -> & -> & Hf1 & Hl2 & Hev2 & Hq2 & Hp2 & Hd2 & Hr2 & Hf2).
  assert (Hs2 : registered_surface (pd s2) d).
  { eapply registered_surface_row_shift; [|exact Hs].
    rewrite Hr2. reflexivity. }
  assert (Hd2' : kb_dev (pd s2) = Some d) by (rewrite Hd2; exact Hd).
  rewrite (rm_hwmon_kb_led_load_registered E s2 d Hd2' Hs2 Hf2).
  rewrite run_work_writer_resume_flag, events_since_set_pd.
  destruct (rm_hwmon_kb_event_on_then_writer E hdr s2 Hq2 Hp2 (Halloc _))
    as (s4 & -> & Hl4 & Hev4).
  rewrite omap_app, Hev2, Hev4.
  split; [exact Hf1|]. split.
  { rewrite Hl2. change (next_suspend_is_slumber (set_pd _ st))
      with (next_suspend_is_slumber st).
    destruct (next_suspend_is_slumber st); [exact Hlight|reflexivity]. }
  split; [reflexivity|]. split; [exact Hl4|].
  change (next_suspend_is_slumber (set_pd _ st)) with (next_suspend_is_slumber st).
  by destruct (next_suspend_is_slumber st).
Qed.

Lemma driver_inv_set_rm_key_light v st :
  driver_inv st → driver_inv (set_pd (set_rm_key_light v (pd st)) st).
Proof.
  intros [Il Is Iw]. split; [exact Il| |exact Iw].
  intros d Hd. eapply registered_surface_row_shift; [|exact (Is d Hd)].
  reflexivity.
Qed.

Lemma state_active_inv : driver_inv state_active.
Proof.
  destruct (rm_hwmon_keyboard_register_post env_ok 2 state_probe) as (Hl & _ & Hs).
  split; [exact Hl|exact Hs|].
  intros H. vm_compute in H. discriminate H.
Qed.

Lemma rm_hwmon_kb_led_save_load_witness :
  let st := set_pd (set_rm_key_light true (pd state_active)) state_active in
  let s1 := (rm_hwmon_kb_led_save env_ok true st).2 in
  let s2 := (run_work env_ok 2 AttrWriterWork s1).2 in
  let s3 := (rm_hwmon_kb_led_load env_ok true s2).2 in
  let s4 := (run_work env_ok 2 AttrWriterWork s3).2 in
  rm_key_on_after_resume (pd s1) = true
  ∧ rm_key_light (pd s2) = next_suspend_is_slumber st
  ∧ rm_key_on_after_resume (pd s3) = false
  ∧ rm_key_light (pd s4) = true
  ∧ omap attribute_write (events_since st s2 ++ events_since s2 s4)
    = if next_suspend_is_slumber st then [(KB_ATTR_ID_KEY_LIGHT_RM, 1)]
      else [(KB_ATTR_ID_KEY_LIGHT_RM, 0); (KB_ATTR_ID_KEY_LIGHT_RM, 1)].
Proof.
  intros st. apply (rm_hwmon_kb_led_save_load env_ok 2 st); subst st.
  - apply driver_inv_set_rm_key_light, state_active_inv.
  - vm_compute. eexists. reflexivity.
  - vm_compute. reflexivity.
  - vm_compute. reflexivity.
  - intros h. eexists. reflexivity.
Defined.

(** *** The attribute table *)

(** X27: the attribute table is consistent with the rest of the driver: no
    attribute id is registered twice; every attribute the driver asks the
    accessory for, at connect and in the status reads, has a reader in the
    table, and so has every attribute it writes; and the ids registered as
    character strings are exactly the three the string reader knows, so
    that its refusal of an unknown id is never met through the table. *)
Theorem attribute_configs_consistent (E : Env) :
  NoDup (cfg_id <$> attribute_configs E)
  ∧ (∀ id, id ∈ init_attr ++ [KB_ATTR_ID_CN_SERIAL_NUMBER; KB_ATTR_ID_MFG_PROD_RECORDS;
                              KB_ATTR_ID_BKL_BRIGHTNESS; KB_ATTR_ID_KEY_LIGHT_CAPS;
                              KB_ATTR_ID_KEY_LIGHT_RM] →
           id ∈ cfg_id <$> attribute_configs E)
  ∧ (∀ c, c ∈ attribute_configs E →
          cfg_type c = ATTRIBUTE_STORAGE_DATA_CHARACTER_STRING
          ↔ is_Some (octet_attribute_of (cfg_id c))).
Proof.
  split; [|split].
  - apply (bool_decide_unpack _). by vm_compute.
  - intros id Hin. apply list_elem_of_In in Hin. apply list_elem_of_In.
    cbn in Hin. cbn.
    repeat (destruct Hin as [<-|Hin]; [tauto|]). done.
  - apply Forall_forall. unfold attribute_configs.
    repeat first
      [ apply Forall_nil_2
      | apply Forall_cons_2;
        [ cbn [cfg_type cfg_id]; split;
          [ intros H; first [ by (vm_compute in H) | vm_compute; eexists; reflexivity ]
          | intros [x Hx]; first [ reflexivity | by (vm_compute in Hx) ] ]
        | ] ].
Qed.
